(** * nvram_uio: user-space access test and UIO PCI driver

    A shallow embedding of [src/userspace/userspace_access_test.c] and of
    [src/driver/nvram_uio.c].  Machine integers are [Z] with their
    wrap-around written out, C character buffers are lists of [ascii],
    path names are [string]s, and the effects of the test program (standard
    output, system calls, the mapped register window) are threaded through
    a small state-and-exit monad. *)

From Stdlib Require Import ZArith Lia Bool Ascii String.
From stdpp Require Import base tactics option list strings pretty gmap.

Set Default Proof Using "Type".

Local Open Scope Z_scope.

(** ** Machine integers *)

Definition uint8 (x : Z) : Z := x mod 2 ^ 8.
Definition uint32 (x : Z) : Z := x mod 2 ^ 32.

(** ** Constants of the C library and of the kernel headers *)

Definition EXIT_SUCCESS : Z := 0.
Definition EXIT_FAILURE : Z := 1.
Definition PATH_MAX : nat := 4096.
Definition MAP_FAILED : Z := -1.
Definition ENOMEM : Z := 12.
Definition ENODEV : Z := 19.
Definition UIO_CLASS_ROOT : string := "/sys/class/uio".

Definition NUL : ascii := "000"%char.
Definition newline : ascii := "010"%char.

(** ** The world the test program runs in *)

(** [d_type] of a directory entry, as <dirent.h> enumerates it. *)
Inductive d_type_t : Set :=
| DT_UNKNOWN | DT_FIFO | DT_CHR | DT_DIR | DT_BLK | DT_REG | DT_LNK | DT_SOCK | DT_WHT.

Record dirent : Set := Dirent { d_type : d_type_t; d_name : string }.

(** What the operating system answers.  [os_uio_dir] is the stream that
    opendir/readdir give for [UIO_CLASS_ROOT] ([None]: opendir returns NULL),
    [os_sysfs] holds the attribute files that fopen can open for reading,
    [os_open] is the descriptor (or -1) that open gives for a device path,
    [os_mmap len fd off] is the page at which the kernel places a new
    mapping ([None]: MAP_FAILED), [os_pagesize] is getpagesize (). *)
Record os_env : Type := OsEnv {
  os_uio_dir : option (list dirent);
  os_sysfs : gmap string (list ascii);
  os_open : string -> Z;
  os_mmap : Z -> Z -> Z -> option N;
  os_pagesize : Z;
}.

Inductive printf_arg : Set :=
| Arg_s (s : string)
| Arg_x (x : Z)
| Arg_u (u : Z).

(** A line written to standard output (or standard error for perror). *)
Inductive output : Set :=
| Printf (format : string) (args : list printf_arg)
| Perror.

Inductive syscall : Set :=
| Sys_fopen (pathname : string)
| Sys_open (pathname : string) (fd : Z)
| Sys_mmap (len fd off : Z) (addr : Z)
| Sys_munmap (addr len : Z) (rc : Z)
| Sys_close (fd : Z)
| Reg_write (addr : Z) (value : Z).

Record world : Type := World {
  w_stdout : list output;
  w_calls : list syscall;
  w_fds : list Z;
  w_mapped : list Z;
  w_mem : Z -> Z;
}.

Definition initial_world (mem : Z -> Z) : world :=
  {| w_stdout := []; w_calls := []; w_fds := []; w_mapped := []; w_mem := mem |}.

(** ** Programs: state passing, with exit () and undefined behaviour *)

Inductive outcome (A : Type) : Type :=
| Ret (a : A)
| Exit (status : Z)
| Undefined.
Arguments Ret {A} a.
Arguments Exit {A} status.
Arguments Undefined {A}.

Definition prog (A : Type) : Type := world -> outcome A * world.

#[global] Instance prog_ret : MRet prog := fun A a w => (Ret a, w).

#[global] Instance prog_bind : MBind prog := fun A B f m w =>
  match m w with
  | (Ret a, w') => f a w'
  | (Exit status, w') => (Exit status, w')
  | (Undefined, w') => (Undefined, w')
  end.

Definition exit {A : Type} (status : Z) : prog A := fun w => (Exit status, w).
Definition undefined_behaviour {A : Type} : prog A := fun w => (Undefined, w).

Definition emit (o : output) : prog unit := fun w =>
  (Ret (),
   {| w_stdout := w_stdout w ++ [o]; w_calls := w_calls w; w_fds := w_fds w;
      w_mapped := w_mapped w; w_mem := w_mem w |}).

Definition printf (format : string) (args : list printf_arg) : prog unit :=
  emit (Printf format args).

Definition perror : prog unit := emit Perror.

Definition log_call (c : syscall) (w : world) : world :=
  {| w_stdout := w_stdout w; w_calls := w_calls w ++ [c]; w_fds := w_fds w;
     w_mapped := w_mapped w; w_mem := w_mem w |}.

(** A volatile byte read through a pointer into the window.  The pointer
    is taken to be valid: an access outside the mapped pages, which ends the
    program with a signal, is not part of [read8] and [write8]; the theorems
    about main state where the registers lie in the mapping. *)
Definition load8 (w : world) (addr : Z) : Z := uint8 (w_mem w addr).

Definition read8 (addr : Z) : prog Z := fun w => (Ret (load8 w addr), w).

(** A byte stored through a pointer into the window. *)
Definition store8 (addr value : Z) (w : world) : world :=
  {| w_stdout := w_stdout w; w_calls := w_calls w ++ [Reg_write addr value];
     w_fds := w_fds w; w_mapped := w_mapped w;
     w_mem := fun a => if a =? addr then value else w_mem w a |}.

Definition write8 (addr value : Z) : prog unit := fun w => (Ret (), store8 addr value w).

(** snprintf (buf, size, ...): at most [size - 1] characters are kept. *)
Definition snprintf (size : nat) (text : string) : string :=
  String.substring 0 (size - 1) text.

(** ** C strings and stdio *)

(** The characters of a buffer up to its first NUL. *)
Fixpoint c_str (buf : list ascii) : list ascii :=
  match buf with
  | [] => []
  | c :: rest => if bool_decide (c = NUL) then [] else c :: c_str rest
  end.

(** The characters fgets stores when at most [n] may be read: it stops
    after a newline or at end of file. *)
Fixpoint fgets_chars (n : nat) (stream : list ascii) : list ascii :=
  match n, stream with
  | S n', c :: rest =>
      c :: (if bool_decide (c = newline) then [] else fgets_chars n' rest)
  | _, _ => []
  end.

(** fgets (buf, size, f) on a freshly opened file: NULL at end of file. *)
Definition fgets (size : nat) (stream : list ascii) : option (list ascii) :=
  match stream with
  | [] => None
  | _ :: _ => Some (fgets_chars (size - 1) stream)
  end.

Definition strcmp_eq (s1 s2 : list ascii) : bool :=
  bool_decide (c_str s1 = c_str s2).

Section Nvram_uio.

(** ** umem.h

    Both sources include umem.h for the driver name, the index of the
    csr mapping, the register offsets and the LED encodings.  The header's
    values are taken as parameters: every result below holds for each
    header that satisfies the hypotheses stated with it. *)

Variable DRIVER_NAME : list ascii.
Variable CSR_MAPPING_INDEX : nat.
Variable MEMCTRLSTATUS_MAGIC : Z.
Variable MEMCTRLSTATUS_MEMORY : Z.
Variable MEMCTRLSTATUS_BATTERY : Z.
Variable MEMCTRLCMD_LEDCTRL : Z.
Variable MEMCTRLCMD_ERRCTRL : Z.
Variable LED_FAULT : Z.
Variable LED_FLIP : Z.
Variable LED_OFF : Z.
Variable LED_ON : Z.
Variable LED_FLASH_3_5 : Z.
Variable LED_FLASH_7_0 : Z.
Variable MAGIC_NUMBERS_PER_DEV : nat.

(** The operating system the test program talks to, and the C library's
    conversion [fscanf (f, "0x%x", &v)]: [Some v] when it returns 1, where
    [v] is the number that the matched digits denote. *)
Variable os : os_env.
Variable fscanf_0x_x : list ascii -> option Z.

(** ** userspace_access_test.c *)

Record nvram_uio_context : Type := Context {
  device_name : string;
  csr_mmap_offset : Z;
  csr_mmap_size : Z;
  device_fd : Z;
  csr : Z;
  memctrlstatus_magic : Z;
  memctrlstatus_memory : Z;
  memctrlstatus_battery : Z;
  memctrlcmd_ledctrl : Z;
  memctrlcmd_errctrl : Z;
}.

(** memset (context, 0, sizeof (nvram_uio_context)) *)
Definition zeroed_context : nvram_uio_context :=
  {| device_name := ""; csr_mmap_offset := 0; csr_mmap_size := 0; device_fd := 0;
     csr := 0; memctrlstatus_magic := 0; memctrlstatus_memory := 0;
     memctrlstatus_battery := 0; memctrlcmd_ledctrl := 0; memctrlcmd_errctrl := 0 |}.

Definition set_device_name (context : nvram_uio_context) (name : string) : nvram_uio_context :=
  {| device_name := name; csr_mmap_offset := csr_mmap_offset context;
     csr_mmap_size := csr_mmap_size context; device_fd := device_fd context;
     csr := csr context; memctrlstatus_magic := memctrlstatus_magic context;
     memctrlstatus_memory := memctrlstatus_memory context;
     memctrlstatus_battery := memctrlstatus_battery context;
     memctrlcmd_ledctrl := memctrlcmd_ledctrl context;
     memctrlcmd_errctrl := memctrlcmd_errctrl context |}.

Definition fopen_r (pathname : string) : prog (option (list ascii)) := fun w =>
  (Ret (os_sysfs os !! pathname), log_call (Sys_fopen pathname) w).

Definition is_dir_or_link (t : d_type_t) : bool :=
  match t with
  | DT_DIR | DT_LNK => true
  | _ => false
  end.

Definition uio_name_pathname (entry : dirent) : string :=
  snprintf PATH_MAX (UIO_CLASS_ROOT +:+ "/" +:+ d_name entry +:+ "/name").

(** The body of the readdir loop of find_uio_device for one entry: the new
    value of [found_nvram_uio_device] and the context. *)
Definition find_uio_device_entry (entry : dirent) (context : nvram_uio_context)
  : prog (bool * nvram_uio_context) :=
  if is_dir_or_link (d_type entry) then
    uio_param_file ← fopen_r (uio_name_pathname entry);
    match uio_param_file with
    | None => mret (false, context)
    | Some stream =>
        match fgets 80 stream with
        | None => mret (false, context)
        | Some uio_driver_name =>
            match length (c_str uio_driver_name) with
            | O => undefined_behaviour (* uio_driver_name[strlen (..) - 1] with strlen 0 *)
            | S last =>
                let uio_driver_name :=
                  if bool_decide (uio_driver_name !! last = Some newline)
                  then <[last := NUL]> uio_driver_name
                  else uio_driver_name in
                let found_nvram_uio_device := strcmp_eq uio_driver_name DRIVER_NAME in
                mret (found_nvram_uio_device,
                      if found_nvram_uio_device
                      then set_device_name context (d_name entry)
                      else context)
            end
        end
    end
  else mret (false, context).

(** while ((entry != NULL) && !found_nvram_uio_device) over the entries
    readdir still has to give. *)
Fixpoint find_uio_device_loop (stream : list dirent) (found_nvram_uio_device : bool)
    (context : nvram_uio_context) : prog (bool * nvram_uio_context) :=
  match stream with
  | [] => mret (found_nvram_uio_device, context)
  | entry :: rest =>
      if found_nvram_uio_device then mret (found_nvram_uio_device, context)
      else
        r ← find_uio_device_entry entry context;
        find_uio_device_loop rest r.1 r.2
  end.

Definition find_uio_device : prog nvram_uio_context :=
  let context := zeroed_context in
  match os_uio_dir os with
  | None =>
      printf "Failed to open %s\n" [Arg_s UIO_CLASS_ROOT];;
      exit EXIT_FAILURE
  | Some stream =>
      r ← find_uio_device_loop stream false context;
      if negb r.1 then
        printf "Failed to find entry for %s under %s\n"
          [Arg_s (string_of_list_ascii DRIVER_NAME); Arg_s UIO_CLASS_ROOT];;
        exit EXIT_FAILURE
      else mret r.2
  end.

Definition uio_mapping_pathname (device_name : string) (mapping_index : nat)
    (param_name : string) : string :=
  snprintf PATH_MAX
    (UIO_CLASS_ROOT +:+ "/" +:+ device_name +:+ "/maps/map" +:+ pretty mapping_index
       +:+ "/" +:+ param_name).

(** The values an unsigned int holds. *)
Definition fits_uint32 (v : Z) : bool := (0 <=? v) && (v <? 2 ^ 32).

(** The conversion stores its result in the unsigned int param_value; the
    behaviour is undefined when the number converted does not fit one. *)
Definition read_uio_mapping_param (device_name : string) (mapping_index : nat)
    (param_name : string) : prog Z :=
  let uio_param_pathname := uio_mapping_pathname device_name mapping_index param_name in
  uio_param_file ← fopen_r uio_param_pathname;
  match uio_param_file ≫= fscanf_0x_x with
  | Some param_value =>
      if fits_uint32 param_value then mret param_value else undefined_behaviour
  | None =>
      printf "Failed to read value from %s\n" [Arg_s uio_param_pathname];;
      exit EXIT_FAILURE
  end.

Definition get_uio_device_parameters (context : nvram_uio_context) : prog nvram_uio_context :=
  offset ← read_uio_mapping_param (device_name context) CSR_MAPPING_INDEX "offset";
  size ← read_uio_mapping_param (device_name context) CSR_MAPPING_INDEX "size";
  mret {| device_name := device_name context; csr_mmap_offset := offset;
          csr_mmap_size := size; device_fd := device_fd context; csr := csr context;
          memctrlstatus_magic := memctrlstatus_magic context;
          memctrlstatus_memory := memctrlstatus_memory context;
          memctrlstatus_battery := memctrlstatus_battery context;
          memctrlcmd_ledctrl := memctrlcmd_ledctrl context;
          memctrlcmd_errctrl := memctrlcmd_errctrl context |}.

(** *** open, mmap, munmap and close as the operating system provides them *)

Definition sys_open (pathname : string) : prog Z := fun w =>
  let fd := os_open os pathname in
  (Ret fd,
   {| w_stdout := w_stdout w; w_calls := w_calls w ++ [Sys_open pathname fd];
      w_fds := if fd =? -1 then w_fds w else fd :: w_fds w;
      w_mapped := w_mapped w; w_mem := w_mem w |}).

(** The pages a mapping of [len] bytes at [addr] occupies. *)
Definition pages_of (addr len : Z) : list Z :=
  (fun i : nat => addr + Z.of_nat i * os_pagesize os)
    <$> seq 0 (Z.to_nat ((len + os_pagesize os - 1) / os_pagesize os)).

Definition sys_mmap (len fd off : Z) : prog Z := fun w =>
  match os_mmap os len fd off with
  | None => (Ret MAP_FAILED, log_call (Sys_mmap len fd off MAP_FAILED) w)
  | Some page =>
      let addr := Z.of_N page * os_pagesize os in
      (Ret addr,
       {| w_stdout := w_stdout w; w_calls := w_calls w ++ [Sys_mmap len fd off addr];
          w_fds := w_fds w; w_mapped := pages_of addr len ++ w_mapped w;
          w_mem := w_mem w |})
  end.

(** munmap (addr, len): EINVAL unless [addr] is a multiple of the page size
    and [len] is not 0; otherwise every page in [addr, addr + len) is
    unmapped. *)
Definition sys_munmap (addr len : Z) : prog Z := fun w =>
  if (addr mod os_pagesize os =? 0) && (0 <? len) then
    (Ret 0,
     {| w_stdout := w_stdout w; w_calls := w_calls w ++ [Sys_munmap addr len 0];
        w_fds := w_fds w;
        w_mapped := filter (fun p => ~ (addr <= p < addr + len)) (w_mapped w);
        w_mem := w_mem w |})
  else (Ret (-1), log_call (Sys_munmap addr len (-1)) w).

Definition sys_close (fd : Z) : prog unit := fun w =>
  (Ret (),
   {| w_stdout := w_stdout w; w_calls := w_calls w ++ [Sys_close fd];
      w_fds := filter (fun d => d <> fd) (w_fds w);
      w_mapped := w_mapped w; w_mem := w_mem w |}).

Definition open_uio_device (context : nvram_uio_context) : prog nvram_uio_context :=
  let device_pathname := snprintf PATH_MAX ("/dev/" +:+ device_name context) in
  fd ← sys_open device_pathname;
  if fd =? -1 then
    printf "Failed to open %s\n" [Arg_s device_pathname];;
    perror;;
    exit EXIT_FAILURE
  else
    base ← sys_mmap (csr_mmap_size context) fd (Z.of_nat CSR_MAPPING_INDEX * os_pagesize os);
    if base =? MAP_FAILED then
      printf "Failed to map csr registers for %s\n" [Arg_s (device_name context)];;
      perror;;
      exit EXIT_FAILURE
    else
      let csr := base + csr_mmap_offset context in
      mret {| device_name := device_name context;
              csr_mmap_offset := csr_mmap_offset context;
              csr_mmap_size := csr_mmap_size context;
              device_fd := fd;
              csr := csr;
              memctrlstatus_magic := csr + MEMCTRLSTATUS_MAGIC;
              memctrlstatus_memory := csr + MEMCTRLSTATUS_MEMORY;
              memctrlstatus_battery := csr + MEMCTRLSTATUS_BATTERY;
              memctrlcmd_ledctrl := csr + MEMCTRLCMD_LEDCTRL;
              memctrlcmd_errctrl := csr + MEMCTRLCMD_ERRCTRL |}.

Definition close_uio_device (context : nvram_uio_context) : prog nvram_uio_context :=
  rc ← sys_munmap (csr context) (csr_mmap_size context);
  if negb (rc =? 0) then
    printf "Failed to munmap %s\n" [Arg_s (device_name context)];;
    exit EXIT_FAILURE
  else
    sys_close (device_fd context);;
    mret {| device_name := device_name context;
            csr_mmap_offset := csr_mmap_offset context;
            csr_mmap_size := csr_mmap_size context;
            device_fd := device_fd context;
            csr := 0;
            memctrlstatus_magic := memctrlstatus_magic context;
            memctrlstatus_memory := memctrlstatus_memory context;
            memctrlstatus_battery := memctrlstatus_battery context;
            memctrlcmd_ledctrl := memctrlcmd_ledctrl context;
            memctrlcmd_errctrl := memctrlcmd_errctrl context |}.

(** The byte set_led stores, from the byte it has read; [state] is the
    unsigned char the caller passes, a number from 0 to 255. *)
Definition set_led_byte (led shift state : Z) : Z :=
  if state =? LED_FLIP then
    uint8 (Z.lxor led (Z.shiftl 1 shift))
  else
    let led := uint8 (Z.land led (Z.lnot (Z.shiftl 3 shift))) in
    uint8 (Z.lor led (Z.shiftl state shift)).

Definition set_led (context : nvram_uio_context) (shift state : Z) : prog unit :=
  led ← read8 (memctrlcmd_ledctrl context);
  write8 (memctrlcmd_ledctrl context) (set_led_byte led shift state).

Definition main : prog Z :=
  context ← find_uio_device;
  context ← get_uio_device_parameters context;
  context ← open_uio_device context;
  v ← read8 (memctrlstatus_magic context);
  printf "memctrlstatus_magic=0x%x\n" [Arg_x v];;
  v ← read8 (memctrlstatus_memory context);
  printf "memctrlstatus_memory=0x%x\n" [Arg_x v];;
  v ← read8 (memctrlstatus_battery context);
  printf "memctrlstatus_battery=0x%x\n" [Arg_x v];;
  v ← read8 (memctrlcmd_ledctrl context);
  printf "memctrlcmd_ledctrl=0x%x\n" [Arg_x v];;
  v ← read8 (memctrlcmd_errctrl context);
  printf "memctrlcmd_errctrl=0x%x\n" [Arg_x v];;
  set_led context LED_FAULT LED_ON;;
  set_led context LED_FAULT LED_FLASH_7_0;;
  set_led context LED_FAULT LED_FLASH_3_5;;
  set_led context LED_FAULT LED_OFF;;
  close_uio_device context;;
  mret EXIT_SUCCESS.

(** ** nvram_uio.c *)

(** Kernel constants the driver uses. *)
Definition MAX_UIO_MAPS : nat := 5.
Definition UIO_MEM_PHYS : Z := 1.
Definition PCI_LATENCY_TIMER : Z := 0x0d.
Definition IRQF_SHARED : Z := 0x80.

(** The page size and the width of [unsigned long] of the kernel the
    driver is built for. *)
Variable PAGE_SIZE : Z.
Variable BITS_PER_LONG : Z.

Definition ulong (x : Z) : Z := x mod 2 ^ BITS_PER_LONG.

Record pci_dev : Type := PciDev {
  device : Z;
  irq : Z;
  pci_resource_start0 : Z;
  pci_resource_len0 : Z;
}.

Record uio_mem : Type := UioMem {
  mem_name : string;
  mem_addr : Z;
  mem_size : Z;
  mem_memtype : Z;
  mem_internal_addr : Z;
}.

Record uio_info : Type := UioInfo {
  info_name : list ascii;
  info_version : string;
  info_mem : list uio_mem;
  info_irq : Z;
  info_irq_flags : Z;
}.

Definition zeroed_uio_mem : uio_mem :=
  {| mem_name := ""; mem_addr := 0; mem_size := 0; mem_memtype := 0; mem_internal_addr := 0 |}.

(** What the kernel services answer during one probe. *)
Record kernel : Type := Kernel {
  k_kzalloc : bool;
  k_pci_enable_device : Z;
  k_pci_set_dma_mask : Z;
  k_pci_request_regions : Z;
  k_ioremap_nocache : Z -> Z -> Z;
  k_readb : Z -> Z;
  k_uio_register_device : Z;
}.

Inductive kcall : Type :=
| K_kzalloc
| K_pci_enable_device
| K_pci_write_config_byte (where_ : Z) (val : Z)
| K_pci_set_master
| K_dev_printk (level : string) (format : string) (args : list printf_arg)
| K_pci_set_dma_mask
| K_pci_request_regions
| K_ioremap_nocache (offset : Z) (size : Z)
| K_readb (addr : Z)
| K_uio_register_device (info : uio_info)
| K_pci_set_drvdata
| K_iounmap (addr : Z)
| K_pci_release_regions
| K_pci_disable_device
| K_kfree.

(** a[i] = v on an array of [length a] elements; [None] when [i] is out of
    bounds. *)
Definition array_store {A : Type} (i : nat) (v : A) (a : list A) : option (list A) :=
  if decide (i < length a)%nat then Some (<[i := v]> a) else None.

(** The switch on dev->device: the array magic_numbers afterwards, where
    [None] marks an element that was never assigned. *)
Definition select_magic_numbers (device : Z) : option (list (option Z)) :=
  let magic_numbers := replicate (MAGIC_NUMBERS_PER_DEV + 1) (@None Z) in
  if device =? 0x5415 then
    magic_numbers ← array_store 0 (Some 0x59) magic_numbers;
    array_store 1 (Some 0x100) magic_numbers
  else if device =? 0x5425 then
    magic_numbers ← array_store 0 (Some 0x5C) magic_numbers;
    magic_numbers ← array_store 1 (Some 0x5E) magic_numbers;
    array_store 2 (Some 0x100) magic_numbers
  else if device =? 0x6155 then
    magic_numbers ← array_store 0 (Some 0x99) magic_numbers;
    array_store 1 (Some 0x100) magic_numbers
  else
    array_store 0 (Some 0x100) magic_numbers.

(** The for loop over magic_numbers from index [i], with [n] iterations
    left before i reaches MAGIC_NUMBERS_PER_DEV: the final magic_number_ok,
    or [None] when an element outside the array or an unassigned one is
    read. *)
Fixpoint magic_number_loop (magic_numbers : list (option Z)) (magic_number : Z)
    (i n : nat) : option bool :=
  match n with
  | O => Some false
  | S n' =>
      match magic_numbers !! i with
      | Some (Some m) =>
          if m =? magic_number then Some true
          else if 0x100 <=? m then Some false
          else magic_number_loop magic_numbers magic_number (S i) n'
      | _ => None
      end
  end.

Definition magic_number_ok (device magic_number : Z) : option bool :=
  magic_numbers ← select_magic_numbers device;
  magic_number_loop magic_numbers magic_number 0 MAGIC_NUMBERS_PER_DEV.

(** csr_len = ((csr_len + PAGE_SIZE - 1) / PAGE_SIZE) * PAGE_SIZE *)
Definition page_align_len (csr_len : Z) : Z :=
  ulong (ulong (ulong (ulong (csr_len + PAGE_SIZE) - 1) / PAGE_SIZE) * PAGE_SIZE).

Definition out_free : list kcall := [K_kfree].
Definition out_disable : list kcall := K_pci_disable_device :: out_free.
Definition out_release : list kcall := K_pci_release_regions :: out_disable.
Definition out_unmap (addr : Z) : list kcall := K_iounmap addr :: out_release.

Definition mem_at (mem : list uio_mem) (i : nat) : uio_mem := default zeroed_uio_mem (mem !! i).

(** The part of the probe from the page alignment of csr_len on. *)
Definition nvram_uio_pci_probe_csr (k : kernel) (dev : pci_dev) (t : list kcall)
    (csr_base csr_len : Z) : option (Z * list kcall) :=
  let csr_len := page_align_len csr_len in
  let mem := replicate MAX_UIO_MAPS zeroed_uio_mem in
  let internal_addr := k_ioremap_nocache k csr_base csr_len in
  let t := t ++ [K_ioremap_nocache csr_base csr_len] in
  mem ← array_store CSR_MAPPING_INDEX
           {| mem_name := ""; mem_addr := csr_base; mem_size := 0; mem_memtype := 0;
              mem_internal_addr := internal_addr |} mem;
  if internal_addr =? 0 then
    Some (- ENODEV,
          t ++ [K_dev_printk "KERN_ERR" "Unable to remap memory region\n" []] ++ out_release)
  else
    mem ← array_store CSR_MAPPING_INDEX
             {| mem_name := "csr"; mem_addr := csr_base; mem_size := csr_len;
                mem_memtype := UIO_MEM_PHYS; mem_internal_addr := internal_addr |} mem;
    let csr := mem_at mem CSR_MAPPING_INDEX in
    let t := t ++ [K_dev_printk "KERN_INFO" "CSR 0x%08llx -> 0x%p (0x%llx)\n"
                     [Arg_x (mem_addr csr); Arg_x (mem_internal_addr csr);
                      Arg_x (mem_size csr)]] in
    let magic_addr := mem_internal_addr (mem_at mem 0) + MEMCTRLSTATUS_MAGIC in
    let magic_number := uint8 (k_readb k magic_addr) in
    let t := t ++ [K_readb magic_addr] in
    ok ← magic_number_ok (device dev) magic_number;
    if negb ok then
      Some (- ENODEV,
            t ++ [K_dev_printk "KERN_ERR" "Magic number 0x%02x invalid for device 0x%04x\n"
                    [Arg_x magic_number; Arg_x (device dev)]] ++ out_release)
    else
      let info := {| info_name := DRIVER_NAME; info_version := "0.0.1"; info_mem := mem;
                     info_irq := irq dev; info_irq_flags := IRQF_SHARED |} in
      let t := t ++ [K_uio_register_device info] in
      if negb (k_uio_register_device k =? 0) then
        Some (- ENODEV, t ++ out_unmap (mem_internal_addr (mem_at mem 0)))
      else Some (0, t ++ [K_pci_set_drvdata]).

(** The return value of the probe and the kernel services it called, in
    order; [None] for an access outside an array. *)
Definition nvram_uio_pci_probe (k : kernel) (dev : pci_dev) : option (Z * list kcall) :=
  if negb (k_kzalloc k) then Some (- ENOMEM, [K_kzalloc])
  else
    let t := [K_kzalloc; K_pci_enable_device] in
    if negb (k_pci_enable_device k =? 0) then Some (- ENODEV, t ++ out_free)
    else
      let t := t ++ [K_pci_write_config_byte PCI_LATENCY_TIMER 0xF8; K_pci_set_master;
                     K_dev_printk "KERN_INFO"
                       "Curtiss Wright controller found (PCI Mem Module (Battery Backup))\n" [];
                     K_pci_set_dma_mask] in
      if negb (k_pci_set_dma_mask k =? 0) then
        Some (- ENOMEM, t ++ [K_dev_printk "KERN_WARNING" "NO suitable DMA found\n" []])
      else
        let t := t ++ [K_pci_request_regions] in
        if negb (k_pci_request_regions k =? 0) then
          Some (- ENODEV,
                t ++ [K_dev_printk "KERN_ERR" "Unable to request memory region\n" []]
                  ++ out_disable)
        else
          let csr_base := ulong (pci_resource_start0 dev) in
          let csr_len := ulong (pci_resource_len0 dev) in
          if (csr_base =? 0) || (csr_len =? 0) then Some (- ENODEV, t ++ out_release)
          else nvram_uio_pci_probe_csr k dev t csr_base csr_len.

(** *** nvram_uio_pci_remove *)

Inductive remove_call : Type :=
| Rm_uio_unregister_device (info : uio_info)
| Rm_pci_release_regions
| Rm_pci_disable_device
| Rm_pci_set_drvdata_null
| Rm_iounmap (addr : Z)
| Rm_kfree.

(** The kernel services nvram_uio_pci_remove calls, in order, where [info]
    is the driver data of the device: the uio_info that a successful probe
    stored with pci_set_drvdata. *)
Definition nvram_uio_pci_remove (info : uio_info) : list remove_call :=
  [Rm_uio_unregister_device info; Rm_pci_release_regions; Rm_pci_disable_device;
   Rm_pci_set_drvdata_null; Rm_iounmap (mem_internal_addr (mem_at (info_mem info) 0));
   Rm_kfree].

(** ** The specification's reading of the driver's tables *)

(** The acceptable magic bytes of a variant, in order, without the
    sentinel that ends the list. *)
Definition spec_magic_candidates (device : Z) : list Z :=
  if device =? 0x5415 then [0x59]
  else if device =? 0x5425 then [0x5C; 0x5E]
  else if device =? 0x6155 then [0x99]
  else [].

(** The magic-number rejection that the probe logs. *)
Definition magic_rejection (magic_number device : Z) : kcall :=
  K_dev_printk "KERN_ERR" "Magic number 0x%02x invalid for device 0x%04x\n"
    [Arg_x magic_number; Arg_x device].

(** ** The specification's reading of the device registry *)

(** A text without a trailing newline. *)
Definition trim_newline (text : list ascii) : list ascii :=
  match last text with
  | Some c => if bool_decide (c = newline) then take (length text - 1) text else text
  | None => text
  end.

(** The identity attribute of a registry entry: the content of its name
    file, trimmed of a trailing newline. *)
Definition identity_attribute (entry : dirent) : option (list ascii) :=
  trim_newline <$> os_sysfs os !! uio_name_pathname entry.

(** A directory-like entry whose identity equals the target string. *)
Definition spec_matches (entry : dirent) : bool :=
  is_dir_or_link (d_type entry)
  && bool_decide (identity_attribute entry = Some DRIVER_NAME).

(** A single line of text: no NUL, and no newline except as the last
    character. *)
Fixpoint line_of_text (text : list ascii) : bool :=
  match text with
  | [] => true
  | c :: rest =>
      match rest with
      | [] => negb (bool_decide (c = NUL))
      | _ :: _ =>
          negb (bool_decide (c = NUL)) && negb (bool_decide (c = newline))
          && line_of_text rest
      end
  end.

(** The name file of an entry, when there is one, holds a line of text. *)
Definition name_file_is_line (entry : dirent) : bool :=
  match os_sysfs os !! uio_name_pathname entry with
  | Some text => line_of_text text
  | None => true
  end.

(** The driver name of umem.h is a C string of fewer than 79 characters,
    and not the empty one. *)
Definition driver_name_ok : Prop :=
  Forall (fun c => c <> NUL) DRIVER_NAME /\ (0 < length DRIVER_NAME < 79)%nat.

(** The fopen calls that examining the given entries makes. *)
Definition fopen_calls (entries : list dirent) : list syscall :=
  (fun entry => Sys_fopen (uio_name_pathname entry))
    <$> filter (fun entry => is_dir_or_link (d_type entry) = true) entries.

Definition log_calls (calls : list syscall) (w : world) : world :=
  {| w_stdout := w_stdout w; w_calls := w_calls w ++ calls; w_fds := w_fds w;
     w_mapped := w_mapped w; w_mem := w_mem w |}.

(** The register writes among the calls of a run, in order. *)
Definition reg_writes (calls : list syscall) : list (Z * Z) :=
  omap (fun c => match c with Reg_write addr value => Some (addr, value) | _ => None end)
    calls.

(** What a run shows: how it ended, what it printed, and what it wrote to
    the registers. *)
Definition behaviour {A : Type} (r : outcome A * world)
  : outcome A * list output * list (Z * Z) :=
  (r.1, w_stdout r.2, reg_writes (w_calls r.2)).

(** The five lines main prints for the registers of the window at [csr],
    whose bytes are [mem]. *)
Definition register_lines (mem : Z -> Z) (csr : Z) : list output :=
  [Printf "memctrlstatus_magic=0x%x\n" [Arg_x (uint8 (mem (csr + MEMCTRLSTATUS_MAGIC)))];
   Printf "memctrlstatus_memory=0x%x\n" [Arg_x (uint8 (mem (csr + MEMCTRLSTATUS_MEMORY)))];
   Printf "memctrlstatus_battery=0x%x\n" [Arg_x (uint8 (mem (csr + MEMCTRLSTATUS_BATTERY)))];
   Printf "memctrlcmd_ledctrl=0x%x\n" [Arg_x (uint8 (mem (csr + MEMCTRLCMD_LEDCTRL)))];
   Printf "memctrlcmd_errctrl=0x%x\n" [Arg_x (uint8 (mem (csr + MEMCTRLCMD_ERRCTRL)))]].

(** The five registers main reads, by their offsets in the window. *)
Definition registers : list Z :=
  [MEMCTRLSTATUS_MAGIC; MEMCTRLSTATUS_MEMORY; MEMCTRLSTATUS_BATTERY; MEMCTRLCMD_LEDCTRL;
   MEMCTRLCMD_ERRCTRL].

(** [addr] lies in a page of the mapping of [len] bytes at [base]. *)
Definition in_mapping (base len addr : Z) : Prop :=
  exists page, page ∈ pages_of base len /\ page <= addr < page + os_pagesize os.

(** Modelled from the spec: the codes of the four LED states, OFF = 0,
    ON = 1, FLASH_SLOW = 2 and FLASH_FAST = 3, and the order of the four
    transitions on the success path.  umem.h, which names the states for the
    code, is not under src. *)
Definition OFF : Z := 0.
Definition ON : Z := 1.
Definition FLASH_SLOW : Z := 2.
Definition FLASH_FAST : Z := 3.
Definition spec_led_order : list Z := [ON; FLASH_SLOW; FLASH_FAST; OFF].

(** The state in the two bits of the LED at [shift] of a register byte. *)
Definition led_field (shift value : Z) : Z := Z.land (Z.shiftr value shift) 3.

(** A transition of the LED at [shift] to [state]: the byte [value]
    written has that state in the field of the LED and every other bit as in
    [old], the byte the register held. *)
Definition led_set_to (old shift state value : Z) : Prop :=
  (0 <= value < 256) /\
  (led_field shift value = state) /\
  (forall i, 0 <= i -> i <> shift -> i <> shift + 1 -> Z.testbit value i = Z.testbit old i).

(** Four transitions of the LED at shift LED_FAULT, each a write to the
    LED register: to LED_ON, to LED_FLASH_7_0, to LED_FLASH_3_5, to LED_OFF. *)
Definition led_transitions (mem : Z -> Z) (csr : Z) : list (Z * Z) :=
  let reg := csr + MEMCTRLCMD_LEDCTRL in
  let led1 := set_led_byte (uint8 (mem reg)) LED_FAULT LED_ON in
  let led2 := set_led_byte (uint8 led1) LED_FAULT LED_FLASH_7_0 in
  let led3 := set_led_byte (uint8 led2) LED_FAULT LED_FLASH_3_5 in
  let led4 := set_led_byte (uint8 led3) LED_FAULT LED_OFF in
  [(reg, led1); (reg, led2); (reg, led3); (reg, led4)].

(** ** A registry, a device and a card for the examples *)

Definition sample_driver_name : list ascii := list_ascii_of_string "nvram_uio".

(** A conversion for the examples: 0x and then hexadecimal digits, whose
    number it gives. *)
Definition hex_digit (c : ascii) : option Z :=
  let n := Z.of_nat (nat_of_ascii c) in
  if (48 <=? n) && (n <=? 57) then Some (n - 48)
  else if (97 <=? n) && (n <=? 102) then Some (n - 87)
  else if (65 <=? n) && (n <=? 70) then Some (n - 55)
  else None.

Fixpoint hex_value (acc : Z) (seen : bool) (text : list ascii) : option Z :=
  match text with
  | [] => if seen then Some acc else None
  | c :: rest =>
      match hex_digit c with
      | Some d => hex_value (16 * acc + d) true rest
      | None => if seen then Some acc else None
      end
  end.

Definition sample_fscanf_0x_x (text : list ascii) : option Z :=
  match text with
  | c0 :: cx :: rest =>
      if bool_decide (c0 = "0"%char) && bool_decide (cx = "x"%char)
      then hex_value 0 false rest
      else None
  | _ => None
  end.

Definition sample_entries : list dirent :=
  [Dirent DT_DIR "."; Dirent DT_LNK "uio0"; Dirent DT_REG "README"; Dirent DT_LNK "uio1";
   Dirent DT_LNK "uio2"].

(** A registry in which uio1 is the NVRAM board, with the given text in
    the offset file of its mapping 0; uio2 has no name file. *)
Definition sample_os (offset_text : string) : os_env :=
  {| os_uio_dir := Some sample_entries;
     os_sysfs :=
       {[ "/sys/class/uio/uio0/name" := list_ascii_of_string "other_driver" ++ [newline];
          "/sys/class/uio/uio1/name" := sample_driver_name ++ [newline];
          "/sys/class/uio/uio1/maps/map0/offset" := list_ascii_of_string offset_text ++ [newline];
          "/sys/class/uio/uio1/maps/map0/size" := list_ascii_of_string "0x1000" ++ [newline] ]};
     os_open := fun pathname => if bool_decide (pathname = "/dev/uio1") then 3 else -1;
     os_mmap := fun len fd off => if (fd =? 3) && (0 <? len) then Some 16%N else None;
     os_pagesize := 4096 |}.

(** The bytes of the register window in the examples. *)
Definition sample_mem (addr : Z) : Z := addr mod 251.

Definition sample_context : nvram_uio_context :=
  {| device_name := "uio1"; csr_mmap_offset := 16; csr_mmap_size := 4096; device_fd := 0;
     csr := 0; memctrlstatus_magic := 0; memctrlstatus_memory := 0;
     memctrlstatus_battery := 0; memctrlcmd_ledctrl := 0; memctrlcmd_errctrl := 0 |}.

Definition sample_kernel : kernel :=
  {| k_kzalloc := true; k_pci_enable_device := 0; k_pci_set_dma_mask := 0;
     k_pci_request_regions := 0; k_ioremap_nocache := fun base len => 0xC000 + base;
     k_readb := fun addr => 0x5E; k_uio_register_device := 0 |}.

Definition sample_dev (device_id : Z) : pci_dev :=
  {| device := device_id; irq := 11; pci_resource_start0 := 0xFE000000;
     pci_resource_len0 := 0x100 |}.

Definition sample_context_at (offset : Z) : nvram_uio_context :=
  {| device_name := "uio1"; csr_mmap_offset := offset; csr_mmap_size := 4096; device_fd := 0;
     csr := 0; memctrlstatus_magic := 0; memctrlstatus_memory := 0;
     memctrlstatus_battery := 0; memctrlcmd_ledctrl := 0; memctrlcmd_errctrl := 0 |}.

(** A registry whose only entry, uio1, has the given name file. *)
Definition sample_os_name (name_text : list ascii) : os_env :=
  {| os_uio_dir := Some [Dirent DT_LNK "uio1"];
     os_sysfs := {[ "/sys/class/uio/uio1/name" := name_text ]};
     os_open := fun pathname => -1;
     os_mmap := fun len fd off => None;
     os_pagesize := 4096 |}.

(** The kernel of the examples with the given answers of pci_set_dma_mask
    and uio_register_device. *)
Definition sample_kernel_with (dma_mask register : Z) : kernel :=
  {| k_kzalloc := true; k_pci_enable_device := 0; k_pci_set_dma_mask := dma_mask;
     k_pci_request_regions := 0; k_ioremap_nocache := fun base len => 0xC000 + base;
     k_readb := fun addr => 0x5E; k_uio_register_device := register |}.

(** The board of the examples with a first region of the given length. *)
Definition sample_dev_len (len : Z) : pci_dev :=
  {| device := 0x5425; irq := 11; pci_resource_start0 := 0xFE000000;
     pci_resource_len0 := len |}.

(** The uio_info the probe registers for the board of the examples. *)
Definition sample_info : uio_info :=
  {| info_name := sample_driver_name; info_version := "0.0.1";
     info_mem :=
       [{| mem_name := "csr"; mem_addr := 0xFE000000; mem_size := 4096;
           mem_memtype := UIO_MEM_PHYS; mem_internal_addr := 0xFE00C000 |};
        zeroed_uio_mem; zeroed_uio_mem; zeroed_uio_mem; zeroed_uio_mem];
     info_irq := 11; info_irq_flags := IRQF_SHARED |}.

(** * Properties *)

(** ** Bits of the LED register *)

Lemma uint8_bits x i : Z.testbit (uint8 x) i = (i <? 8) && Z.testbit x i.
Proof. unfold uint8. apply Z.testbit_mod_pow2. lia. Qed.

Lemma uint8_range x : 0 <= uint8 x < 256.
Proof. unfold uint8. change (2 ^ 8) with 256. apply Z.mod_pos_bound. lia. Qed.

Lemma uint8_small x : 0 <= x < 256 -> uint8 x = x.
Proof. intros H. unfold uint8. change (2 ^ 8) with 256. apply Z.mod_small, H. Qed.

Lemma testbit_1 i : Z.testbit 1 i = (i =? 0).
Proof.
  change 1 with (Z.ones 1). rewrite Z.testbit_ones by lia.
  destruct (Z.eqb_spec i 0), (Z.leb_spec 0 i), (Z.ltb_spec i 1); simpl; lia || reflexivity.
Qed.

Lemma testbit_3 i : Z.testbit 3 i = (i =? 0) || (i =? 1).
Proof.
  change 3 with (Z.ones 2). rewrite Z.testbit_ones by lia.
  destruct (Z.eqb_spec i 0), (Z.eqb_spec i 1), (Z.leb_spec 0 i), (Z.ltb_spec i 2);
    simpl; lia || reflexivity.
Qed.

Lemma testbit_two_bits state i : 0 <= state <= 3 -> 2 <= i -> Z.testbit state i = false.
Proof.
  intros Hs Hi. rewrite <- (Z.mod_small state (2 ^ 2)) by (change (2 ^ 2) with 4; lia).
  apply Z.mod_pow2_bits_high. lia.
Qed.

(** Decide every integer comparison in the goal, then every bit. *)
Ltac cmp_cases :=
  repeat match goal with
         | |- context [?a =? ?b] => destruct (Z.eqb_spec a b); try lia
         | |- context [?a <? ?b] => destruct (Z.ltb_spec a b); try lia
         end;
  cbn [andb orb negb xorb];
  repeat match goal with
         | |- context [Z.testbit ?a ?b] => destruct (Z.testbit a b)
         end;
  try reflexivity.

(** The bits of the byte that the FLIP branch stores. *)
Lemma set_led_byte_flip_bits led shift i :
  0 <= shift -> 0 <= i ->
  Z.testbit (set_led_byte led shift LED_FLIP) i
  = (i <? 8) && xorb (Z.testbit led i) (i =? shift).
Proof.
  intros Hs Hi. unfold set_led_byte. rewrite Z.eqb_refl, uint8_bits, Z.lxor_spec.
  rewrite Z.shiftl_spec by lia. rewrite testbit_1.
  replace (i - shift =? 0) with (i =? shift); [reflexivity|].
  destruct (Z.eqb_spec i shift), (Z.eqb_spec (i - shift) 0); lia || reflexivity.
Qed.

(** The bits of the byte that the other branch stores. *)
Lemma set_led_byte_state_bits led shift state i :
  state <> LED_FLIP -> 0 <= shift -> 0 <= i ->
  Z.testbit (set_led_byte led shift state) i
  = (i <? 8) &&
    (((i <? 8) && (Z.testbit led i && negb ((i =? shift) || (i =? shift + 1))))
     || Z.testbit state (i - shift)).
Proof.
  intros Hf Hs Hi. unfold set_led_byte.
  destruct (Z.eqb_spec state LED_FLIP) as [|_]; [contradiction|].
  rewrite uint8_bits, Z.lor_spec, uint8_bits, Z.land_spec.
  rewrite Z.lnot_spec by lia. rewrite !Z.shiftl_spec by lia. rewrite testbit_3.
  replace (i - shift =? 0) with (i =? shift)
    by (destruct (Z.eqb_spec i shift), (Z.eqb_spec (i - shift) 0); lia || reflexivity).
  replace (i - shift =? 1) with (i =? shift + 1)
    by (destruct (Z.eqb_spec i (shift + 1)), (Z.eqb_spec (i - shift) 1); lia || reflexivity).
  reflexivity.
Qed.

Lemma set_led_run context shift state w :
  set_led context shift state w
  = (Ret (),
     store8 (memctrlcmd_ledctrl context)
       (set_led_byte (load8 w (memctrlcmd_ledctrl context)) shift state) w).
Proof. reflexivity. Qed.

Lemma load8_store8 addr value w : load8 (store8 addr value w) addr = uint8 value.
Proof. unfold load8, store8. simpl. rewrite Z.eqb_refl. reflexivity. Qed.

Lemma set_led_byte_range led shift state : 0 <= set_led_byte led shift state < 256.
Proof. unfold set_led_byte. destruct (state =? LED_FLIP); apply uint8_range. Qed.

(** C1.  For a state among OFF, ON, FLASH_SLOW and FLASH_FAST (the values 0
    to 3, none of them the FLIP marker) and a shift among 0, 2, 4 and 6,
    set_led leaves the two bits [shift+1:shift] of the LED register equal to
    the state and every other bit of the register as it was; no other byte of
    the window is written. *)
Theorem set_led_sets_field (context : nvram_uio_context) (w : world) (shift state : Z) :
  shift ∈ [0; 2; 4; 6] ->
  0 <= state <= 3 ->
  state <> LED_FLIP ->
  let reg := memctrlcmd_ledctrl context in
  exists w',
    set_led context shift state w = (Ret (), w') /\
    Z.land (Z.shiftr (load8 w' reg) shift) 3 = state /\
    (forall i, 0 <= i -> i <> shift -> i <> shift + 1 ->
       Z.testbit (load8 w' reg) i = Z.testbit (load8 w reg) i) /\
    (forall addr, addr <> reg -> w_mem w' addr = w_mem w addr).
Proof.
  intros Hshift Hstate Hflip reg.
  assert (Hs : 0 <= shift <= 6).
  { repeat (apply elem_of_cons in Hshift as [->|Hshift]); try lia.
    apply elem_of_nil in Hshift. contradiction. }
  eexists. split; [apply set_led_run|]. fold reg.
  set (led := load8 w reg).
  assert (Hled : forall i, 0 <= i -> Z.testbit led i = (i <? 8) && Z.testbit led i).
  { intros i Hi. unfold led, load8. rewrite uint8_bits.
    destruct (i <? 8); reflexivity. }
  rewrite load8_store8, (uint8_small _ (set_led_byte_range _ _ _)).
  split; [|split].
  - apply Z.bits_inj'. intros j Hj.
    rewrite Z.land_spec, Z.shiftr_spec, testbit_3 by lia.
    rewrite set_led_byte_state_bits by lia.
    replace (j + shift - shift) with j by lia.
    assert (Hcase : j = 0 \/ j = 1 \/ 2 <= j) by lia.
    destruct Hcase as [->|[->|Hge]].
    + cmp_cases.
    + cmp_cases.
    + rewrite (testbit_two_bits state j) by lia. cmp_cases.
  - intros i Hi Hne1 Hne2. rewrite set_led_byte_state_bits by lia.
    rewrite (Hled i Hi).
    assert (Hcase : i < shift \/ shift + 2 <= i) by lia.
    destruct Hcase as [Hlt|Hge].
    + rewrite (Z.testbit_neg_r state) by lia. cmp_cases.
    + rewrite (testbit_two_bits state) by lia. cmp_cases.
  - intros addr Hne. simpl. destruct (Z.eqb_spec addr reg); [contradiction|reflexivity].
Qed.

(** C2.  With the FLIP marker as the requested state, set_led toggles the
    bit at position [shift] of the LED register and leaves every other bit,
    bit [shift + 1] among them, as it was; a second FLIP at the same shift
    restores the byte that was there. *)
Theorem set_led_flip_involution (context : nvram_uio_context) (w : world) (shift : Z) :
  0 <= shift < 8 ->
  let reg := memctrlcmd_ledctrl context in
  exists w1 w2,
    set_led context shift LED_FLIP w = (Ret (), w1) /\
    set_led context shift LED_FLIP w1 = (Ret (), w2) /\
    Z.testbit (load8 w1 reg) shift = negb (Z.testbit (load8 w reg) shift) /\
    (forall i, i <> shift -> Z.testbit (load8 w1 reg) i = Z.testbit (load8 w reg) i) /\
    load8 w2 reg = load8 w reg.
Proof.
  intros Hs reg.
  assert (Hled : forall w0 i, 0 <= i ->
            Z.testbit (load8 w0 reg) i = (i <? 8) && Z.testbit (load8 w0 reg) i).
  { intros w0 i Hi. unfold load8. rewrite uint8_bits. destruct (i <? 8); reflexivity. }
  eexists. eexists. split; [apply set_led_run|]. split; [apply set_led_run|].
  fold reg. rewrite !load8_store8, !(uint8_small _ (set_led_byte_range _ _ _)).
  split; [|split].
  - rewrite set_led_byte_flip_bits by lia. rewrite Z.eqb_refl.
    destruct (Z.ltb_spec shift 8); [|lia]. simpl. apply xorb_true_r.
  - intros i Hne. destruct (Z.neg_nonneg_cases i) as [Hneg|Hi].
    + rewrite !Z.testbit_neg_r by lia. reflexivity.
    + rewrite set_led_byte_flip_bits by lia.
      destruct (Z.eqb_spec i shift); [lia|]. rewrite xorb_false_r. symmetry. apply Hled, Hi.
  - apply Z.bits_inj'. intros i Hi. rewrite !set_led_byte_flip_bits by lia.
    rewrite (Hled w i Hi).
    destruct (i <? 8), (Z.testbit (load8 w reg) i), (i =? shift); reflexivity.
Qed.

(** ** The magic number check of the probe *)

Lemma magic_number_loop_scan (cands : list Z) :
  forall (pre : list (option Z)) (sentinel : Z) (rest : list (option Z)) (b : Z) (n : nat),
    Forall (fun m => m < 0x100) cands ->
    0x100 <= sentinel ->
    (length cands <= n)%nat ->
    b < 0x100 ->
    magic_number_loop (pre ++ (Some <$> cands) ++ Some sentinel :: rest) b (length pre) n
    = Some (bool_decide (b ∈ cands)).
Proof.
  induction cands as [|c cs IH]; intros pre sentinel rest b n Hsmall Hsent Hlen Hb.
  - rewrite (bool_decide_eq_false_2 (b ∈ [])) by apply not_elem_of_nil.
    destruct n as [|n]; cbn [magic_number_loop fmap list_fmap app]; [reflexivity|].
    rewrite list_lookup_middle by reflexivity.
    destruct (Z.eqb_spec sentinel b); [lia|].
    destruct (Z.leb_spec 256 sentinel); [reflexivity|lia].
  - destruct n as [|n]; [simpl in Hlen; lia|].
    apply Forall_cons in Hsmall as [Hc Hcs].
    cbn [magic_number_loop fmap list_fmap app].
    rewrite list_lookup_middle by reflexivity.
    destruct (Z.eqb_spec c b) as [->|Hne].
    + rewrite bool_decide_eq_true_2; [reflexivity|apply elem_of_cons; left; reflexivity].
    + destruct (Z.leb_spec 256 c); [lia|].
      specialize (IH (pre ++ [Some c]) sentinel rest b n Hcs Hsent).
      rewrite length_app, <- app_assoc in IH. simpl in IH.
      replace (length pre + 1)%nat with (S (length pre)) in IH by lia.
      rewrite IH by (simpl in Hlen; lia || assumption).
      apply f_equal, bool_decide_ext. rewrite elem_of_cons.
      split; [intros Hin; right; exact Hin|].
      intros [Heq|Hin]; [exfalso; apply Hne; symmetry; exact Heq|exact Hin].
Qed.

Lemma array_store_replicate {A : Type} (i n : nat) (v x : A) :
  (i < n)%nat ->
  array_store i v (replicate n x) = Some (<[i := v]> (replicate n x)).
Proof.
  intros Hi. unfold array_store. rewrite length_replicate. apply decide_True, Hi.
Qed.

(** The array that the switch leaves, for every variant. *)
Lemma select_magic_numbers_table (device : Z) :
  (2 <= MAGIC_NUMBERS_PER_DEV)%nat ->
  exists unassigned,
    select_magic_numbers device
    = Some ((Some <$> spec_magic_candidates device) ++ Some 0x100 :: unassigned).
Proof.
  intros HN. unfold select_magic_numbers, spec_magic_candidates.
  rewrite Nat.add_1_r.
  destruct MAGIC_NUMBERS_PER_DEV as [|[|n]]; [lia|lia|].
  unfold array_store.
  destruct (device =? 21525); [|destruct (device =? 21541); [|destruct (device =? 24917)]];
    cbn [replicate mbind option_bind fmap list_fmap app];
    repeat (rewrite decide_True
              by (cbn [length]; rewrite ?length_insert; cbn [length]; lia);
            cbn [mbind option_bind list_insert insert]);
    eexists; reflexivity.
Qed.

Lemma spec_magic_candidates_bytes (device : Z) :
  Forall (fun m => m < 0x100) (spec_magic_candidates device)
  /\ (length (spec_magic_candidates device) <= 2)%nat.
Proof.
  unfold spec_magic_candidates.
  destruct (device =? 21525); [|destruct (device =? 21541); [|destruct (device =? 24917)]];
    (split; [repeat constructor|simpl; lia]).
Qed.

Lemma magic_number_ok_candidates (device b : Z) :
  (2 <= MAGIC_NUMBERS_PER_DEV)%nat ->
  b < 0x100 ->
  magic_number_ok device b = Some (bool_decide (b ∈ spec_magic_candidates device)).
Proof.
  intros HN Hb. unfold magic_number_ok.
  destruct (select_magic_numbers_table device HN) as [unassigned ->].
  destruct (spec_magic_candidates_bytes device) as [Hsmall Hlen].
  cbn [mbind option_bind].
  apply (magic_number_loop_scan _ [] 256 unassigned b); [assumption|lia|lia|assumption].
Qed.

(** C3.  The loop over the candidate list accepts the observed magic byte
    exactly when a candidate before the first sentinel (a value of 0x100 or
    more) equals it: the sentinel ends the scan, what follows it is not read,
    and a byte that matches no candidate is rejected.  The switch gives every
    variant its candidates followed by the sentinel 0x100; for variant 0x5425
    they are 0x5C and 0x5E, so the byte 0x5E is accepted and 0x5D is not. *)
Theorem magic_number_validation (device b : Z) (cands : list Z) (sentinel : Z)
    (rest : list (option Z)) :
  (2 <= MAGIC_NUMBERS_PER_DEV)%nat ->
  0 <= b < 0x100 ->
  Forall (fun m => m < 0x100) cands ->
  0x100 <= sentinel ->
  (length cands <= MAGIC_NUMBERS_PER_DEV)%nat ->
  magic_number_loop ((Some <$> cands) ++ Some sentinel :: rest) b 0 MAGIC_NUMBERS_PER_DEV
  = Some (bool_decide (b ∈ cands))
  /\ (exists unassigned,
        select_magic_numbers device
        = Some ((Some <$> spec_magic_candidates device) ++ Some 0x100 :: unassigned))
  /\ magic_number_ok device b = Some (bool_decide (b ∈ spec_magic_candidates device))
  /\ spec_magic_candidates 0x5425 = [0x5C; 0x5E]
  /\ magic_number_ok 0x5425 0x5E = Some true
  /\ magic_number_ok 0x5425 0x5D = Some false.
Proof.
  intros HN Hb Hsmall Hsent Hlen.
  split; [|split; [|split; [|split; [|split]]]].
  - apply (magic_number_loop_scan cands []); [assumption|assumption|assumption|lia].
  - apply select_magic_numbers_table, HN.
  - apply magic_number_ok_candidates; [assumption|lia].
  - reflexivity.
  - rewrite magic_number_ok_candidates by (assumption || lia). reflexivity.
  - rewrite magic_number_ok_candidates by (assumption || lia). reflexivity.
Qed.

(** The order of the two tests in the loop matters only outside the byte
    range: an observed value equal to the sentinel would be accepted. *)
Remark magic_number_loop_int_sentinel :
  magic_number_loop [Some 0x100] 0x100 0 1 = Some true.
Proof. reflexivity. Qed.

Lemma array_store_Some {A : Type} (i : nat) (v : A) (a : list A) :
  (i < length a)%nat -> array_store i v a = Some (<[i := v]> a).
Proof. intros Hi. unfold array_store. apply decide_True, Hi. Qed.

Lemma array_store_inv {A : Type} (i : nat) (v : A) (a a' : list A) :
  array_store i v a = Some a' -> (i < length a)%nat /\ a' = <[i := v]> a.
Proof.
  unfold array_store. destruct (decide (i < length a)%nat); [|discriminate].
  intros [= <-]. split; [assumption|reflexivity].
Qed.

Lemma mem_at_insert (mem : list uio_mem) (i : nat) (m : uio_mem) :
  (i < length mem)%nat -> mem_at (<[i := m]> mem) i = m.
Proof. intros Hi. unfold mem_at. rewrite list_lookup_insert_eq by assumption. reflexivity. Qed.

Lemma unrecognized_magic_number_ok (device b : Z) :
  device ∉ [0x5415; 0x5425; 0x6155] ->
  b < 0x100 ->
  spec_magic_candidates device = [] /\
  select_magic_numbers device = Some (Some 0x100 :: replicate MAGIC_NUMBERS_PER_DEV None) /\
  magic_number_ok device b = Some false.
Proof.
  intros Hdev Hb.
  rewrite !not_elem_of_cons in Hdev. destruct Hdev as (H1 & H2 & H3 & _).
  unfold magic_number_ok, select_magic_numbers, spec_magic_candidates.
  destruct (Z.eqb_spec device 21525); [contradiction|].
  destruct (Z.eqb_spec device 21541); [contradiction|].
  destruct (Z.eqb_spec device 24917); [contradiction|].
  rewrite array_store_replicate by lia. rewrite Nat.add_1_r.
  cbn [replicate insert list_insert mbind option_bind].
  split; [reflexivity|]. split; [reflexivity|].
  destruct MAGIC_NUMBERS_PER_DEV as [|count]; [reflexivity|].
  cbn [magic_number_loop lookup list_lookup].
  destruct (Z.eqb_spec 256 b); [lia|]. reflexivity.
Qed.

(** Membership of a kernel call in a trace given by its elements. *)
Ltac in_trace H :=
  unfold out_unmap, out_release, out_disable, out_free, magic_rejection in H;
  repeat (rewrite elem_of_app in H || rewrite elem_of_cons in H
          || rewrite elem_of_nil in H).

(** The elements a call found in a trace can be: the cases that are not
    closed by the constructors are left, with the equation in [H]. *)
Ltac trace_cases H :=
  in_trace H;
  repeat match type of H with
         | _ \/ _ => destruct H as [H|H]
         | False => destruct H
         end;
  try discriminate H.

Ltac not_in_trace :=
  unfold not; intros;
  match goal with
  | H : _ ∈ _ |- _ => exfalso; trace_cases H
  end.

(** C8.  For a variant identifier other than 0x5415, 0x5425 and 0x6155 the
    candidate list holds the sentinel alone, no byte is accepted, and the
    probe fails: it returns an error, never registers the UIO device, and
    once it has read the magic byte it logs the rejection once, releases
    what it had claimed and returns -ENODEV. *)
Theorem unrecognized_variant_rejected (k : kernel) (dev : pci_dev) :
  device dev ∉ [0x5415; 0x5425; 0x6155] ->
  (CSR_MAPPING_INDEX < MAX_UIO_MAPS)%nat ->
  spec_magic_candidates (device dev) = [] /\
  select_magic_numbers (device dev)
  = Some (Some 0x100 :: replicate MAGIC_NUMBERS_PER_DEV None) /\
  (forall b, 0 <= b < 0x100 -> magic_number_ok (device dev) b = Some false) /\
  exists rc t,
    nvram_uio_pci_probe k dev = Some (rc, t) /\
    rc < 0 /\
    (forall info, K_uio_register_device info ∉ t) /\
    (K_pci_set_drvdata ∉ t) /\
    (forall addr, K_readb addr ∈ t ->
       rc = - ENODEV /\
       exists pre,
         t = pre ++ [K_readb addr; magic_rejection (uint8 (k_readb k addr)) (device dev)]
               ++ out_release /\
         (forall m d, magic_rejection m d ∉ pre)).
Proof.
  intros Hdev Hidx.
  destruct (unrecognized_magic_number_ok (device dev) 0 Hdev) as (Hc & Hsel & _); [lia|].
  split; [assumption|]. split; [assumption|].
  split; [intros b Hb; apply unrecognized_magic_number_ok; [assumption|lia]|].
  unfold nvram_uio_pci_probe.
  destruct (k_kzalloc k); cbn [negb];
    [|eexists _, _; split; [reflexivity|]; unfold ENOMEM;
      split; [lia|]; repeat split; not_in_trace].
  destruct (k_pci_enable_device k =? 0); cbn [negb];
    [|eexists _, _; split; [reflexivity|]; unfold ENODEV, out_free;
      split; [lia|]; repeat split; not_in_trace].
  destruct (k_pci_set_dma_mask k =? 0); cbn [negb];
    [|eexists _, _; split; [reflexivity|]; unfold ENOMEM;
      split; [lia|]; repeat split; not_in_trace].
  destruct (k_pci_request_regions k =? 0); cbn [negb];
    [|eexists _, _; split; [reflexivity|]; unfold ENODEV, out_disable, out_free;
      split; [lia|]; repeat split; not_in_trace].
  destruct ((ulong (pci_resource_start0 dev) =? 0) || (ulong (pci_resource_len0 dev) =? 0));
    [eexists _, _; split; [reflexivity|]; unfold ENODEV, out_release, out_disable, out_free;
      split; [lia|]; repeat split; not_in_trace|].
  unfold nvram_uio_pci_probe_csr.
  rewrite array_store_replicate by assumption. cbn [mbind option_bind].
  destruct (k_ioremap_nocache k _ _ =? 0);
    [eexists _, _; split; [reflexivity|]; unfold ENODEV, out_release, out_disable, out_free;
      split; [lia|]; repeat split; not_in_trace|].
  rewrite array_store_Some by (rewrite length_insert, length_replicate; assumption).
  cbn [mbind option_bind].
  match goal with
  | |- context [magic_number_ok ?d ?b] =>
      rewrite (proj2 (proj2 (unrecognized_magic_number_ok d b Hdev (proj2 (uint8_range _)))))
  end.
  cbn [mbind option_bind negb].
  match goal with
  | |- context [Some (_, (?T ++ [K_readb ?a]) ++ _)] => set (pre := T); set (maddr := a)
  end.
  eexists _, _. split; [reflexivity|]. unfold ENODEV.
  split; [lia|]. split; [unfold pre; not_in_trace|]. split; [unfold pre; not_in_trace|].
  intros addr Hin. split; [reflexivity|].
  assert (addr = maddr) as ->.
  { unfold pre in Hin. trace_cases Hin. injection Hin as Hin. exact Hin. }
  exists pre. split.
  - rewrite <- app_assoc. reflexivity.
  - unfold pre. not_in_trace.
Qed.

(** ** The page-aligned length of the csr window *)

Lemma page_align_len_no_wrap (raw : Z) :
  0 < PAGE_SIZE ->
  0 <= raw ->
  raw + PAGE_SIZE - 1 < 2 ^ BITS_PER_LONG ->
  page_align_len raw = (raw + PAGE_SIZE - 1) / PAGE_SIZE * PAGE_SIZE.
Proof.
  intros HP Hraw Hfit. unfold page_align_len, ulong.
  set (M := 2 ^ BITS_PER_LONG) in *.
  rewrite Zminus_mod_idemp_l.
  rewrite (Z.mod_small (raw + PAGE_SIZE - 1) M) by lia.
  assert (Hq : 0 <= (raw + PAGE_SIZE - 1) / PAGE_SIZE <= raw + PAGE_SIZE - 1).
  { split; [apply Z.div_pos; lia|]. apply Z.div_le_upper_bound; nia. }
  rewrite (Z.mod_small ((raw + PAGE_SIZE - 1) / PAGE_SIZE) M) by lia.
  apply Z.mod_small.
  pose proof (Z.mul_div_le (raw + PAGE_SIZE - 1) PAGE_SIZE HP). nia.
Qed.

(** C9.  The probe replaces the raw length of the register region by the
    smallest multiple of the page size that is at least the raw length (the
    raw length itself when it is a whole number of pages), for every raw
    length whose rounding fits an unsigned long; it remaps that many bytes
    and records that length as the size of the csr mapping of the UIO device
    it registers. *)
Theorem page_aligned_csr_len (k : kernel) (dev : pci_dev) :
  let raw := ulong (pci_resource_len0 dev) in
  let len := page_align_len raw in
  0 < BITS_PER_LONG ->
  0 < PAGE_SIZE ->
  raw + PAGE_SIZE - 1 < 2 ^ BITS_PER_LONG ->
  (exists pages, len = pages * PAGE_SIZE) /\
  raw <= len /\
  (forall pages, raw <= pages * PAGE_SIZE -> len <= pages * PAGE_SIZE) /\
  (raw mod PAGE_SIZE = 0 -> len = raw) /\
  (forall rc t info,
     nvram_uio_pci_probe k dev = Some (rc, t) ->
     K_uio_register_device info ∈ t ->
     mem_size (mem_at (info_mem info) CSR_MAPPING_INDEX) = len /\
     K_ioremap_nocache (ulong (pci_resource_start0 dev)) len ∈ t).
Proof.
  intros raw len HB HP Hfit.
  assert (HM : 0 < 2 ^ BITS_PER_LONG) by (apply Z.pow_pos_nonneg; lia).
  assert (Hraw : 0 <= raw) by (apply Z.mod_pos_bound, HM).
  assert (Hlen : len = (raw + PAGE_SIZE - 1) / PAGE_SIZE * PAGE_SIZE)
    by (apply page_align_len_no_wrap; assumption).
  pose proof (Z.mul_div_le (raw + PAGE_SIZE - 1) PAGE_SIZE HP) as Hle.
  pose proof (Z.mod_pos_bound (raw + PAGE_SIZE - 1) PAGE_SIZE HP) as Hmod.
  pose proof (Z.div_mod (raw + PAGE_SIZE - 1) PAGE_SIZE ltac:(lia)) as Hdm.
  set (q := (raw + PAGE_SIZE - 1) / PAGE_SIZE) in *.
  split; [eexists; exact Hlen|].
  split; [nia|].
  split.
  { intros pages Hpages. rewrite Hlen.
    destruct (Z.le_gt_cases q pages) as [Hqp|Hqp]; [nia|].
    exfalso. assert (pages * PAGE_SIZE <= (q - 1) * PAGE_SIZE) by nia. nia. }
  split.
  - intros Hzero. apply Z.mod_divide in Hzero; [|lia]. destruct Hzero as [a Ha].
    rewrite Hlen. unfold q. rewrite Ha.
    replace (a * PAGE_SIZE + PAGE_SIZE - 1) with (PAGE_SIZE - 1 + a * PAGE_SIZE) by lia.
    rewrite Z.div_add by lia. rewrite Z.div_small by lia. lia.
  - intros rc t info. unfold nvram_uio_pci_probe.
    destruct (k_kzalloc k); cbn [negb]; [|intros [= <- <-]; not_in_trace].
    destruct (k_pci_enable_device k =? 0); cbn [negb]; [|intros [= <- <-]; not_in_trace].
    destruct (k_pci_set_dma_mask k =? 0); cbn [negb]; [|intros [= <- <-]; not_in_trace].
    destruct (k_pci_request_regions k =? 0); cbn [negb]; [|intros [= <- <-]; not_in_trace].
    destruct ((ulong (pci_resource_start0 dev) =? 0) || (ulong (pci_resource_len0 dev) =? 0));
      [intros [= <- <-]; not_in_trace|].
    unfold nvram_uio_pci_probe_csr. fold raw. fold len.
    destruct (array_store _ _ _) as [mem0|] eqn:Hst0; [|discriminate].
    apply array_store_inv in Hst0 as [Hidx ->]. cbn [mbind option_bind].
    destruct (k_ioremap_nocache k _ _ =? 0); [intros [= <- <-]; not_in_trace|].
    rewrite array_store_Some by (rewrite length_insert; assumption).
    cbn [mbind option_bind].
    destruct (magic_number_ok _ _) as [[|]|]; cbn [mbind option_bind negb];
      [|intros [= <- <-]; not_in_trace|discriminate].
    destruct (k_uio_register_device k =? 0); cbn [negb]; intros [= <- <-] Hin;
      (split; [|apply (list_elem_of_lookup_2 _ 7%nat); reflexivity]);
      trace_cases Hin; injection Hin as ->;
      cbn [info_mem]; rewrite mem_at_insert by (rewrite length_insert; assumption);
      reflexivity.
Qed.

(** ** Reading the name file of a registry entry *)

Lemma c_str_no_nul (l : list ascii) : Forall (fun c => c <> NUL) l -> c_str l = l.
Proof.
  induction 1 as [|c l Hc _ IH]; [reflexivity|]. cbn [c_str].
  rewrite bool_decide_eq_false_2 by assumption. rewrite IH. reflexivity.
Qed.

Lemma c_str_app_nul (l rest : list ascii) :
  Forall (fun c => c <> NUL) l -> c_str (l ++ NUL :: rest) = l.
Proof.
  induction 1 as [|c l Hc _ IH]; cbn [c_str app].
  - rewrite bool_decide_eq_true_2 by reflexivity. reflexivity.
  - rewrite bool_decide_eq_false_2 by assumption. rewrite IH. reflexivity.
Qed.

Lemma fgets_chars_no_newline (body : list ascii) :
  forall n, Forall (fun c => c <> newline) body -> fgets_chars n body = take n body.
Proof.
  induction body as [|c body IH]; intros n Hb; destruct n as [|n]; try reflexivity.
  apply Forall_cons in Hb as [Hc Hb]. cbn [fgets_chars take].
  rewrite bool_decide_eq_false_2 by assumption. rewrite IH by assumption. reflexivity.
Qed.

Lemma fgets_chars_line (body : list ascii) :
  forall n, Forall (fun c => c <> newline) body ->
            fgets_chars n (body ++ [newline]) = take n (body ++ [newline]).
Proof.
  induction body as [|c body IH]; intros n Hb; destruct n as [|n]; try reflexivity.
  - cbn [fgets_chars app take].
    rewrite bool_decide_eq_true_2 by reflexivity. destruct n; reflexivity.
  - apply Forall_cons in Hb as [Hc Hb]. cbn [fgets_chars app take].
    rewrite bool_decide_eq_false_2 by assumption. rewrite IH by assumption. reflexivity.
Qed.

(** A line of text is a body of plain characters, with or without a final
    newline. *)
Lemma line_of_text_body (text : list ascii) :
  line_of_text text = true ->
  exists body,
    Forall (fun c => c <> NUL) body /\ Forall (fun c => c <> newline) body /\
    (text = body \/ text = body ++ [newline]).
Proof.
  induction text as [|c rest IH]; intros Hline.
  - exists []. repeat split; [constructor|constructor|left; reflexivity].
  - cbn [line_of_text] in Hline. destruct rest as [|c' rest'].
    + apply negb_true_iff, bool_decide_eq_false in Hline.
      destruct (decide (c = newline)) as [->|Hnl].
      * exists []. repeat split; [constructor|constructor|right; reflexivity].
      * exists [c]. repeat split; [repeat constructor; assumption..|left; reflexivity].
    + apply andb_true_iff in Hline as [Hline Hrest].
      apply andb_true_iff in Hline as [Hnul Hnl].
      apply negb_true_iff, bool_decide_eq_false in Hnul.
      apply negb_true_iff, bool_decide_eq_false in Hnl.
      destruct (IH Hrest) as (body & Hb1 & Hb2 & Hbody).
      exists (c :: body). split; [constructor; assumption|].
      split; [constructor; assumption|].
      destruct Hbody as [->| ->]; [left|right]; reflexivity.
Qed.

Lemma trim_newline_body (body : list ascii) :
  Forall (fun c => c <> newline) body -> trim_newline body = body.
Proof.
  intros Hb. unfold trim_newline. destruct (last body) as [c|] eqn:Hlast; [|reflexivity].
  rewrite bool_decide_eq_false_2; [reflexivity|].
  apply last_Some in Hlast as [l' ->]. rewrite Forall_app in Hb. destruct Hb as [_ Hc].
  rewrite Forall_singleton in Hc. exact Hc.
Qed.

Lemma trim_newline_line (body : list ascii) : trim_newline (body ++ [newline]) = body.
Proof.
  unfold trim_newline. rewrite last_snoc, bool_decide_eq_true_2 by reflexivity.
  rewrite length_app. simpl. replace (length body + 1 - 1)%nat with (length body) by lia.
  apply take_app_length.
Qed.

(** What fgets, the newline removal and strcmp make of a plain body that
    fills the buffer or not. *)
Lemma driver_name_compare_body (body : list ascii) :
  driver_name_ok ->
  Forall (fun c => c <> NUL) body ->
  Forall (fun c => c <> newline) body ->
  body <> [] ->
  let buf := take 79 body in
  exists last,
    length (c_str buf) = S last /\
    strcmp_eq (if bool_decide (buf !! last = Some newline) then <[last := NUL]> buf else buf)
      DRIVER_NAME
    = bool_decide (take 79 body = DRIVER_NAME).
Proof.
  intros [Hdn Hdl] Hnul Hnl Hne buf.
  assert (Hbnul : Forall (fun c => c <> NUL) buf) by (apply Forall_take, Hnul).
  assert (Hbnl : Forall (fun c => c <> newline) buf) by (apply Forall_take, Hnl).
  rewrite (c_str_no_nul buf Hbnul).
  destruct (length buf) as [|last] eqn:Hlen.
  { exfalso. unfold buf in Hlen. rewrite length_take in Hlen.
    destruct body; [contradiction|simpl in Hlen; lia]. }
  exists last. split; [reflexivity|].
  rewrite bool_decide_eq_false_2.
  - unfold strcmp_eq. rewrite (c_str_no_nul buf Hbnul), (c_str_no_nul _ Hdn). reflexivity.
  - intros Hlook. apply list_elem_of_lookup_2 in Hlook.
    rewrite Forall_forall in Hbnl. exact (Hbnl _ Hlook eq_refl).
Qed.

Lemma take_driver_name (body : list ascii) :
  driver_name_ok ->
  bool_decide (take 79 body = DRIVER_NAME) = bool_decide (body = DRIVER_NAME).
Proof.
  intros [_ Hdl]. apply bool_decide_ext. split; intros H.
  - assert (Hlen : (length body < 79)%nat).
    { apply (f_equal length) in H. rewrite length_take in H. lia. }
    rewrite take_ge in H by lia. exact H.
  - rewrite take_ge; [exact H|]. rewrite H. lia.
Qed.

(** On a name file that holds a line of text, the code compares the
    trimmed identity with DRIVER_NAME, and strlen is never 0. *)
Lemma driver_name_compare (text : list ascii) :
  driver_name_ok ->
  line_of_text text = true ->
  text <> [] ->
  let buf := fgets_chars 79 text in
  exists last,
    length (c_str buf) = S last /\
    strcmp_eq (if bool_decide (buf !! last = Some newline) then <[last := NUL]> buf else buf)
      DRIVER_NAME
    = bool_decide (trim_newline text = DRIVER_NAME).
Proof.
  intros Hdrv Hline Hne buf.
  destruct (line_of_text_body text Hline) as (body & Hnul & Hnl & [->| ->]).
  - unfold buf. rewrite fgets_chars_no_newline, trim_newline_body by assumption.
    rewrite <- take_driver_name by assumption.
    apply driver_name_compare_body; assumption.
  - unfold buf. rewrite fgets_chars_line, trim_newline_line by assumption.
    destruct (decide (length body < 79)%nat) as [Hshort|Hlong].
    + rewrite take_ge by (rewrite length_app; simpl; lia).
      assert (Hall : Forall (fun c => c <> NUL) (body ++ [newline])).
      { apply Forall_app. split; [assumption|]. repeat constructor. discriminate. }
      rewrite (c_str_no_nul _ Hall). exists (length body).
      split; [rewrite length_app; simpl; lia|].
      rewrite list_lookup_middle by reflexivity.
      rewrite bool_decide_eq_true_2 by reflexivity.
      rewrite insert_app_r_alt by lia. rewrite Nat.sub_diag. simpl.
      unfold strcmp_eq. rewrite c_str_app_nul by assumption.
      destruct Hdrv as [Hdn _]. rewrite (c_str_no_nul _ Hdn). reflexivity.
    + rewrite take_app_le by lia.
      rewrite <- take_driver_name by assumption.
      apply driver_name_compare_body; try assumption.
      intros ->. simpl in Hlong. lia.
Qed.

(** ** The scan of the registry *)

Lemma log_calls_nil (w : world) : log_calls [] w = w.
Proof. destruct w. unfold log_calls. simpl. rewrite app_nil_r. reflexivity. Qed.

Lemma log_calls_app (calls1 calls2 : list syscall) (w : world) :
  log_calls calls2 (log_calls calls1 w) = log_calls (calls1 ++ calls2) w.
Proof. unfold log_calls. simpl. rewrite app_assoc. reflexivity. Qed.

Lemma fopen_calls_app (l1 l2 : list dirent) :
  fopen_calls (l1 ++ l2) = fopen_calls l1 ++ fopen_calls l2.
Proof. unfold fopen_calls. rewrite filter_app, fmap_app. reflexivity. Qed.

Lemma fopen_calls_one (entry : dirent) :
  fopen_calls [entry]
  = if is_dir_or_link (d_type entry) then [Sys_fopen (uio_name_pathname entry)] else [].
Proof.
  unfold fopen_calls. rewrite filter_cons, filter_nil.
  destruct (is_dir_or_link (d_type entry)).
  - rewrite decide_True by reflexivity. reflexivity.
  - rewrite decide_False by discriminate. reflexivity.
Qed.

(** One turn of the loop, on an entry whose name file is a line of text:
    found_nvram_uio_device tells whether the entry matches, and only a match
    changes the context. *)
Lemma find_uio_device_entry_spec (entry : dirent) (context : nvram_uio_context) (w : world) :
  driver_name_ok ->
  name_file_is_line entry = true ->
  find_uio_device_entry entry context w
  = (Ret (spec_matches entry,
          if spec_matches entry then set_device_name context (d_name entry) else context),
     log_calls (fopen_calls [entry]) w).
Proof.
  intros Hdrv Hline. unfold find_uio_device_entry, spec_matches, identity_attribute.
  rewrite fopen_calls_one. unfold name_file_is_line in Hline.
  destruct (is_dir_or_link (d_type entry)); cbn [andb];
    [|rewrite log_calls_nil; reflexivity].
  unfold mbind, prog_bind, fopen_r.
  change (log_call (Sys_fopen (uio_name_pathname entry)) w)
    with (log_calls [Sys_fopen (uio_name_pathname entry)] w).
  destruct (os_sysfs os !! uio_name_pathname entry) as [text|]; cbn [fmap option_fmap option_map];
    [|rewrite bool_decide_eq_false_2 by discriminate; reflexivity].
  destruct text as [|c text']; cbn [fgets].
  - rewrite bool_decide_eq_false_2; [reflexivity|].
    intros [= H]. destruct Hdrv as [_ Hlen]. rewrite <- H in Hlen.
    unfold trim_newline in Hlen. simpl in Hlen. lia.
  - change (80 - 1)%nat with 79%nat.
    destruct (driver_name_compare (c :: text') Hdrv Hline) as (last & Hlen & Hcmp);
      [discriminate|].
    rewrite Hlen, Hcmp.
    assert (Hdec : bool_decide (Some (trim_newline (c :: text')) = Some DRIVER_NAME)
                   = bool_decide (trim_newline (c :: text') = DRIVER_NAME)).
    { apply bool_decide_ext. split; [intros [= H]; exact H|intros ->; reflexivity]. }
    rewrite Hdec. reflexivity.
Qed.

Lemma find_uio_device_loop_found (stream : list dirent) (context : nvram_uio_context)
    (w : world) :
  find_uio_device_loop stream true context w = (Ret (true, context), w).
Proof. destruct stream; reflexivity. Qed.

Lemma find_uio_device_loop_cons (entry : dirent) (rest : list dirent)
    (context : nvram_uio_context) (w : world) :
  find_uio_device_loop (entry :: rest) false context w
  = match find_uio_device_entry entry context w with
    | (Ret r, w') => find_uio_device_loop rest r.1 r.2 w'
    | (Exit status, w') => (Exit status, w')
    | (Undefined, w') => (Undefined, w')
    end.
Proof. reflexivity. Qed.

(** The loop over entries none of which matches examines them all. *)
Lemma find_uio_device_loop_no_match (stream : list dirent) :
  forall (context : nvram_uio_context) (w : world),
    driver_name_ok ->
    forallb name_file_is_line stream = true ->
    Forall (fun entry => spec_matches entry = false) stream ->
    find_uio_device_loop stream false context w
    = (Ret (false, context), log_calls (fopen_calls stream) w).
Proof.
  induction stream as [|entry rest IH]; intros context w Hdrv Hlines Hnone.
  - simpl. rewrite log_calls_nil. reflexivity.
  - apply andb_true_iff in Hlines as [Hline Hlines].
    apply Forall_cons in Hnone as [Hno Hnone].
    rewrite find_uio_device_loop_cons, find_uio_device_entry_spec by assumption.
    rewrite Hno. cbn [fst snd]. rewrite IH by assumption.
    rewrite log_calls_app, <- fopen_calls_app. reflexivity.
Qed.

(** The loop stops at the first entry that matches: what follows it is
    not examined. *)
Lemma find_uio_device_loop_first_match (pre : list dirent) (entry : dirent)
    (post : list dirent) (context : nvram_uio_context) (w : world) :
  driver_name_ok ->
  forallb name_file_is_line (pre ++ [entry]) = true ->
  Forall (fun e => spec_matches e = false) pre ->
  spec_matches entry = true ->
  find_uio_device_loop (pre ++ entry :: post) false context w
  = (Ret (true, set_device_name context (d_name entry)),
     log_calls (fopen_calls (pre ++ [entry])) w).
Proof.
  intros Hdrv. revert w. induction pre as [|e pre IH]; intros w Hlines Hnone Hyes.
  - simpl in Hlines. apply andb_true_iff in Hlines as [Hline _].
    cbn [app]. rewrite find_uio_device_loop_cons, find_uio_device_entry_spec by assumption.
    rewrite Hyes. cbn [fst snd]. apply find_uio_device_loop_found.
  - cbn [app forallb] in Hlines. apply andb_true_iff in Hlines as [Hline Hlines].
    apply Forall_cons in Hnone as [Hno Hnone].
    cbn [app]. rewrite find_uio_device_loop_cons, find_uio_device_entry_spec by assumption.
    rewrite Hno. cbn [fst snd]. rewrite IH by assumption.
    rewrite log_calls_app.
    change (e :: pre ++ [entry]) with ([e] ++ (pre ++ [entry])).
    rewrite (fopen_calls_app [e]). reflexivity.
Qed.

Lemma find_uio_device_no_dir (w : world) :
  os_uio_dir os = None ->
  find_uio_device w
  = (Exit EXIT_FAILURE,
     (emit (Printf "Failed to open %s\n" [Arg_s UIO_CLASS_ROOT]) w).2).
Proof. intros Hdir. unfold find_uio_device. rewrite Hdir. reflexivity. Qed.

Lemma find_uio_device_no_match (stream : list dirent) (w : world) :
  driver_name_ok ->
  os_uio_dir os = Some stream ->
  forallb name_file_is_line stream = true ->
  Forall (fun entry => spec_matches entry = false) stream ->
  find_uio_device w
  = (Exit EXIT_FAILURE,
     (emit (Printf "Failed to find entry for %s under %s\n"
              [Arg_s (string_of_list_ascii DRIVER_NAME); Arg_s UIO_CLASS_ROOT])
        (log_calls (fopen_calls stream) w)).2).
Proof.
  intros Hdrv Hdir Hlines Hnone. unfold find_uio_device. rewrite Hdir.
  unfold mbind at 1. unfold prog_bind.
  rewrite find_uio_device_loop_no_match by assumption. reflexivity.
Qed.

Lemma find_uio_device_match (pre : list dirent) (entry : dirent) (post : list dirent)
    (w : world) :
  driver_name_ok ->
  os_uio_dir os = Some (pre ++ entry :: post) ->
  forallb name_file_is_line (pre ++ [entry]) = true ->
  Forall (fun e => spec_matches e = false) pre ->
  spec_matches entry = true ->
  find_uio_device w
  = (Ret (set_device_name zeroed_context (d_name entry)),
     log_calls (fopen_calls (pre ++ [entry])) w).
Proof.
  intros Hdrv Hdir Hlines Hnone Hyes. unfold find_uio_device. rewrite Hdir.
  unfold mbind at 1. unfold prog_bind.
  rewrite find_uio_device_loop_first_match by assumption. reflexivity.
Qed.

(** C6.  When the name file of every entry it examines holds a single line
    of text, find_uio_device returns the first entry that readdir gives
    which is a directory or a link and whose identity, the content of its
    name file trimmed of a trailing newline, equals DRIVER_NAME: the device
    name of the context it returns is the name of that entry, every other
    field of the context is zero, and it opens no name file after that one.
    When no entry matches, or when the registry root cannot be opened, it
    prints a diagnostic and exits with EXIT_FAILURE, returning no entry. *)
Theorem find_uio_device_first_match (w : world) :
  driver_name_ok ->
  (forall pre entry post,
     os_uio_dir os = Some (pre ++ entry :: post) ->
     forallb name_file_is_line (pre ++ [entry]) = true ->
     Forall (fun e => spec_matches e = false) pre ->
     is_dir_or_link (d_type entry) = true ->
     identity_attribute entry = Some DRIVER_NAME ->
     exists context' w',
       find_uio_device w = (Ret context', w') /\
       device_name context' = d_name entry /\
       context'
       = {| device_name := d_name entry; csr_mmap_offset := 0; csr_mmap_size := 0;
            device_fd := 0; csr := 0; memctrlstatus_magic := 0; memctrlstatus_memory := 0;
            memctrlstatus_battery := 0; memctrlcmd_ledctrl := 0; memctrlcmd_errctrl := 0 |} /\
       w_stdout w' = w_stdout w /\
       w_calls w' = w_calls w ++ fopen_calls (pre ++ [entry])) /\
  (forall stream,
     os_uio_dir os = Some stream ->
     forallb name_file_is_line stream = true ->
     Forall (fun e => spec_matches e = false) stream ->
     exists w',
       find_uio_device w = (Exit EXIT_FAILURE, w') /\
       w_stdout w'
       = w_stdout w ++ [Printf "Failed to find entry for %s under %s\n"
                          [Arg_s (string_of_list_ascii DRIVER_NAME); Arg_s UIO_CLASS_ROOT]]) /\
  (os_uio_dir os = None ->
   exists w',
     find_uio_device w = (Exit EXIT_FAILURE, w') /\
     w_stdout w' = w_stdout w ++ [Printf "Failed to open %s\n" [Arg_s UIO_CLASS_ROOT]]) /\
  EXIT_FAILURE <> 0.
Proof.
  intros Hdrv. split; [|split; [|split]].
  - intros pre entry post Hdir Hlines Hnone Hkind Hid.
    assert (Hyes : spec_matches entry = true).
    { unfold spec_matches. rewrite Hkind, Hid.
      rewrite bool_decide_eq_true_2 by reflexivity. reflexivity. }
    eexists _, _. split; [apply (find_uio_device_match pre entry post); assumption|].
    split; [reflexivity|]. split; [reflexivity|]. split; reflexivity.
  - intros stream Hdir Hlines Hnone.
    eexists. split; [apply (find_uio_device_no_match stream); assumption|reflexivity].
  - intros Hdir. eexists. split; [apply find_uio_device_no_dir, Hdir|reflexivity].
  - discriminate.
Qed.

(** ** Entries without a readable name *)

(** How one turn of the loop ends does not depend on the world, and it
    only adds its fopen call to it; it never exits. *)
Lemma find_uio_device_entry_world (entry : dirent) (context : nvram_uio_context) :
  exists o,
    (forall status, o <> Exit status) /\
    forall w, find_uio_device_entry entry context w = (o, log_calls (fopen_calls [entry]) w).
Proof.
  unfold find_uio_device_entry. rewrite fopen_calls_one.
  destruct (is_dir_or_link (d_type entry)).
  2: { exists (Ret (false, context)). split; [discriminate|].
       intros w. rewrite log_calls_nil. reflexivity. }
  unfold mbind, prog_bind, fopen_r.
  change (fun w => log_call (Sys_fopen (uio_name_pathname entry)) w)
    with (log_calls [Sys_fopen (uio_name_pathname entry)]).
  destruct (os_sysfs os !! uio_name_pathname entry) as [text|].
  2: { exists (Ret (false, context)). split; [discriminate|]. intros w. reflexivity. }
  destruct (fgets 80 text) as [buf|].
  2: { exists (Ret (false, context)). split; [discriminate|]. intros w. reflexivity. }
  destruct (length (c_str buf)) as [|last].
  - exists Undefined. split; [discriminate|]. intros w. reflexivity.
  - eexists. split; cycle 1.
    + intros w. reflexivity.
    + discriminate.
Qed.

Lemma find_uio_device_loop_world (stream : list dirent) :
  forall (found : bool) (context : nvram_uio_context),
  exists o calls,
    (forall status, o <> Exit status) /\
    forall w, find_uio_device_loop stream found context w = (o, log_calls calls w).
Proof.
  induction stream as [|entry rest IH]; intros found context.
  - exists (Ret (found, context)), []. split; [discriminate|].
    intros w. rewrite log_calls_nil. reflexivity.
  - destruct found.
    + exists (Ret (true, context)), []. split; [discriminate|].
      intros w. rewrite log_calls_nil. reflexivity.
    + destruct (find_uio_device_entry_world entry context) as (o & Hexit & Hrun).
      destruct o as [r|failed|].
      * destruct (IH r.1 r.2) as (o' & calls & Hexit' & Hrun').
        exists o', (fopen_calls [entry] ++ calls). split; [assumption|]. intros w.
        rewrite find_uio_device_loop_cons, Hrun, Hrun', log_calls_app. reflexivity.
      * exfalso. exact (Hexit failed eq_refl).
      * exists Undefined, (fopen_calls [entry]). split; [discriminate|]. intros w.
        rewrite find_uio_device_loop_cons, Hrun. reflexivity.
Qed.

Lemma find_uio_device_entry_unreadable (entry : dirent) (context : nvram_uio_context)
    (w : world) :
  is_dir_or_link (d_type entry) = true ->
  os_sysfs os !! uio_name_pathname entry = None
  \/ os_sysfs os !! uio_name_pathname entry = Some [] ->
  find_uio_device_entry entry context w
  = (Ret (false, context), log_call (Sys_fopen (uio_name_pathname entry)) w).
Proof.
  intros Hkind Hfile. unfold find_uio_device_entry. rewrite Hkind.
  unfold mbind, prog_bind, fopen_r. destruct Hfile as [-> | ->]; reflexivity.
Qed.

Lemma find_uio_device_loop_skip (entry : dirent) (pre post : list dirent) :
  is_dir_or_link (d_type entry) = true ->
  os_sysfs os !! uio_name_pathname entry = None
  \/ os_sysfs os !! uio_name_pathname entry = Some [] ->
  forall (found : bool) (context : nvram_uio_context) (w : world),
    (find_uio_device_loop (pre ++ entry :: post) found context w).1
    = (find_uio_device_loop (pre ++ post) found context w).1 /\
    w_stdout (find_uio_device_loop (pre ++ entry :: post) found context w).2
    = w_stdout (find_uio_device_loop (pre ++ post) found context w).2.
Proof.
  intros Hkind Hfile. induction pre as [|e pre IH]; intros found context w.
  - cbn [app]. destruct found.
    + rewrite !find_uio_device_loop_found. split; reflexivity.
    + rewrite find_uio_device_loop_cons, find_uio_device_entry_unreadable by assumption.
      cbn [fst snd].
      destruct (find_uio_device_loop_world post false context) as (o & calls & _ & Hrun).
      rewrite !Hrun. split; reflexivity.
  - cbn [app]. destruct found.
    + rewrite !find_uio_device_loop_found. split; reflexivity.
    + rewrite !find_uio_device_loop_cons.
      destruct (find_uio_device_entry e context w) as [[r| |] w1];
        [apply IH|split; reflexivity..].
Qed.

(** C10.  A directory or link entry whose name file cannot be opened, or
    is empty so that fgets reads no line, is passed over without any output:
    found_nvram_uio_device stays false, the context is unchanged, and the
    scan goes on to the next entry and ends as it would without that entry.
    The exit for a missing device is taken only after the loop over the whole
    stream has ended without a match. *)
Theorem unreadable_entry_skipped (entry : dirent) (context : nvram_uio_context) (w : world) :
  is_dir_or_link (d_type entry) = true ->
  os_sysfs os !! uio_name_pathname entry = None
  \/ os_sysfs os !! uio_name_pathname entry = Some [] ->
  find_uio_device_entry entry context w
  = (Ret (false, context), log_call (Sys_fopen (uio_name_pathname entry)) w) /\
  (forall pre post,
     (find_uio_device_loop (pre ++ entry :: post) false context w).1
     = (find_uio_device_loop (pre ++ post) false context w).1 /\
     w_stdout (find_uio_device_loop (pre ++ entry :: post) false context w).2
     = w_stdout (find_uio_device_loop (pre ++ post) false context w).2) /\
  (forall rest,
     find_uio_device_loop (entry :: rest) false context w
     = find_uio_device_loop rest false context
         (log_call (Sys_fopen (uio_name_pathname entry)) w)) /\
  (forall stream status w',
     os_uio_dir os = Some stream ->
     find_uio_device w = (Exit status, w') ->
     exists context' w1,
       find_uio_device_loop stream false zeroed_context w = (Ret (false, context'), w1)).
Proof.
  intros Hkind Hfile. split; [|split; [|split]].
  - apply find_uio_device_entry_unreadable; assumption.
  - intros pre post. apply find_uio_device_loop_skip; assumption.
  - intros rest.
    rewrite find_uio_device_loop_cons, find_uio_device_entry_unreadable by assumption.
    reflexivity.
  - intros stream status w' Hdir. unfold find_uio_device. rewrite Hdir.
    unfold mbind at 1. unfold prog_bind.
    destruct (find_uio_device_loop_world stream false zeroed_context)
      as (o & calls & Hexit & Hrun).
    rewrite Hrun. destruct o as [[found context']|failed|].
    + destruct found; cbn [fst snd negb]; [discriminate|].
      intros _. eexists _, _. reflexivity.
    + exfalso. exact (Hexit failed eq_refl).
    + discriminate.
Qed.

(** ** Opening and mapping the device *)

Lemma mmap_addr_not_failed (page : N) :
  0 < os_pagesize os -> (Z.of_N page * os_pagesize os =? MAP_FAILED) = false.
Proof. intros Hps. apply Z.eqb_neq. unfold MAP_FAILED. nia. Qed.

(** What open_uio_device does, by the answers of open and mmap. *)
Lemma open_uio_device_run (context : nvram_uio_context) (w : world) :
  0 < os_pagesize os ->
  let device_pathname := snprintf PATH_MAX ("/dev/" +:+ device_name context) in
  let fd := os_open os device_pathname in
  let off := Z.of_nat CSR_MAPPING_INDEX * os_pagesize os in
  open_uio_device context w
  = if fd =? -1 then
      (Exit EXIT_FAILURE,
       (perror (printf "Failed to open %s\n" [Arg_s device_pathname] (sys_open device_pathname w).2).2).2)
    else
      match os_mmap os (csr_mmap_size context) fd off with
      | None =>
          (Exit EXIT_FAILURE,
           (perror (printf "Failed to map csr registers for %s\n" [Arg_s (device_name context)]
                      (sys_mmap (csr_mmap_size context) fd off
                         (sys_open device_pathname w).2).2).2).2)
      | Some page =>
          let csr := Z.of_N page * os_pagesize os + csr_mmap_offset context in
          (Ret {| device_name := device_name context;
                  csr_mmap_offset := csr_mmap_offset context;
                  csr_mmap_size := csr_mmap_size context;
                  device_fd := fd;
                  csr := csr;
                  memctrlstatus_magic := csr + MEMCTRLSTATUS_MAGIC;
                  memctrlstatus_memory := csr + MEMCTRLSTATUS_MEMORY;
                  memctrlstatus_battery := csr + MEMCTRLSTATUS_BATTERY;
                  memctrlcmd_ledctrl := csr + MEMCTRLCMD_LEDCTRL;
                  memctrlcmd_errctrl := csr + MEMCTRLCMD_ERRCTRL |},
           (sys_mmap (csr_mmap_size context) fd off (sys_open device_pathname w).2).2)
      end.
Proof.
  intros Hps device_pathname fd off. unfold open_uio_device.
  fold device_pathname.
  unfold mbind, prog_bind, sys_open, sys_mmap, printf, perror, emit, exit.
  fold fd. fold off.
  destruct (fd =? -1) eqn:Hfd; [reflexivity|].
  destruct (os_mmap os (csr_mmap_size context) fd off) as [page|]; cbn iota.
  - rewrite mmap_addr_not_failed by assumption. reflexivity.
  - reflexivity.
Qed.

(** C4.  After open_uio_device has opened and mapped the device, the csr
    base of the context is the address mmap returned plus the offset the
    device publishes, each of the five register pointers is the csr base plus
    the offset of its register, and a read through a register pointer gives
    the byte at that offset from the mapped window. *)
Theorem open_uio_device_accessors (context context' : nvram_uio_context) (w w' : world) :
  open_uio_device context w = (Ret context', w') ->
  exists fd base,
    w_calls w'
    = w_calls w
        ++ [Sys_open (snprintf PATH_MAX ("/dev/" +:+ device_name context)) fd;
            Sys_mmap (csr_mmap_size context) fd
              (Z.of_nat CSR_MAPPING_INDEX * os_pagesize os) base] /\
    base <> MAP_FAILED /\
    csr_mmap_offset context' = csr_mmap_offset context /\
    csr context' = base + csr_mmap_offset context /\
    memctrlstatus_magic context' = csr context' + MEMCTRLSTATUS_MAGIC /\
    memctrlstatus_memory context' = csr context' + MEMCTRLSTATUS_MEMORY /\
    memctrlstatus_battery context' = csr context' + MEMCTRLSTATUS_BATTERY /\
    memctrlcmd_ledctrl context' = csr context' + MEMCTRLCMD_LEDCTRL /\
    memctrlcmd_errctrl context' = csr context' + MEMCTRLCMD_ERRCTRL /\
    forall v : world,
      let window := base + csr_mmap_offset context in
      read8 (memctrlstatus_magic context') v
      = (Ret (load8 v (window + MEMCTRLSTATUS_MAGIC)), v) /\
      read8 (memctrlstatus_memory context') v
      = (Ret (load8 v (window + MEMCTRLSTATUS_MEMORY)), v) /\
      read8 (memctrlstatus_battery context') v
      = (Ret (load8 v (window + MEMCTRLSTATUS_BATTERY)), v) /\
      read8 (memctrlcmd_ledctrl context') v
      = (Ret (load8 v (window + MEMCTRLCMD_LEDCTRL)), v) /\
      read8 (memctrlcmd_errctrl context') v
      = (Ret (load8 v (window + MEMCTRLCMD_ERRCTRL)), v).
Proof.
  unfold open_uio_device. unfold mbind at 1. unfold prog_bind.
  unfold sys_open at 1. cbn iota.
  set (device_pathname := snprintf PATH_MAX ("/dev/" +:+ device_name context)).
  set (fd := os_open os device_pathname).
  destruct (fd =? -1); [discriminate|].
  unfold mbind at 1. unfold prog_bind. unfold sys_mmap.
  destruct (os_mmap os (csr_mmap_size context) fd _) as [page|]; cbn iota.
  - destruct (Z.eqb_spec (Z.of_N page * os_pagesize os) MAP_FAILED) as [|Hne];
      [discriminate|].
    intros [= <- <-]. exists fd, (Z.of_N page * os_pagesize os).
    cbn [w_calls csr csr_mmap_offset memctrlstatus_magic memctrlstatus_memory
           memctrlstatus_battery memctrlcmd_ledctrl memctrlcmd_errctrl].
    rewrite <- app_assoc.
    repeat (split; [reflexivity || assumption|]).
    intros; repeat split.
  - rewrite Z.eqb_refl. discriminate.
Qed.

(** ** Closing the device *)

(** What close_uio_device does, by the answer of munmap. *)
Lemma close_uio_device_run (context : nvram_uio_context) (w : world) :
  close_uio_device context w
  = if (csr context mod os_pagesize os =? 0) && (0 <? csr_mmap_size context) then
      (Ret {| device_name := device_name context;
              csr_mmap_offset := csr_mmap_offset context;
              csr_mmap_size := csr_mmap_size context;
              device_fd := device_fd context;
              csr := 0;
              memctrlstatus_magic := memctrlstatus_magic context;
              memctrlstatus_memory := memctrlstatus_memory context;
              memctrlstatus_battery := memctrlstatus_battery context;
              memctrlcmd_ledctrl := memctrlcmd_ledctrl context;
              memctrlcmd_errctrl := memctrlcmd_errctrl context |},
       {| w_stdout := w_stdout w;
          w_calls := w_calls w ++ [Sys_munmap (csr context) (csr_mmap_size context) 0;
                                   Sys_close (device_fd context)];
          w_fds := filter (fun d => d <> device_fd context) (w_fds w);
          w_mapped :=
            filter (fun p => ~ (csr context <= p < csr context + csr_mmap_size context))
              (w_mapped w);
          w_mem := w_mem w |})
    else
      (Exit EXIT_FAILURE,
       {| w_stdout := w_stdout w ++ [Printf "Failed to munmap %s\n" [Arg_s (device_name context)]];
          w_calls := w_calls w ++ [Sys_munmap (csr context) (csr_mmap_size context) (-1)];
          w_fds := w_fds w; w_mapped := w_mapped w; w_mem := w_mem w |}).
Proof.
  unfold close_uio_device, sys_munmap.
  destruct ((csr context mod os_pagesize os =? 0) && (0 <? csr_mmap_size context)).
  - lazy beta iota zeta delta
      [mbind prog_bind mret prog_ret sys_close negb Z.eqb w_stdout w_calls w_fds w_mapped
       w_mem].
    rewrite <- app_assoc. reflexivity.
  - reflexivity.
Qed.

(** X7.  With an offset that is not a whole number of pages, the address
    given to munmap is not page aligned: munmap fails, close_uio_device exits,
    and neither the mapping nor the descriptor is released. *)
Lemma close_uio_device_offset (context context' : nvram_uio_context) (w w' : world) :
  0 < os_pagesize os ->
  open_uio_device context w = (Ret context', w') ->
  csr_mmap_offset context mod os_pagesize os <> 0 ->
  exists w'',
    close_uio_device context' w' = (Exit EXIT_FAILURE, w'') /\
    w_mapped w'' = w_mapped w' /\
    w_fds w'' = w_fds w' /\
    w_calls w'' = w_calls w' ++ [Sys_munmap (csr context') (csr_mmap_size context') (-1)].
Proof.
  intros Hps Hopen Hoff. rewrite open_uio_device_run in Hopen by assumption.
  destruct (_ =? -1); [discriminate|].
  destruct (os_mmap _ _ _ _) as [page|]; [|discriminate].
  injection Hopen as <- <-.
  unfold close_uio_device. unfold mbind at 1. unfold prog_bind.
  unfold sys_munmap. cbn [csr csr_mmap_size].
  replace ((Z.of_N page * os_pagesize os + csr_mmap_offset context) mod os_pagesize os)
    with (csr_mmap_offset context mod os_pagesize os)
    by (rewrite Z.add_comm, Z.mod_add by lia; reflexivity).
  destruct (Z.eqb_spec (csr_mmap_offset context mod os_pagesize os) 0); [contradiction|].
  cbn [andb]. eexists. split; [reflexivity|]. repeat split.
Qed.

(** ** The whole program *)

Lemma reg_writes_app (calls1 calls2 : list syscall) :
  reg_writes (calls1 ++ calls2) = reg_writes calls1 ++ reg_writes calls2.
Proof. apply omap_app. Qed.

Lemma reg_writes_fopen_calls (entries : list dirent) : reg_writes (fopen_calls entries) = [].
Proof.
  unfold fopen_calls.
  induction (filter (fun entry => is_dir_or_link (d_type entry) = true) entries);
    [reflexivity|assumption].
Qed.

Lemma reg_writes_fmap (writes : list (Z * Z)) :
  reg_writes ((fun aw => Reg_write aw.1 aw.2) <$> writes) = writes.
Proof.
  induction writes as [|[addr value] writes IH]; [reflexivity|].
  cbn [fmap list_fmap fst snd]. unfold reg_writes in *. cbn [omap list_omap].
  rewrite IH. reflexivity.
Qed.

Lemma fits_uint32_true (v : Z) : fits_uint32 v = true <-> 0 <= v < 2 ^ 32.
Proof. unfold fits_uint32. rewrite andb_true_iff, Z.leb_le, Z.ltb_lt. reflexivity. Qed.

Lemma fits_uint32_false (v : Z) : fits_uint32 v = false <-> ~ (0 <= v < 2 ^ 32).
Proof. rewrite <- fits_uint32_true. destruct (fits_uint32 v); split; congruence. Qed.

Lemma read_uio_mapping_param_run (name : string) (index : nat) (param : string) (w : world) :
  let pathname := uio_mapping_pathname name index param in
  read_uio_mapping_param name index param w
  = match os_sysfs os !! pathname ≫= fscanf_0x_x with
    | Some value =>
        (if fits_uint32 value then Ret value else Undefined, log_calls [Sys_fopen pathname] w)
    | None =>
        (Exit EXIT_FAILURE,
         (printf "Failed to read value from %s\n" [Arg_s pathname]
            (log_calls [Sys_fopen pathname] w)).2)
    end.
Proof.
  intros pathname. unfold read_uio_mapping_param. fold pathname.
  unfold mbind at 1. unfold prog_bind, fopen_r.
  destruct (os_sysfs os !! pathname ≫= fscanf_0x_x) as [value|]; [|reflexivity].
  destruct (fits_uint32 value); reflexivity.
Qed.

Lemma bind_run {A B : Type} (m : prog A) (f : A -> prog B) (w w' : world) (o : outcome A) :
  m w = (o, w') ->
  (m ≫= f) w
  = match o with
    | Ret a => f a w'
    | Exit status => (Exit status, w')
    | Undefined => (Undefined, w')
    end.
Proof. intros Hrun. unfold mbind, prog_bind. rewrite Hrun. reflexivity. Qed.

(** The part of main between open_uio_device and close_uio_device: the
    five lines are printed from the bytes of the window and the LED register
    is written four times; [k] is what follows. *)
Lemma main_after_open (context : nvram_uio_context) (w : world)
    (k : nvram_uio_context -> prog Z) :
  let csr_addr := csr context in
  memctrlstatus_magic context = csr_addr + MEMCTRLSTATUS_MAGIC ->
  memctrlstatus_memory context = csr_addr + MEMCTRLSTATUS_MEMORY ->
  memctrlstatus_battery context = csr_addr + MEMCTRLSTATUS_BATTERY ->
  memctrlcmd_ledctrl context = csr_addr + MEMCTRLCMD_LEDCTRL ->
  memctrlcmd_errctrl context = csr_addr + MEMCTRLCMD_ERRCTRL ->
  exists mem',
    (v ← read8 (memctrlstatus_magic context);
     printf "memctrlstatus_magic=0x%x\n" [Arg_x v];;
     v ← read8 (memctrlstatus_memory context);
     printf "memctrlstatus_memory=0x%x\n" [Arg_x v];;
     v ← read8 (memctrlstatus_battery context);
     printf "memctrlstatus_battery=0x%x\n" [Arg_x v];;
     v ← read8 (memctrlcmd_ledctrl context);
     printf "memctrlcmd_ledctrl=0x%x\n" [Arg_x v];;
     v ← read8 (memctrlcmd_errctrl context);
     printf "memctrlcmd_errctrl=0x%x\n" [Arg_x v];;
     set_led context LED_FAULT LED_ON;;
     set_led context LED_FAULT LED_FLASH_7_0;;
     set_led context LED_FAULT LED_FLASH_3_5;;
     set_led context LED_FAULT LED_OFF;;
     k context) w
    = k context
        {| w_stdout := w_stdout w ++ register_lines (w_mem w) csr_addr;
           w_calls :=
             w_calls w
               ++ ((fun aw => Reg_write aw.1 aw.2) <$> led_transitions (w_mem w) csr_addr);
           w_fds := w_fds w; w_mapped := w_mapped w; w_mem := mem' |}.
Proof.
  intros csr_addr Hmagic Hmemory Hbattery Hled Herr. destruct w as [out calls fds mapped mem].
  unfold register_lines, led_transitions.
  rewrite <- Hmagic, <- Hmemory, <- Hbattery, <- Hled, <- Herr.
  lazy beta iota zeta delta
    [set_led mbind prog_bind read8 printf emit write8 store8 load8
     w_stdout w_calls w_fds w_mapped w_mem fmap list_fmap fst snd].
  rewrite !Z.eqb_refl. rewrite <- !app_assoc.
  eexists. reflexivity.
Qed.

Lemma get_uio_device_parameters_run (context : nvram_uio_context) (w : world) :
  let pathname := uio_mapping_pathname (device_name context) CSR_MAPPING_INDEX in
  let param p := os_sysfs os !! pathname p ≫= fscanf_0x_x in
  get_uio_device_parameters context w
  = match param "offset" with
    | None =>
        (Exit EXIT_FAILURE,
         (printf "Failed to read value from %s\n" [Arg_s (pathname "offset")]
            (log_calls [Sys_fopen (pathname "offset")] w)).2)
    | Some offset =>
        if fits_uint32 offset then
          match param "size" with
          | None =>
              (Exit EXIT_FAILURE,
               (printf "Failed to read value from %s\n" [Arg_s (pathname "size")]
                  (log_calls [Sys_fopen (pathname "offset"); Sys_fopen (pathname "size")] w)).2)
          | Some size =>
              if fits_uint32 size then
                (Ret {| device_name := device_name context; csr_mmap_offset := offset;
                        csr_mmap_size := size; device_fd := device_fd context;
                        csr := csr context;
                        memctrlstatus_magic := memctrlstatus_magic context;
                        memctrlstatus_memory := memctrlstatus_memory context;
                        memctrlstatus_battery := memctrlstatus_battery context;
                        memctrlcmd_ledctrl := memctrlcmd_ledctrl context;
                        memctrlcmd_errctrl := memctrlcmd_errctrl context |},
                 log_calls [Sys_fopen (pathname "offset"); Sys_fopen (pathname "size")] w)
              else
                (Undefined,
                 log_calls [Sys_fopen (pathname "offset"); Sys_fopen (pathname "size")] w)
          end
        else (Undefined, log_calls [Sys_fopen (pathname "offset")] w)
    end.
Proof.
  intros pathname param. unfold get_uio_device_parameters.
  unfold mbind at 1. unfold prog_bind. rewrite read_uio_mapping_param_run.
  fold pathname. fold (param "offset"). destruct (param "offset") as [offset|]; [|reflexivity].
  destruct (fits_uint32 offset); [|reflexivity].
  unfold mbind at 1. unfold prog_bind. rewrite read_uio_mapping_param_run.
  fold pathname. fold (param "size"). rewrite log_calls_app. cbn [app].
  destruct (param "size") as [size|]; [|reflexivity].
  destruct (fits_uint32 size); reflexivity.
Qed.

(** A run of main that ended before it touched a register. *)
Ltac main_failure :=
  cbn [fst snd emit printf perror exit w_stdout w_calls w_fds w_mapped w_mem log_calls log_call
       sys_open sys_mmap];
  rewrite ?reg_writes_app; cbn [reg_writes omap list_omap];
  rewrite ?app_nil_r, <- ?app_assoc; reflexivity.

(** main from the device that find_uio_device returned on: what it prints
    and writes after the output and the calls of the search, by the content of
    the offset and size files and the answers of open and mmap, every register
    access taken to be valid. *)
Lemma main_after_find (w0 w1 : world) (context1 : nvram_uio_context) :
  0 < os_pagesize os ->
  find_uio_device w0 = (Ret context1, w1) ->
  let name := device_name context1 in
  let pathname := uio_mapping_pathname name CSR_MAPPING_INDEX in
  let param p := os_sysfs os !! pathname p ≫= fscanf_0x_x in
  let device_pathname := snprintf PATH_MAX ("/dev/" +:+ name) in
  let fd := os_open os device_pathname in
  let out1 := w_stdout w1 in
  let writes1 := reg_writes (w_calls w1) in
  behaviour (main w0)
  = match param "offset" with
    | None =>
        (Exit EXIT_FAILURE,
         out1 ++ [Printf "Failed to read value from %s\n" [Arg_s (pathname "offset")]], writes1)
    | Some offset =>
        if fits_uint32 offset then
          match param "size" with
          | None =>
              (Exit EXIT_FAILURE,
               out1 ++ [Printf "Failed to read value from %s\n" [Arg_s (pathname "size")]],
               writes1)
          | Some size =>
              if fits_uint32 size then
                if fd =? -1 then
                  (Exit EXIT_FAILURE,
                   out1 ++ [Printf "Failed to open %s\n" [Arg_s device_pathname]; Perror],
                   writes1)
                else
                  match os_mmap os size fd (Z.of_nat CSR_MAPPING_INDEX * os_pagesize os) with
                  | None =>
                      (Exit EXIT_FAILURE,
                       out1 ++ [Printf "Failed to map csr registers for %s\n" [Arg_s name];
                                Perror],
                       writes1)
                  | Some page =>
                      let csr := Z.of_N page * os_pagesize os + offset in
                      if (csr mod os_pagesize os =? 0) && (0 <? size) then
                        (Ret EXIT_SUCCESS, out1 ++ register_lines (w_mem w1) csr,
                         writes1 ++ led_transitions (w_mem w1) csr)
                      else
                        (Exit EXIT_FAILURE,
                         out1 ++ register_lines (w_mem w1) csr
                           ++ [Printf "Failed to munmap %s\n" [Arg_s name]],
                         writes1 ++ led_transitions (w_mem w1) csr)
                  end
              else (Undefined, out1, writes1)
          end
        else (Undefined, out1, writes1)
    end.
Proof.
  intros Hps Hfind name pathname param device_pathname fd out1 writes1.
  unfold behaviour, main.
  rewrite (bind_run _ _ _ _ _ Hfind). cbv beta iota.
  pose proof (get_uio_device_parameters_run context1 w1) as Hparams.
  cbv beta zeta in Hparams.
  fold name in Hparams. fold pathname in Hparams.
  fold (param "offset") in Hparams. fold (param "size") in Hparams.
  destruct (param "offset") as [offset|];
    [|rewrite (bind_run _ _ _ _ _ Hparams); main_failure].
  destruct (fits_uint32 offset);
    [|rewrite (bind_run _ _ _ _ _ Hparams); main_failure].
  destruct (param "size") as [size|];
    [|rewrite (bind_run _ _ _ _ _ Hparams); main_failure].
  destruct (fits_uint32 size);
    [|rewrite (bind_run _ _ _ _ _ Hparams); main_failure].
  rewrite (bind_run _ _ _ _ _ Hparams). cbv beta iota. clear Hparams.
  match goal with
  | |- context [open_uio_device ?c] =>
      match goal with
      | |- context [(open_uio_device c ≫= _) ?w] =>
          pose proof (open_uio_device_run c w Hps) as Hopen
      end
  end.
  cbv zeta in Hopen. cbn [device_name csr_mmap_size csr_mmap_offset] in Hopen.
  fold name in Hopen. fold device_pathname in Hopen. fold fd in Hopen.
  unfold sys_mmap in Hopen.
  destruct (fd =? -1) eqn:Hfd;
    [rewrite (bind_run _ _ _ _ _ Hopen); main_failure|].
  destruct (os_mmap os size fd (Z.of_nat CSR_MAPPING_INDEX * os_pagesize os))
    as [page|] eqn:Hmmap;
    [|rewrite (bind_run _ _ _ _ _ Hopen); main_failure].
  rewrite (bind_run _ _ _ _ _ Hopen). cbv beta iota. clear Hopen.
  set (csr_addr := Z.of_N page * os_pagesize os + offset).
  match goal with
  | |- context [set_led ?c LED_FAULT LED_ON] => set (context := c)
  end.
  match goal with
  | |- context [(read8 (memctrlstatus_magic context) ≫= _) ?w] => set (w3 := w)
  end.
  destruct (main_after_open context w3
              (fun context => close_uio_device context ≫= fun _ => mret EXIT_SUCCESS)
              eq_refl eq_refl eq_refl eq_refl eq_refl) as [mem' Hmid].
  cbv beta zeta in Hmid. rewrite Hmid. clear Hmid.
  pose proof (close_uio_device_run context
                {| w_stdout := w_stdout w3 ++ register_lines (w_mem w3) csr_addr;
                   w_calls :=
                     w_calls w3
                       ++ ((fun aw => Reg_write aw.1 aw.2)
                             <$> led_transitions (w_mem w3) csr_addr);
                   w_fds := w_fds w3; w_mapped := w_mapped w3; w_mem := mem' |})
    as Hclose.
  change (csr context) with csr_addr in *.
  change (csr_mmap_size context) with size in Hclose.
  change (device_name context) with name in Hclose.
  destruct ((csr_addr mod os_pagesize os =? 0) && (0 <? size));
    rewrite (bind_run _ _ _ _ _ Hclose); clear Hclose;
    unfold w3;
    cbn [mret prog_ret fst snd w_stdout w_calls w_mem sys_open log_calls];
    rewrite !reg_writes_app, reg_writes_fmap; cbn [reg_writes omap list_omap];
    rewrite ?app_nil_r, <- ?app_assoc; reflexivity.
Qed.

(** * Further properties *)

(** ** The LED register under several calls of set_led *)

Lemma testbit_outside_field (state shift i : Z) :
  0 <= state <= 3 -> i <> shift -> i <> shift + 1 -> Z.testbit state (i - shift) = false.
Proof.
  intros Hstate Hne1 Hne2. destruct (Z.lt_ge_cases i shift).
  - apply Z.testbit_neg_r. lia.
  - apply testbit_two_bits; lia.
Qed.

(** The field that a state other than FLIP leaves, and the rest of the
    byte, for the byte that is stored. *)
Lemma set_led_byte_field (led shift state : Z) :
  0 <= shift <= 6 -> 0 <= state <= 3 -> state <> LED_FLIP ->
  Z.land (Z.shiftr (set_led_byte led shift state) shift) 3 = state /\
  forall i, 0 <= i -> i <> shift -> i <> shift + 1 ->
            Z.testbit (set_led_byte led shift state) i = Z.testbit (uint8 led) i.
Proof.
  intros Hs Hstate Hflip. split.
  - apply Z.bits_inj'. intros j Hj.
    rewrite Z.land_spec, Z.shiftr_spec, testbit_3 by lia.
    rewrite set_led_byte_state_bits by lia.
    replace (j + shift - shift) with j by lia.
    assert (Hcase : j = 0 \/ j = 1 \/ 2 <= j) by lia.
    destruct Hcase as [->|[->|Hge]].
    + cmp_cases.
    + cmp_cases.
    + rewrite (testbit_two_bits state j) by lia. cmp_cases.
  - intros i Hi Hne1 Hne2. rewrite set_led_byte_state_bits, uint8_bits by lia.
    rewrite (testbit_outside_field state shift i) by assumption. cmp_cases.
Qed.

(** A second state written to the same LED replaces the first. *)
Lemma set_led_byte_overwrite (led shift state1 state2 : Z) :
  0 <= shift <= 6 -> 0 <= state1 <= 3 -> 0 <= state2 <= 3 ->
  state1 <> LED_FLIP -> state2 <> LED_FLIP ->
  set_led_byte (set_led_byte led shift state1) shift state2 = set_led_byte led shift state2.
Proof.
  intros Hs H1 H2 Hf1 Hf2. apply Z.bits_inj'. intros i Hi.
  rewrite !set_led_byte_state_bits by lia.
  assert (Hcase : i = shift \/ i = shift + 1 \/ (i <> shift /\ i <> shift + 1)) by lia.
  destruct Hcase as [->|[->|[Hne1 Hne2]]].
  - cmp_cases.
  - cmp_cases.
  - rewrite (testbit_outside_field state1 shift i), (testbit_outside_field state2 shift i)
      by assumption.
    cmp_cases.
Qed.

(** Two LEDs are set independently of the order. *)
Lemma set_led_byte_commute (led shift1 state1 shift2 state2 : Z) :
  0 <= shift1 -> 0 <= shift2 -> shift1 + 2 <= shift2 \/ shift2 + 2 <= shift1 ->
  0 <= state1 <= 3 -> 0 <= state2 <= 3 ->
  state1 <> LED_FLIP -> state2 <> LED_FLIP ->
  set_led_byte (set_led_byte led shift1 state1) shift2 state2
  = set_led_byte (set_led_byte led shift2 state2) shift1 state1.
Proof.
  intros Hs1 Hs2 Hapart H1 H2 Hf1 Hf2. apply Z.bits_inj'. intros i Hi.
  rewrite !set_led_byte_state_bits by lia.
  assert (Hcase : (i = shift1 \/ i = shift1 + 1) \/ (i = shift2 \/ i = shift2 + 1)
                  \/ (i <> shift1 /\ i <> shift1 + 1 /\ i <> shift2 /\ i <> shift2 + 1))
    by lia.
  destruct Hcase as [Hin1|[Hin2|(Hn1 & Hn2 & Hn3 & Hn4)]].
  - rewrite (testbit_outside_field state2 shift2 i) by lia. cmp_cases.
  - rewrite (testbit_outside_field state1 shift1 i) by lia. cmp_cases.
  - rewrite (testbit_outside_field state1 shift1 i), (testbit_outside_field state2 shift2 i)
      by lia.
    cmp_cases.
Qed.

Lemma set_led_twice (context : nvram_uio_context) (w : world) (shift1 state1 shift2 state2 : Z) :
  let reg := memctrlcmd_ledctrl context in
  (set_led context shift1 state1 ≫= fun _ => set_led context shift2 state2) w
  = (Ret (),
     store8 reg (set_led_byte (uint8 (set_led_byte (load8 w reg) shift1 state1)) shift2 state2)
       (store8 reg (set_led_byte (load8 w reg) shift1 state1) w)).
Proof.
  intros reg. unfold mbind, prog_bind. rewrite set_led_run. cbv beta iota.
  rewrite set_led_run. fold reg. rewrite load8_store8. reflexivity.
Qed.

(** X1.  Writing a state to an LED and then another state to the same LED
    leaves the register as the second write alone would: the first state is
    overwritten, nothing of it remains. *)
Theorem set_led_overwrites (context : nvram_uio_context) (w : world) (shift state1 state2 : Z) :
  shift ∈ [0; 2; 4; 6] ->
  0 <= state1 <= 3 -> 0 <= state2 <= 3 ->
  state1 <> LED_FLIP -> state2 <> LED_FLIP ->
  let reg := memctrlcmd_ledctrl context in
  exists w12 w2,
    (set_led context shift state1 ≫= fun _ => set_led context shift state2) w
    = (Ret (), w12) /\
    set_led context shift state2 w = (Ret (), w2) /\
    load8 w12 reg = load8 w2 reg.
Proof.
  intros Hshift H1 H2 Hf1 Hf2 reg.
  assert (Hs : 0 <= shift <= 6).
  { repeat (apply elem_of_cons in Hshift as [->|Hshift]); try lia.
    apply elem_of_nil in Hshift. contradiction. }
  eexists _, _. split; [apply set_led_twice|]. split; [apply set_led_run|]. fold reg.
  rewrite !load8_store8.
  rewrite (uint8_small (set_led_byte (load8 w reg) shift state1))
    by apply set_led_byte_range.
  rewrite set_led_byte_overwrite by assumption. reflexivity.
Qed.

(** X2.  Two different LEDs are independent: setting one and then the
    other leaves the register as setting them in the other order. *)
Theorem set_led_commutes (context : nvram_uio_context) (w : world)
    (shift1 state1 shift2 state2 : Z) :
  shift1 ∈ [0; 2; 4; 6] -> shift2 ∈ [0; 2; 4; 6] -> shift1 <> shift2 ->
  0 <= state1 <= 3 -> 0 <= state2 <= 3 ->
  state1 <> LED_FLIP -> state2 <> LED_FLIP ->
  let reg := memctrlcmd_ledctrl context in
  exists w12 w21,
    (set_led context shift1 state1 ≫= fun _ => set_led context shift2 state2) w
    = (Ret (), w12) /\
    (set_led context shift2 state2 ≫= fun _ => set_led context shift1 state1) w
    = (Ret (), w21) /\
    load8 w12 reg = load8 w21 reg.
Proof.
  intros Hshift1 Hshift2 Hne H1 H2 Hf1 Hf2 reg.
  assert (Hs : 0 <= shift1 /\ 0 <= shift2 /\ (shift1 + 2 <= shift2 \/ shift2 + 2 <= shift1)).
  { repeat (apply elem_of_cons in Hshift1 as [->|Hshift1]);
      try (apply elem_of_nil in Hshift1; contradiction);
      repeat (apply elem_of_cons in Hshift2 as [->|Hshift2]);
      try (apply elem_of_nil in Hshift2; contradiction); lia. }
  destruct Hs as (Hs1 & Hs2 & Hapart).
  eexists _, _. split; [apply set_led_twice|]. split; [apply set_led_twice|]. fold reg.
  rewrite !load8_store8.
  rewrite (uint8_small (set_led_byte (load8 w reg) shift1 state1))
    by apply set_led_byte_range.
  rewrite (uint8_small (set_led_byte (load8 w reg) shift2 state2))
    by apply set_led_byte_range.
  rewrite set_led_byte_commute by assumption. reflexivity.
Qed.

(** X3.  FLIP with a shift past the byte (8 to 30, where the shift of the
    int 1 is still defined) changes nothing: the register keeps its value. *)
Theorem set_led_flip_out_of_range (context : nvram_uio_context) (w : world) (shift : Z) :
  8 <= shift <= 30 ->
  exists w',
    set_led context shift LED_FLIP w = (Ret (), w') /\
    load8 w' (memctrlcmd_ledctrl context) = load8 w (memctrlcmd_ledctrl context).
Proof.
  intros Hs. eexists. split; [apply set_led_run|].
  rewrite load8_store8, (uint8_small _ (set_led_byte_range _ _ _)).
  apply Z.bits_inj'. intros i Hi. rewrite set_led_byte_flip_bits by lia.
  unfold load8. rewrite uint8_bits. cmp_cases.
Qed.

(** X4.  The state, an unsigned char, is not masked to two bits: the bits
    above the second of a state other than FLIP are ORed into the fields of
    the LEDs above, and the register is never cleared outside the addressed
    field. *)
Theorem set_led_state_not_masked (context : nvram_uio_context) (w : world)
    (shift state i : Z) :
  0 <= state < 256 ->
  state <> LED_FLIP -> 0 <= shift -> shift + 2 <= i < 8 ->
  exists w',
    set_led context shift state w = (Ret (), w') /\
    Z.testbit (load8 w' (memctrlcmd_ledctrl context)) i
    = Z.testbit (load8 w (memctrlcmd_ledctrl context)) i || Z.testbit state (i - shift).
Proof.
  intros _ Hflip Hs Hi. eexists. split; [apply set_led_run|].
  rewrite load8_store8, (uint8_small _ (set_led_byte_range _ _ _)).
  rewrite set_led_byte_state_bits by lia.
  unfold load8. rewrite uint8_bits. cmp_cases.
Qed.

(** X5.  The four set_led calls of main, in sequence, write the LED
    register four times and leave it as the last call alone would: the field
    of LED_FAULT holds LED_OFF and every other bit is as before the first
    call. *)
Theorem main_led_sequence (context : nvram_uio_context) (w : world) :
  LED_FAULT ∈ [0; 2; 4; 6] ->
  Forall (fun state => 0 <= state <= 3 /\ state <> LED_FLIP)
    [LED_ON; LED_FLASH_7_0; LED_FLASH_3_5; LED_OFF] ->
  let reg := memctrlcmd_ledctrl context in
  exists w',
    (set_led context LED_FAULT LED_ON;;
     set_led context LED_FAULT LED_FLASH_7_0;;
     set_led context LED_FAULT LED_FLASH_3_5;;
     set_led context LED_FAULT LED_OFF) w = (Ret (), w') /\
    length (reg_writes (w_calls w')) = (length (reg_writes (w_calls w)) + 4)%nat /\
    load8 w' reg = set_led_byte (load8 w reg) LED_FAULT LED_OFF /\
    Z.land (Z.shiftr (load8 w' reg) LED_FAULT) 3 = LED_OFF /\
    forall i, 0 <= i -> i <> LED_FAULT -> i <> LED_FAULT + 1 ->
              Z.testbit (load8 w' reg) i = Z.testbit (load8 w reg) i.
Proof.
  intros Hshift Hstates reg.
  assert (Hs : 0 <= LED_FAULT <= 6).
  { repeat (apply elem_of_cons in Hshift as [Heq|Hshift]; [lia|]).
    apply elem_of_nil in Hshift. contradiction. }
  rewrite !Forall_cons in Hstates.
  destruct Hstates as ([Hon Hon'] & [H70 H70'] & [H35 H35'] & [Hoff Hoff'] & _).
  assert (Hrun : forall (state : Z) (k : prog unit) (v : world),
             (set_led context LED_FAULT state ≫= fun _ => k) v
             = k (store8 reg (set_led_byte (load8 v reg) LED_FAULT state) v)).
  { intros state k v. unfold mbind, prog_bind. rewrite set_led_run. reflexivity. }
  eexists. split.
  { rewrite !Hrun. rewrite set_led_run. fold reg. reflexivity. }
  match goal with
  | |- _ /\ load8 ?final reg = _ /\ _ =>
      assert (Hlast : load8 final reg = set_led_byte (load8 w reg) LED_FAULT LED_OFF)
  end.
  { rewrite !load8_store8.
    rewrite !(uint8_small (set_led_byte _ _ _)) by apply set_led_byte_range.
    rewrite !set_led_byte_overwrite by assumption. reflexivity. }
  split; [|split; [exact Hlast|]].
  { unfold store8. cbn [w_calls]. rewrite !reg_writes_app, !length_app. cbn. lia. }
  rewrite Hlast.
  destruct (set_led_byte_field (load8 w reg) LED_FAULT LED_OFF Hs Hoff Hoff') as [Hfield Hrest].
  split; [exact Hfield|]. intros i Hi Hne1 Hne2. rewrite Hrest by assumption.
  unfold load8. rewrite uint8_small by apply uint8_range. reflexivity.
Qed.

(** ** The mapping and the descriptor across open and close *)

Lemma filter_none {A : Type} (P : A -> Prop) `{forall x, Decision (P x)} (l : list A) :
  Forall (fun x => ~ P x) l -> filter P l = [].
Proof.
  induction 1 as [|x l Hx _ IH]; [reflexivity|].
  rewrite filter_cons_False by assumption. exact IH.
Qed.

Lemma filter_all {A : Type} (P : A -> Prop) `{forall x, Decision (P x)} (l : list A) :
  Forall P l -> filter P l = l.
Proof.
  induction 1 as [|x l Hx _ IH]; [reflexivity|].
  rewrite filter_cons_True by assumption. rewrite IH. reflexivity.
Qed.

(** Every page of a mapping lies in the range of the mapping. *)
Lemma pages_of_range (addr len : Z) :
  0 < os_pagesize os ->
  Forall (fun p => addr <= p < addr + len) (pages_of addr len).
Proof.
  intros Hps. unfold pages_of. apply Forall_fmap, Forall_forall. intros i Hi.
  apply elem_of_seq in Hi. unfold compose.
  pose proof (Z.mul_div_le (len + os_pagesize os - 1) (os_pagesize os) Hps) as Hle.
  set (n := (len + os_pagesize os - 1) / os_pagesize os) in *.
  clearbody n. assert (Hn : Z.of_nat i < n) by lia. nia.
Qed.

(** A mapping of at least one byte has its first page at its address. *)
Lemma pages_of_first (addr len : Z) :
  0 < os_pagesize os -> 0 < len -> addr ∈ pages_of addr len.
Proof.
  intros Hps Hlen. unfold pages_of.
  assert (Hn : 1 <= (len + os_pagesize os - 1) / os_pagesize os)
    by (apply Z.div_le_lower_bound; lia).
  destruct (Z.to_nat ((len + os_pagesize os - 1) / os_pagesize os)) as [|k] eqn:Hk; [lia|].
  cbn [seq fmap list_fmap]. replace (addr + Z.of_nat 0 * os_pagesize os) with addr by lia.
  apply elem_of_cons. left. reflexivity.
Qed.

(** X6.  With an offset of 0, close_uio_device undoes open_uio_device: the
    pages that mmap gave are unmapped, the descriptor is closed, the csr
    pointer is NULL, and nothing was printed. *)
Theorem open_close_round_trip (context context' : nvram_uio_context) (w w' : world) :
  0 < os_pagesize os ->
  csr_mmap_offset context = 0 ->
  0 < csr_mmap_size context ->
  open_uio_device context w = (Ret context', w') ->
  Forall (fun p => ~ (csr context' <= p < csr context' + csr_mmap_size context)) (w_mapped w) ->
  device_fd context' ∉ w_fds w ->
  exists context'' w'',
    close_uio_device context' w' = (Ret context'', w'') /\
    csr context'' = 0 /\
    w_mapped w'' = w_mapped w /\
    w_fds w'' = w_fds w /\
    w_stdout w'' = w_stdout w.
Proof.
  intros Hps Hoff Hsize Hopen Hfresh Hfd.
  rewrite open_uio_device_run in Hopen by assumption.
  destruct (os_open os _ =? -1) eqn:Hopened; [discriminate|].
  destruct (os_mmap os _ _ _) as [page|] eqn:Hmmap; [|discriminate].
  injection Hopen as <- <-. cbn [csr device_fd] in Hfresh, Hfd.
  rewrite close_uio_device_run. cbn [csr csr_mmap_size device_fd].
  rewrite Hoff, Z.add_0_r in *. rewrite Z.mod_mul by lia.
  destruct (Z.ltb_spec 0 (csr_mmap_size context)) as [_|]; [|lia].
  cbn [andb Z.eqb]. eexists _, _. split; [reflexivity|]. split; [reflexivity|].
  unfold sys_mmap, sys_open. rewrite Hmmap, Hopened.
  cbn [snd w_stdout w_fds w_mapped]. split; [|split; [|reflexivity]].
  - rewrite filter_app, (filter_none _ (pages_of _ _)), (filter_all _ (w_mapped w));
      [reflexivity|assumption|].
    eapply Forall_impl; [apply pages_of_range; assumption|].
    intros p Hp Hnot. exact (Hnot Hp).
  - rewrite filter_cons_False by (intros Hne; apply Hne; reflexivity).
    apply filter_all, Forall_forall. intros d Hd ->. exact (Hfd Hd).
Qed.

(** X8.  With an offset that is a multiple of the page size and not 0,
    munmap is given a page-aligned address past the start of the mapping: it
    succeeds, close_uio_device returns, and the first page of the mapping is
    still mapped. *)
Theorem close_uio_device_leaves_first_page (context context' : nvram_uio_context)
    (w w' : world) :
  0 < os_pagesize os ->
  open_uio_device context w = (Ret context', w') ->
  0 < csr_mmap_offset context ->
  csr_mmap_offset context mod os_pagesize os = 0 ->
  0 < csr_mmap_size context ->
  exists context'' w'',
    close_uio_device context' w' = (Ret context'', w'') /\
    csr context' - csr_mmap_offset context ∈ pages_of (csr context' - csr_mmap_offset context)
                                               (csr_mmap_size context) /\
    csr context' - csr_mmap_offset context ∈ w_mapped w''.
Proof.
  intros Hps Hopen Hoff Hmod Hsize.
  rewrite open_uio_device_run in Hopen by assumption.
  destruct (os_open os _ =? -1) eqn:Hopened; [discriminate|].
  destruct (os_mmap os _ _ _) as [page|] eqn:Hmmap; [|discriminate].
  injection Hopen as <- <-.
  rewrite close_uio_device_run. cbn [csr csr_mmap_size device_fd].
  replace ((Z.of_N page * os_pagesize os + csr_mmap_offset context) mod os_pagesize os)
    with 0 by (rewrite Z.add_comm, Z.mod_add by lia; symmetry; exact Hmod).
  destruct (Z.ltb_spec 0 (csr_mmap_size context)) as [_|]; [|lia].
  cbn [andb Z.eqb]. eexists _, _. split; [reflexivity|].
  replace (Z.of_N page * os_pagesize os + csr_mmap_offset context - csr_mmap_offset context)
    with (Z.of_N page * os_pagesize os) by lia.
  split; [apply pages_of_first; assumption|].
  unfold sys_mmap, sys_open. rewrite Hmmap, Hopened. cbn [snd w_mapped].
  apply list_elem_of_filter. split; [lia|].
  apply elem_of_app. left. apply pages_of_first; assumption.
Qed.

(** X9.  get_uio_device_parameters reads the offset file and then the
    size file of the csr mapping, and what the conversion finds in them decides
    how it ends.  It returns, with the two numbers converted and the device
    name kept, only when both fit an unsigned int; it prints the path and
    exits with EXIT_FAILURE at the first file that cannot be read or
    converted; its behaviour is undefined at the first number that does not
    fit.  The size file is opened only after the offset was read and fits. *)
Theorem get_uio_device_parameters_result (context : nvram_uio_context) (w : world) :
  let pathname := uio_mapping_pathname (device_name context) CSR_MAPPING_INDEX in
  let param p := os_sysfs os !! pathname p ≫= fscanf_0x_x in
  let opened_offset := w_calls w ++ [Sys_fopen (pathname "offset")] in
  let opened_both :=
    w_calls w ++ [Sys_fopen (pathname "offset"); Sys_fopen (pathname "size")] in
  match get_uio_device_parameters context w with
  | (Ret context', w') =>
      param "offset" = Some (csr_mmap_offset context') /\
      param "size" = Some (csr_mmap_size context') /\
      0 <= csr_mmap_offset context' < 2 ^ 32 /\
      0 <= csr_mmap_size context' < 2 ^ 32 /\
      device_name context' = device_name context /\
      w_stdout w' = w_stdout w /\
      w_calls w' = opened_both
  | (Exit status, w') =>
      status = EXIT_FAILURE /\
      ((param "offset" = None /\
        w_stdout w'
        = w_stdout w ++ [Printf "Failed to read value from %s\n" [Arg_s (pathname "offset")]] /\
        w_calls w' = opened_offset)
       \/
       ((exists offset, param "offset" = Some offset /\ 0 <= offset < 2 ^ 32) /\
        param "size" = None /\
        w_stdout w'
        = w_stdout w ++ [Printf "Failed to read value from %s\n" [Arg_s (pathname "size")]] /\
        w_calls w' = opened_both))
  | (Undefined, w') =>
      w_stdout w' = w_stdout w /\
      ((exists offset,
          param "offset" = Some offset /\ ~ (0 <= offset < 2 ^ 32) /\
          w_calls w' = opened_offset)
       \/
       (exists offset size,
          param "offset" = Some offset /\ 0 <= offset < 2 ^ 32 /\
          param "size" = Some size /\ ~ (0 <= size < 2 ^ 32) /\
          w_calls w' = opened_both))
  end.
Proof.
  intros pathname param opened_offset opened_both.
  rewrite get_uio_device_parameters_run. fold pathname.
  fold (param "offset"). fold (param "size").
  destruct (param "offset") as [offset|]; cycle 1.
  { split; [reflexivity|]. left. split; [reflexivity|]. split; reflexivity. }
  destruct (fits_uint32 offset) eqn:Hoffset; cycle 1.
  { apply fits_uint32_false in Hoffset. split; [reflexivity|]. left.
    exists offset. split; [reflexivity|]. split; [exact Hoffset|reflexivity]. }
  apply fits_uint32_true in Hoffset.
  destruct (param "size") as [size|]; cycle 1.
  { split; [reflexivity|]. right. split; [exists offset; split; [reflexivity|exact Hoffset]|].
    split; [reflexivity|]. split; reflexivity. }
  destruct (fits_uint32 size) eqn:Hsize.
  - apply fits_uint32_true in Hsize. cbn [device_name csr_mmap_offset csr_mmap_size].
    split; [reflexivity|]. split; [reflexivity|]. split; [exact Hoffset|].
    split; [exact Hsize|]. split; [reflexivity|]. split; reflexivity.
  - apply fits_uint32_false in Hsize. split; [reflexivity|]. right.
    exists offset, size. split; [reflexivity|]. split; [exact Hoffset|].
    split; [reflexivity|]. split; [exact Hsize|reflexivity].
Qed.

(** X22.  open_uio_device fails in two ways, both ending the program with
    EXIT_FAILURE after a message and perror, and neither mapping anything:
    when open fails, mmap is not called and no descriptor is held; when mmap
    fails, the descriptor that open returned is left open. *)
Theorem open_uio_device_failure (context : nvram_uio_context) (w w' : world) (status : Z) :
  0 < os_pagesize os ->
  open_uio_device context w = (Exit status, w') ->
  let device_pathname := snprintf PATH_MAX ("/dev/" +:+ device_name context) in
  let fd := os_open os device_pathname in
  let off := Z.of_nat CSR_MAPPING_INDEX * os_pagesize os in
  status = EXIT_FAILURE /\
  w_mapped w' = w_mapped w /\
  ((fd = -1 /\
    w_stdout w' = w_stdout w ++ [Printf "Failed to open %s\n" [Arg_s device_pathname]; Perror] /\
    w_calls w' = w_calls w ++ [Sys_open device_pathname (-1)] /\
    w_fds w' = w_fds w)
   \/
   (fd <> -1 /\
    w_stdout w'
    = w_stdout w ++ [Printf "Failed to map csr registers for %s\n" [Arg_s (device_name context)];
                     Perror] /\
    w_calls w'
    = w_calls w ++ [Sys_open device_pathname fd;
                    Sys_mmap (csr_mmap_size context) fd off MAP_FAILED] /\
    w_fds w' = fd :: w_fds w)).
Proof.
  intros Hps Hopen device_pathname fd off.
  rewrite open_uio_device_run in Hopen by assumption. cbv zeta in Hopen.
  fold device_pathname in Hopen. fold fd in Hopen. fold off in Hopen.
  unfold sys_open, sys_mmap, printf, perror, emit, log_call in Hopen.
  fold fd in Hopen.
  destruct (Z.eqb_spec fd (-1)) as [Hfd|Hfd].
  - injection Hopen as <- <-. cbn [snd w_mapped w_stdout w_calls w_fds].
    split; [reflexivity|]. split; [reflexivity|]. left.
    rewrite Hfd. rewrite <- app_assoc. repeat split.
  - destruct (os_mmap os (csr_mmap_size context) fd off) as [page|] eqn:Hmap; [discriminate|].
    injection Hopen as <- <-. cbn [snd w_mapped w_stdout w_calls w_fds].
    split; [reflexivity|]. split; [reflexivity|]. right.
    rewrite <- !app_assoc. repeat split. exact Hfd.
Qed.

(** ** More on the scan of the registry *)

Lemma fgets_chars_first_line (body rest : list ascii) :
  forall n, Forall (fun c => c <> newline) body -> (length body < n)%nat ->
            fgets_chars n (body ++ newline :: rest) = body ++ [newline].
Proof.
  induction body as [|c body IH]; intros n Hb Hlen.
  - destruct n as [|n]; [simpl in Hlen; lia|]. cbn [app fgets_chars].
    rewrite bool_decide_eq_true_2 by reflexivity. reflexivity.
  - destruct n as [|n]; [simpl in Hlen; lia|].
    rewrite Forall_cons in Hb. destruct Hb as [Hc Hb]. cbn [app fgets_chars].
    rewrite bool_decide_eq_false_2 by assumption.
    rewrite IH by (assumption || (simpl in Hlen; lia)). reflexivity.
Qed.

Lemma fgets_nonempty (size : nat) (stream : list ascii) :
  stream <> [] -> fgets size stream = Some (fgets_chars (size - 1) stream).
Proof. destruct stream; [contradiction|reflexivity]. Qed.

(** X10.  Only the first line of a name file is compared: an entry whose
    name file begins with DRIVER_NAME and a newline is taken as the device
    whatever follows in the file, although the content of such a file,
    trimmed of a trailing newline, is not DRIVER_NAME when more follows. *)
Theorem find_uio_device_entry_first_line (entry : dirent) (context : nvram_uio_context)
    (w : world) (rest : list ascii) :
  driver_name_ok ->
  Forall (fun c => c <> newline) DRIVER_NAME ->
  is_dir_or_link (d_type entry) = true ->
  os_sysfs os !! uio_name_pathname entry = Some (DRIVER_NAME ++ newline :: rest) ->
  find_uio_device_entry entry context w
  = (Ret (true, set_device_name context (d_name entry)),
     log_call (Sys_fopen (uio_name_pathname entry)) w) /\
  (rest <> [] -> spec_matches entry = false).
Proof.
  intros Hdrv Hnl Hkind Hfile. pose proof Hdrv as [Hnul Hlen]. split.
  - unfold find_uio_device_entry. rewrite Hkind.
    unfold mbind, prog_bind, fopen_r. rewrite Hfile.
    rewrite fgets_nonempty
      by (intros Hnil; apply app_eq_nil in Hnil as [_ Hnil]; discriminate Hnil).
    change (80 - 1)%nat with 79%nat.
    rewrite fgets_chars_first_line by (assumption || lia).
    assert (Hall : Forall (fun c => c <> NUL) (DRIVER_NAME ++ [newline])).
    { apply Forall_app. split; [assumption|]. repeat constructor. discriminate. }
    rewrite (c_str_no_nul _ Hall), length_app. cbn [length].
    replace (length DRIVER_NAME + 1)%nat with (S (length DRIVER_NAME)) by lia.
    rewrite list_lookup_middle by reflexivity.
    rewrite bool_decide_eq_true_2 by reflexivity.
    rewrite insert_app_r_alt by lia. rewrite Nat.sub_diag. cbn [insert list_insert].
    unfold strcmp_eq. rewrite c_str_app_nul by assumption. rewrite (c_str_no_nul _ Hnul).
    rewrite bool_decide_eq_true_2 by reflexivity. reflexivity.
  - intros Hrest. unfold spec_matches, identity_attribute. rewrite Hkind, Hfile.
    cbn [fmap option_fmap option_map andb]. apply bool_decide_eq_false_2.
    intros [= Heq]. apply (f_equal length) in Heq. revert Heq.
    unfold trim_newline.
    destruct (last (DRIVER_NAME ++ newline :: rest)) as [c|];
      [destruct (bool_decide (c = newline))|];
      rewrite ?length_take, length_app; cbn [length];
      destruct rest; [contradiction| |contradiction| |contradiction|]; cbn [length]; lia.
Qed.

(** X11.  An entry that is neither a directory nor a link is not looked
    at: wherever it stands in the stream, the scan ends as without it, with
    the same calls made. *)
Theorem other_entries_ignored (entry : dirent) (pre post : list dirent) :
  is_dir_or_link (d_type entry) = false ->
  forall (found : bool) (context : nvram_uio_context) (w : world),
    find_uio_device_loop (pre ++ entry :: post) found context w
    = find_uio_device_loop (pre ++ post) found context w.
Proof.
  intros Hkind. induction pre as [|e pre IH]; intros found context w.
  - cbn [app]. destruct found.
    + rewrite !find_uio_device_loop_found. reflexivity.
    + rewrite find_uio_device_loop_cons. unfold find_uio_device_entry. rewrite Hkind.
      reflexivity.
  - cbn [app]. destruct found.
    + rewrite !find_uio_device_loop_found. reflexivity.
    + rewrite !find_uio_device_loop_cons.
      destruct (find_uio_device_entry e context w) as [[r| |] w1];
        [apply IH|reflexivity..].
Qed.

(** ** What main writes *)

(** The loop makes fopen calls only. *)
Lemma find_uio_device_loop_fopen (stream : list dirent) :
  forall (found : bool) (context : nvram_uio_context),
  exists o examined,
    (forall status, o <> Exit status) /\
    forall w, find_uio_device_loop stream found context w
              = (o, log_calls (fopen_calls examined) w).
Proof.
  induction stream as [|entry rest IH]; intros found context.
  - exists (Ret (found, context)), []. split; [discriminate|].
    intros w. rewrite log_calls_nil. reflexivity.
  - destruct found.
    + exists (Ret (true, context)), []. split; [discriminate|].
      intros w. rewrite log_calls_nil. reflexivity.
    + destruct (find_uio_device_entry_world entry context) as (o & Hexit & Hrun).
      destruct o as [r|failed|].
      * destruct (IH r.1 r.2) as (o' & examined & Hexit' & Hrun').
        exists o', ([entry] ++ examined). split; [assumption|]. intros w.
        rewrite find_uio_device_loop_cons, Hrun, Hrun', log_calls_app, fopen_calls_app.
        reflexivity.
      * exfalso. exact (Hexit failed eq_refl).
      * exists Undefined, [entry]. split; [discriminate|]. intros w.
        rewrite find_uio_device_loop_cons, Hrun. reflexivity.
Qed.

(** find_uio_device writes no register and leaves the window alone. *)
Lemma find_uio_device_world (w : world) :
  exists o w',
    find_uio_device w = (o, w') /\
    reg_writes (w_calls w') = reg_writes (w_calls w) /\
    w_mem w' = w_mem w.
Proof.
  unfold find_uio_device. destruct (os_uio_dir os) as [stream|].
  - destruct (find_uio_device_loop_fopen stream false zeroed_context)
      as (o & examined & Hexit & Hrun).
    rewrite (bind_run _ _ _ _ _ (Hrun w)).
    assert (Hcalls : reg_writes (w_calls (log_calls (fopen_calls examined) w))
                     = reg_writes (w_calls w)).
    { cbn [w_calls log_calls]. rewrite reg_writes_app, reg_writes_fopen_calls.
      apply app_nil_r. }
    destruct o as [[found context]|failed|].
    + destruct found; cbn [fst snd negb].
      * eexists _, _. split; [reflexivity|]. split; [exact Hcalls|reflexivity].
      * eexists _, _. split; [reflexivity|]. split; [exact Hcalls|reflexivity].
    + exfalso. exact (Hexit failed eq_refl).
    + eexists _, _. split; [reflexivity|]. split; [exact Hcalls|reflexivity].
  - eexists _, _. split; [reflexivity|]. split; reflexivity.
Qed.

(** Every byte of a mapping lies in one of its pages. *)
Lemma pages_of_cover (base len d : Z) :
  0 < os_pagesize os -> 0 <= d < len -> in_mapping base len (base + d).
Proof.
  intros Hps Hd. unfold in_mapping, pages_of.
  pose proof (Z.div_mod d (os_pagesize os) ltac:(lia)) as Hdm.
  pose proof (Z.mod_pos_bound d (os_pagesize os) Hps) as Hmod.
  assert (Hq : 0 <= d / os_pagesize os) by (apply Z.div_pos; lia).
  assert (Hlt : d / os_pagesize os < (len + os_pagesize os - 1) / os_pagesize os).
  { replace (len + os_pagesize os - 1) with (len - 1 + 1 * os_pagesize os) by lia.
    rewrite Z.div_add by lia.
    pose proof (Z.div_le_mono d (len - 1) (os_pagesize os) Hps ltac:(lia)). lia. }
  set (q := d / os_pagesize os) in *. clearbody q.
  exists (base + Z.of_nat (Z.to_nat q) * os_pagesize os). split.
  - apply list_elem_of_fmap. exists (Z.to_nat q). split; [reflexivity|].
    apply elem_of_seq. lia.
  - rewrite Z2Nat.id by lia. nia.
Qed.

(** The byte that set_led stores for a state of two bits is the old byte
    with the field of the LED set to that state. *)
Lemma led_set_to_byte (old shift state : Z) :
  0 <= old < 256 -> 0 <= shift <= 6 -> 0 <= state <= 3 -> state <> LED_FLIP ->
  led_set_to old shift state (set_led_byte old shift state).
Proof.
  intros Hold Hshift Hstate Hflip.
  destruct (set_led_byte_field old shift state Hshift Hstate Hflip) as [Hfield Hrest].
  split; [apply set_led_byte_range|]. split; [exact Hfield|].
  intros i Hi Hne1 Hne2. rewrite Hrest by assumption. rewrite uint8_small by assumption.
  reflexivity.
Qed.

(** main when find_uio_device has returned the first matching entry. *)
Lemma main_found (mem : Z -> Z) (pre : list dirent) (entry : dirent) (post : list dirent) :
  driver_name_ok ->
  0 < os_pagesize os ->
  os_uio_dir os = Some (pre ++ entry :: post) ->
  forallb name_file_is_line (pre ++ [entry]) = true ->
  Forall (fun e => spec_matches e = false) pre ->
  spec_matches entry = true ->
  let name := d_name entry in
  let pathname := uio_mapping_pathname name CSR_MAPPING_INDEX in
  let param p := os_sysfs os !! pathname p ≫= fscanf_0x_x in
  let device_pathname := snprintf PATH_MAX ("/dev/" +:+ name) in
  let fd := os_open os device_pathname in
  behaviour (main (initial_world mem))
  = match param "offset" with
    | None =>
        (Exit EXIT_FAILURE,
         [Printf "Failed to read value from %s\n" [Arg_s (pathname "offset")]], [])
    | Some offset =>
        if fits_uint32 offset then
          match param "size" with
          | None =>
              (Exit EXIT_FAILURE,
               [Printf "Failed to read value from %s\n" [Arg_s (pathname "size")]], [])
          | Some size =>
              if fits_uint32 size then
                if fd =? -1 then
                  (Exit EXIT_FAILURE,
                   [Printf "Failed to open %s\n" [Arg_s device_pathname]; Perror], [])
                else
                  match os_mmap os size fd (Z.of_nat CSR_MAPPING_INDEX * os_pagesize os) with
                  | None =>
                      (Exit EXIT_FAILURE,
                       [Printf "Failed to map csr registers for %s\n" [Arg_s name]; Perror],
                       [])
                  | Some page =>
                      let csr := Z.of_N page * os_pagesize os + offset in
                      if (csr mod os_pagesize os =? 0) && (0 <? size) then
                        (Ret EXIT_SUCCESS, register_lines mem csr, led_transitions mem csr)
                      else
                        (Exit EXIT_FAILURE,
                         register_lines mem csr
                           ++ [Printf "Failed to munmap %s\n" [Arg_s name]],
                         led_transitions mem csr)
                  end
              else (Undefined, [], [])
          end
        else (Undefined, [], [])
    end.
Proof.
  intros Hdrv Hps Hdir Hlines Hnone Hyes.
  pose proof (main_after_find (initial_world mem) _ _ Hps
                (find_uio_device_match pre entry post (initial_world mem)
                   Hdrv Hdir Hlines Hnone Hyes)) as Hrun.
  cbn [device_name set_device_name w_stdout w_calls w_mem log_calls initial_world app]
    in Hrun.
  rewrite reg_writes_fopen_calls in Hrun. exact Hrun.
Qed.

(** C7.  When the registry cannot be opened, when no entry matches, when
    the offset or the size of the mapping cannot be read, when the device
    cannot be opened or when it cannot be mapped, main prints the diagnostic of
    that failure (and perror's line after open and mmap), touches no register
    and exits at once with EXIT_FAILURE, which is not 0.  On the success path,
    where the registers lie in the window that was mapped and the offset is a
    whole number of pages, main prints the five register values, makes exactly
    four transitions of the LED at LED_FAULT, to LED_ON, LED_FLASH_7_0,
    LED_FLASH_3_5 and LED_OFF in that order, which with the codes of umem.h
    (LED_FLASH_3_5 = 2, LED_FLASH_7_0 = 3) is ON, FLASH_FAST, FLASH_SLOW, OFF,
    and returns EXIT_SUCCESS, which is 0. *)
Theorem main_exit_behaviour (mem : Z -> Z) :
  driver_name_ok ->
  0 < os_pagesize os ->
  let w0 := initial_world mem in
  (os_uio_dir os = None ->
   behaviour (main w0)
   = (Exit EXIT_FAILURE, [Printf "Failed to open %s\n" [Arg_s UIO_CLASS_ROOT]], [])) /\
  (forall stream,
     os_uio_dir os = Some stream ->
     forallb name_file_is_line stream = true ->
     Forall (fun e => spec_matches e = false) stream ->
     behaviour (main w0)
     = (Exit EXIT_FAILURE,
        [Printf "Failed to find entry for %s under %s\n"
           [Arg_s (string_of_list_ascii DRIVER_NAME); Arg_s UIO_CLASS_ROOT]], [])) /\
  (forall pre entry post,
     os_uio_dir os = Some (pre ++ entry :: post) ->
     forallb name_file_is_line (pre ++ [entry]) = true ->
     Forall (fun e => spec_matches e = false) pre ->
     spec_matches entry = true ->
     let name := d_name entry in
     let pathname := uio_mapping_pathname name CSR_MAPPING_INDEX in
     let param p := os_sysfs os !! pathname p ≫= fscanf_0x_x in
     let device_pathname := snprintf PATH_MAX ("/dev/" +:+ name) in
     let fd := os_open os device_pathname in
     let off := Z.of_nat CSR_MAPPING_INDEX * os_pagesize os in
     (param "offset" = None ->
      behaviour (main w0)
      = (Exit EXIT_FAILURE,
         [Printf "Failed to read value from %s\n" [Arg_s (pathname "offset")]], [])) /\
     (forall offset,
        param "offset" = Some offset -> 0 <= offset < 2 ^ 32 ->
        param "size" = None ->
        behaviour (main w0)
        = (Exit EXIT_FAILURE,
           [Printf "Failed to read value from %s\n" [Arg_s (pathname "size")]], [])) /\
     (forall offset size,
        param "offset" = Some offset -> 0 <= offset < 2 ^ 32 ->
        param "size" = Some size -> 0 <= size < 2 ^ 32 ->
        (fd = -1 ->
         behaviour (main w0)
         = (Exit EXIT_FAILURE,
            [Printf "Failed to open %s\n" [Arg_s device_pathname]; Perror], [])) /\
        (fd <> -1 -> os_mmap os size fd off = None ->
         behaviour (main w0)
         = (Exit EXIT_FAILURE,
            [Printf "Failed to map csr registers for %s\n" [Arg_s name]; Perror], [])) /\
        (forall page,
           fd <> -1 -> os_mmap os size fd off = Some page ->
           let base := Z.of_N page * os_pagesize os in
           let csr := base + offset in
           let led := csr + MEMCTRLCMD_LEDCTRL in
           offset mod os_pagesize os = 0 ->
           (forall r, r ∈ registers -> 0 <= offset + r < size) ->
           LED_FAULT ∈ [0; 2; 4; 6] ->
           LED_OFF = OFF -> LED_ON = ON ->
           LED_FLASH_3_5 = FLASH_SLOW -> LED_FLASH_7_0 = FLASH_FAST ->
           LED_FLIP ∉ [OFF; ON; FLASH_SLOW; FLASH_FAST] ->
           exists v1 v2 v3 v4,
             behaviour (main w0)
             = (Ret EXIT_SUCCESS, register_lines mem csr,
                [(led, v1); (led, v2); (led, v3); (led, v4)]) /\
             led_set_to (uint8 (mem led)) LED_FAULT ON v1 /\
             led_set_to v1 LED_FAULT FLASH_FAST v2 /\
             led_set_to v2 LED_FAULT FLASH_SLOW v3 /\
             led_set_to v3 LED_FAULT OFF v4 /\
             forall r, r ∈ registers -> in_mapping base size (csr + r)))) /\
  EXIT_SUCCESS = 0 /\ EXIT_FAILURE <> 0.
Proof.
  intros Hdrv Hps w0. split; [|split; [|split; [|split; [reflexivity|discriminate]]]].
  - intros Hdir. unfold behaviour, main.
    rewrite (bind_run _ _ _ _ _ (find_uio_device_no_dir w0 Hdir)). reflexivity.
  - intros stream Hdir Hlines Hnone. unfold behaviour, main.
    rewrite (bind_run _ _ _ _ _ (find_uio_device_no_match stream w0 Hdrv Hdir Hlines Hnone)).
    cbn [fst snd w_stdout w_calls log_calls initial_world w0 printf emit app].
    rewrite reg_writes_fopen_calls. reflexivity.
  - intros pre entry post Hdir Hlines Hnone Hyes.
    pose proof (main_found mem pre entry post Hdrv Hps Hdir Hlines Hnone Hyes) as Hrun.
    cbv beta zeta in *. fold w0 in Hrun.
    split; [intros Hoffset; rewrite Hrun, Hoffset; reflexivity|].
    split.
    { intros offset Hoffset Hfit Hsize. apply fits_uint32_true in Hfit.
      rewrite Hrun, Hoffset, Hfit, Hsize. reflexivity. }
    intros offset size Hoffset Hfit_offset Hsize Hfit_size.
    apply fits_uint32_true in Hfit_offset, Hfit_size.
    rewrite Hoffset, Hfit_offset, Hsize, Hfit_size in Hrun.
    split; [intros Hfd; rewrite Hrun, Hfd; reflexivity|].
    split.
    { intros Hfd Hmmap. apply Z.eqb_neq in Hfd. rewrite Hrun, Hfd, Hmmap. reflexivity. }
    intros page Hfd Hmmap Haligned Hwindow Hfault Hoff Hon Hslow Hfast Hflip.
    apply Z.eqb_neq in Hfd. rewrite Hfd, Hmmap in Hrun.
    assert (Hsize_pos : 0 < size).
    { assert (Hmagic : MEMCTRLSTATUS_MAGIC ∈ registers)
        by (apply elem_of_cons; left; reflexivity).
      specialize (Hwindow _ Hmagic). lia. }
    assert (Hunmap : ((Z.of_N page * os_pagesize os + offset) mod os_pagesize os =? 0)
                     && (0 <? size) = true).
    { rewrite Z.add_comm, Z.mod_add by lia. rewrite Haligned.
      apply andb_true_iff. split; [reflexivity|]. apply Z.ltb_lt, Hsize_pos. }
    rewrite Hunmap in Hrun. clear Hunmap.
    assert (Hshift : 0 <= LED_FAULT <= 6).
    { repeat (apply elem_of_cons in Hfault as [->|Hfault]; [lia|]).
      apply elem_of_nil in Hfault. contradiction. }
    assert (Hstates : Forall (fun state => 0 <= state <= 3 /\ state <> LED_FLIP)
                        [ON; FLASH_FAST; FLASH_SLOW; OFF]).
    { repeat constructor; try (unfold ON, OFF, FLASH_SLOW, FLASH_FAST; lia);
        intros Heq; apply Hflip; rewrite <- Heq.
      - apply (list_elem_of_lookup_2 _ 1%nat). reflexivity.
      - apply (list_elem_of_lookup_2 _ 3%nat). reflexivity.
      - apply (list_elem_of_lookup_2 _ 2%nat). reflexivity.
      - apply (list_elem_of_lookup_2 _ 0%nat). reflexivity. }
    rewrite !Forall_cons in Hstates.
    destruct Hstates as ([Hr1 Hf1] & [Hr2 Hf2] & [Hr3 Hf3] & [Hr4 Hf4] & _).
    unfold led_transitions in Hrun. cbv zeta in Hrun.
    rewrite Hon, Hfast, Hslow, Hoff in Hrun.
    set (reg := Z.of_N page * os_pagesize os + offset + MEMCTRLCMD_LEDCTRL) in *.
    set (v1 := set_led_byte (uint8 (mem reg)) LED_FAULT ON) in *.
    assert (Hv1 : uint8 v1 = v1) by (apply uint8_small, set_led_byte_range).
    rewrite Hv1 in Hrun.
    set (v2 := set_led_byte v1 LED_FAULT FLASH_FAST) in *.
    assert (Hv2 : uint8 v2 = v2) by (apply uint8_small, set_led_byte_range).
    rewrite Hv2 in Hrun.
    set (v3 := set_led_byte v2 LED_FAULT FLASH_SLOW) in *.
    assert (Hv3 : uint8 v3 = v3) by (apply uint8_small, set_led_byte_range).
    rewrite Hv3 in Hrun.
    exists v1, v2, v3, (set_led_byte v3 LED_FAULT OFF).
    split; [exact Hrun|].
    split; [apply led_set_to_byte; [apply uint8_range|assumption..]|].
    split; [apply led_set_to_byte; [apply set_led_byte_range|assumption..]|].
    split; [apply led_set_to_byte; [apply set_led_byte_range|assumption..]|].
    split; [apply led_set_to_byte; [apply set_led_byte_range|assumption..]|].
    intros r Hr. rewrite <- Z.add_assoc. apply pages_of_cover; [exact Hps|].
    apply Hwindow, Hr.
Qed.

(** X12.  Whatever the registry, the files and the answers of open and
    mmap are, main either writes no register at all, or it has found a device,
    read the offset and the size of its mapping and mapped it, and then, the
    registers lying in that window, its writes are exactly four, all to the
    LED register of the window: the address mmap returned plus the offset read
    plus MEMCTRLCMD_LEDCTRL, which is in a page of the mapping. *)
Theorem main_writes_only_led (mem : Z -> Z) :
  0 < os_pagesize os ->
  let w0 := initial_world mem in
  reg_writes (w_calls (main w0).2) = []
  \/ exists context w1 offset size page,
       find_uio_device w0 = (Ret context, w1) /\
       os_sysfs os !! uio_mapping_pathname (device_name context) CSR_MAPPING_INDEX "offset"
         ≫= fscanf_0x_x = Some offset /\
       os_sysfs os !! uio_mapping_pathname (device_name context) CSR_MAPPING_INDEX "size"
         ≫= fscanf_0x_x = Some size /\
       os_mmap os size (os_open os (snprintf PATH_MAX ("/dev/" +:+ device_name context)))
         (Z.of_nat CSR_MAPPING_INDEX * os_pagesize os) = Some page /\
       let base := Z.of_N page * os_pagesize os in
       let led := base + offset + MEMCTRLCMD_LEDCTRL in
       ((forall r, r ∈ registers -> 0 <= offset + r < size) ->
        in_mapping base size led /\
        exists v1 v2 v3 v4,
          reg_writes (w_calls (main w0).2) = [(led, v1); (led, v2); (led, v3); (led, v4)]).
Proof.
  intros Hps w0.
  destruct (find_uio_device_world w0) as (o & w1 & Hfind & Hcalls & Hmem).
  change (reg_writes (w_calls w0)) with (@nil (Z * Z)) in Hcalls.
  destruct o as [context1|failed|];
    [|left; unfold main; rewrite (bind_run _ _ _ _ _ Hfind); exact Hcalls..].
  pose proof (f_equal snd (main_after_find w0 w1 context1 Hps Hfind)) as Hrun.
  cbv beta zeta in Hrun.
  change (behaviour (main w0)).2 with (reg_writes (w_calls (main w0).2)) in Hrun.
  rewrite Hcalls in Hrun.
  destruct (os_sysfs os !! _ ≫= fscanf_0x_x) as [offset|] eqn:Hoffset;
    [|left; exact Hrun].
  destruct (fits_uint32 offset); [|left; exact Hrun].
  destruct (os_sysfs os !! uio_mapping_pathname _ _ "size" ≫= fscanf_0x_x)
    as [size|] eqn:Hsize; [|left; exact Hrun].
  destruct (fits_uint32 size); [|left; exact Hrun].
  destruct (os_open os _ =? -1); [left; exact Hrun|].
  destruct (os_mmap os size _ _) as [page|] eqn:Hmmap; [|left; exact Hrun].
  right. exists context1, w1, offset, size, page.
  split; [exact Hfind|]. split; [exact Hoffset|]. split; [exact Hsize|].
  split; [exact Hmmap|]. cbv zeta. intros Hwindow. split.
  - rewrite <- Z.add_assoc. apply pages_of_cover; [exact Hps|].
    apply Hwindow. apply (list_elem_of_lookup_2 _ 3%nat). reflexivity.
  - unfold led_transitions in Hrun. cbv zeta in Hrun.
    destruct (_ && _); cbn [snd app] in Hrun; eexists _, _, _, _; exact Hrun.
Qed.

(** ** The probe, path by path *)

Lemma mem_at_insert_ne (mem : list uio_mem) (i j : nat) (m : uio_mem) :
  i <> j -> mem_at (<[i := m]> mem) j = mem_at mem j.
Proof. intros Hne. unfold mem_at. rewrite list_lookup_insert_ne by assumption. reflexivity. Qed.

Lemma mem_at_replicate (n j : nat) : mem_at (replicate n zeroed_uio_mem) j = zeroed_uio_mem.
Proof.
  unfold mem_at. destruct (replicate n zeroed_uio_mem !! j) as [m|] eqn:Hm; [|reflexivity].
  apply lookup_replicate in Hm as [-> _]. reflexivity.
Qed.

(** The address at which the probe reads the magic byte: it goes through
    info->mem[0], which is the csr mapping only when CSR_MAPPING_INDEX is 0. *)
Lemma magic_read_address (csr_base csr_len internal_addr : Z) :
  (CSR_MAPPING_INDEX < MAX_UIO_MAPS)%nat ->
  mem_internal_addr
    (mem_at
       (<[CSR_MAPPING_INDEX :=
            {| mem_name := "csr"; mem_addr := csr_base; mem_size := csr_len;
               mem_memtype := UIO_MEM_PHYS; mem_internal_addr := internal_addr |}]>
          (<[CSR_MAPPING_INDEX :=
               {| mem_name := ""; mem_addr := csr_base; mem_size := 0; mem_memtype := 0;
                  mem_internal_addr := internal_addr |}]>
             (replicate MAX_UIO_MAPS zeroed_uio_mem))) 0)
  = if decide (CSR_MAPPING_INDEX = 0%nat) then internal_addr else 0.
Proof.
  intros Hidx. destruct (decide (CSR_MAPPING_INDEX = 0%nat)) as [Heq|Hne].
  - rewrite Heq. reflexivity.
  - rewrite !mem_at_insert_ne by assumption. rewrite mem_at_replicate. reflexivity.
Qed.

(** The probe from the page alignment on, with the stores into info->mem
    done. *)
Lemma nvram_uio_pci_probe_csr_run (k : kernel) (dev : pci_dev) (t : list kcall)
    (csr_base raw_len : Z) :
  (CSR_MAPPING_INDEX < MAX_UIO_MAPS)%nat ->
  let csr_len := page_align_len raw_len in
  let internal_addr := k_ioremap_nocache k csr_base csr_len in
  let mem :=
    <[CSR_MAPPING_INDEX :=
        {| mem_name := "csr"; mem_addr := csr_base; mem_size := csr_len;
           mem_memtype := UIO_MEM_PHYS; mem_internal_addr := internal_addr |}]>
      (<[CSR_MAPPING_INDEX :=
           {| mem_name := ""; mem_addr := csr_base; mem_size := 0; mem_memtype := 0;
              mem_internal_addr := internal_addr |}]>
         (replicate MAX_UIO_MAPS zeroed_uio_mem)) in
  let magic_addr :=
    (if decide (CSR_MAPPING_INDEX = 0%nat) then internal_addr else 0) + MEMCTRLSTATUS_MAGIC in
  let magic_number := uint8 (k_readb k magic_addr) in
  let info := {| info_name := DRIVER_NAME; info_version := "0.0.1"; info_mem := mem;
                 info_irq := irq dev; info_irq_flags := IRQF_SHARED |} in
  let t1 := t ++ [K_ioremap_nocache csr_base csr_len] in
  let t2 := (t1 ++ [K_dev_printk "KERN_INFO" "CSR 0x%08llx -> 0x%p (0x%llx)\n"
                      [Arg_x csr_base; Arg_x internal_addr; Arg_x csr_len]])
              ++ [K_readb magic_addr] in
  nvram_uio_pci_probe_csr k dev t csr_base raw_len
  = if internal_addr =? 0 then
      Some (- ENODEV,
            t1 ++ [K_dev_printk "KERN_ERR" "Unable to remap memory region\n" []] ++ out_release)
    else
      match magic_number_ok (device dev) magic_number with
      | None => None
      | Some false => Some (- ENODEV, t2 ++ [magic_rejection magic_number (device dev)] ++ out_release)
      | Some true =>
          if negb (k_uio_register_device k =? 0) then
            Some (- ENODEV,
                  (t2 ++ [K_uio_register_device info])
                    ++ out_unmap (if decide (CSR_MAPPING_INDEX = 0%nat) then internal_addr else 0))
          else Some (0, (t2 ++ [K_uio_register_device info]) ++ [K_pci_set_drvdata])
      end.
Proof.
  intros Hidx csr_len internal_addr mem magic_addr magic_number info t1 t2.
  unfold nvram_uio_pci_probe_csr. fold csr_len. fold internal_addr.
  rewrite array_store_replicate by assumption. cbn [mbind option_bind].
  destruct (internal_addr =? 0); [reflexivity|].
  rewrite array_store_Some by (rewrite length_insert, length_replicate; assumption).
  cbn [mbind option_bind].
  rewrite (mem_at_insert _ CSR_MAPPING_INDEX)
    by (rewrite length_insert, length_replicate; assumption).
  cbn [mem_addr mem_internal_addr mem_size].
  rewrite !magic_read_address by assumption.
  fold magic_addr. fold magic_number.
  destruct (magic_number_ok (device dev) magic_number) as [[|]|];
    cbn [mbind option_bind negb]; reflexivity.
Qed.

(** The calls of the probe before it looks at the csr region. *)
Lemma nvram_uio_pci_probe_run (k : kernel) (dev : pci_dev) :
  let t1 := [K_kzalloc; K_pci_enable_device] in
  let t2 := t1 ++ [K_pci_write_config_byte PCI_LATENCY_TIMER 0xF8; K_pci_set_master;
                   K_dev_printk "KERN_INFO"
                     "Curtiss Wright controller found (PCI Mem Module (Battery Backup))\n" [];
                   K_pci_set_dma_mask] in
  let t3 := t2 ++ [K_pci_request_regions] in
  nvram_uio_pci_probe k dev
  = if negb (k_kzalloc k) then Some (- ENOMEM, [K_kzalloc])
    else if negb (k_pci_enable_device k =? 0) then Some (- ENODEV, t1 ++ out_free)
    else if negb (k_pci_set_dma_mask k =? 0) then
      Some (- ENOMEM, t2 ++ [K_dev_printk "KERN_WARNING" "NO suitable DMA found\n" []])
    else if negb (k_pci_request_regions k =? 0) then
      Some (- ENODEV,
            t3 ++ [K_dev_printk "KERN_ERR" "Unable to request memory region\n" []] ++ out_disable)
    else if (ulong (pci_resource_start0 dev) =? 0) || (ulong (pci_resource_len0 dev) =? 0)
    then Some (- ENODEV, t3 ++ out_release)
    else nvram_uio_pci_probe_csr k dev t3 (ulong (pci_resource_start0 dev))
           (ulong (pci_resource_len0 dev)).
Proof. reflexivity. Qed.

(** Close a branch of the probe that cannot be the one looked for. *)
Ltac probe_branch_off :=
  split;
  [ let t := fresh "t" in
    let Ht := fresh "Ht" in
    intros [t Ht];
    first [discriminate Ht | injection Ht; unfold ENOMEM, ENODEV; intros; lia]
  | intros (? & ? & ? & ? & ? & ? & ? & ? & ?); first [congruence | lia | contradiction] ].

(** X13.  The probe attaches the device, returning 0, exactly when kzalloc,
    pci_enable_device, pci_set_dma_mask and pci_request_regions succeed, the
    first region has a nonzero start and length, ioremap_nocache succeeds, the
    magic byte is one of the candidates of the variant, and uio_register_device
    succeeds; in every case it returns 0, -ENOMEM or -ENODEV. *)
Theorem probe_attaches_iff (k : kernel) (dev : pci_dev) :
  (CSR_MAPPING_INDEX < MAX_UIO_MAPS)%nat ->
  (2 <= MAGIC_NUMBERS_PER_DEV)%nat ->
  let csr_base := ulong (pci_resource_start0 dev) in
  let csr_len := page_align_len (ulong (pci_resource_len0 dev)) in
  let internal_addr := k_ioremap_nocache k csr_base csr_len in
  let magic_addr :=
    (if decide (CSR_MAPPING_INDEX = 0%nat) then internal_addr else 0) + MEMCTRLSTATUS_MAGIC in
  ((exists t, nvram_uio_pci_probe k dev = Some (0, t)) <->
   k_kzalloc k = true /\
   k_pci_enable_device k = 0 /\
   k_pci_set_dma_mask k = 0 /\
   k_pci_request_regions k = 0 /\
   csr_base <> 0 /\
   ulong (pci_resource_len0 dev) <> 0 /\
   internal_addr <> 0 /\
   uint8 (k_readb k magic_addr) ∈ spec_magic_candidates (device dev) /\
   k_uio_register_device k = 0) /\
  exists rc t, nvram_uio_pci_probe k dev = Some (rc, t) /\ rc ∈ [0; - ENOMEM; - ENODEV].
Proof.
  intros Hidx HN csr_base csr_len internal_addr magic_addr.
  assert (Hin0 : forall t : list kcall, exists rc t', Some (0, t) = Some (rc, t')
                                       /\ rc ∈ [0; - ENOMEM; - ENODEV]).
  { intros t. exists 0, t. split; [reflexivity|]. apply elem_of_cons. left. reflexivity. }
  assert (Hin1 : forall t : list kcall, exists rc t', Some (- ENOMEM, t) = Some (rc, t')
                                       /\ rc ∈ [0; - ENOMEM; - ENODEV]).
  { intros t. exists (- ENOMEM), t. split; [reflexivity|].
    apply (list_elem_of_lookup_2 _ 1%nat). reflexivity. }
  assert (Hin2 : forall t : list kcall, exists rc t', Some (- ENODEV, t) = Some (rc, t')
                                       /\ rc ∈ [0; - ENOMEM; - ENODEV]).
  { intros t. exists (- ENODEV), t. split; [reflexivity|].
    apply (list_elem_of_lookup_2 _ 2%nat). reflexivity. }
  rewrite nvram_uio_pci_probe_run. cbv zeta.
  destruct (k_kzalloc k) eqn:Hkz; cbn [negb]; [|split; [probe_branch_off|apply Hin1]].
  destruct (Z.eqb_spec (k_pci_enable_device k) 0) as [Hen|Hen]; cbn [negb];
    [|split; [probe_branch_off|apply Hin2]].
  destruct (Z.eqb_spec (k_pci_set_dma_mask k) 0) as [Hdma|Hdma]; cbn [negb];
    [|split; [probe_branch_off|apply Hin1]].
  destruct (Z.eqb_spec (k_pci_request_regions k) 0) as [Hreq|Hreq]; cbn [negb];
    [|split; [probe_branch_off|apply Hin2]].
  fold csr_base.
  destruct (Z.eqb_spec csr_base 0) as [Hbase|Hbase]; cbn [orb];
    [split; [probe_branch_off|apply Hin2]|].
  destruct (Z.eqb_spec (ulong (pci_resource_len0 dev)) 0) as [Hlen|Hlen];
    [split; [probe_branch_off|apply Hin2]|].
  rewrite nvram_uio_pci_probe_csr_run by assumption. cbv zeta.
  fold csr_len. fold internal_addr. fold magic_addr.
  destruct (Z.eqb_spec internal_addr 0) as [Hmap|Hmap];
    [split; [probe_branch_off|apply Hin2]|].
  rewrite magic_number_ok_candidates by (assumption || apply uint8_range).
  destruct (bool_decide (uint8 (k_readb k magic_addr) ∈ spec_magic_candidates (device dev)))
    eqn:Hmagic.
  - apply bool_decide_eq_true in Hmagic.
    destruct (Z.eqb_spec (k_uio_register_device k) 0) as [Hreg|Hreg]; cbn [negb].
    + split; [|apply Hin0].
      split; [intros _; repeat split; assumption|intros _; eexists; reflexivity].
    + split; [probe_branch_off|apply Hin2].
  - apply bool_decide_eq_false in Hmagic. split; [probe_branch_off|apply Hin2].
Qed.

(** Every path of the probe, as a goal of its own. *)
Ltac probe_paths k :=
  rewrite nvram_uio_pci_probe_run; cbv zeta;
  destruct (k_kzalloc k) eqn:Hkz; cbn [negb];
  [destruct (Z.eqb_spec (k_pci_enable_device k) 0) as [Hen|Hen]; cbn [negb];
   [destruct (Z.eqb_spec (k_pci_set_dma_mask k) 0) as [Hdma|Hdma]; cbn [negb];
    [destruct (Z.eqb_spec (k_pci_request_regions k) 0) as [Hreq|Hreq]; cbn [negb];
     [destruct (_ || _) eqn:Hzero;
      [|rewrite nvram_uio_pci_probe_csr_run by assumption; cbv zeta;
        match goal with
        | |- context [k_ioremap_nocache k ?a ?b =? 0] =>
            destruct (Z.eqb_spec (k_ioremap_nocache k a b) 0) as [Hmap|Hmap]
        end;
        [|destruct (magic_number_ok _ _) as [[|]|] eqn:Hmagic;
          [destruct (Z.eqb_spec (k_uio_register_device k) 0) as [Hreg|Hreg]; cbn [negb]| |]]]
     |]|]|]|].

(** X14.  The probe reads the magic byte through info->mem[0], not through
    info->mem[CSR_MAPPING_INDEX]: at the remapped address plus
    MEMCTRLSTATUS_MAGIC when CSR_MAPPING_INDEX is 0, and at MEMCTRLSTATUS_MAGIC
    on a NULL base for any other index. *)
Theorem probe_reads_magic_through_mem0 (k : kernel) (dev : pci_dev) (rc : Z)
    (t : list kcall) (addr : Z) :
  (CSR_MAPPING_INDEX < MAX_UIO_MAPS)%nat ->
  nvram_uio_pci_probe k dev = Some (rc, t) ->
  K_readb addr ∈ t ->
  let internal_addr :=
    k_ioremap_nocache k (ulong (pci_resource_start0 dev))
      (page_align_len (ulong (pci_resource_len0 dev))) in
  (CSR_MAPPING_INDEX = 0%nat -> addr = internal_addr + MEMCTRLSTATUS_MAGIC) /\
  (CSR_MAPPING_INDEX <> 0%nat -> addr = MEMCTRLSTATUS_MAGIC).
Proof.
  intros Hidx. probe_paths k; intros Ht Hin; try discriminate Ht;
    injection Ht as <- <-; trace_cases Hin; injection Hin as ->; cbv zeta;
    (split; intros Hcase;
     [rewrite decide_True by assumption|rewrite decide_False by assumption]; reflexivity).
Qed.

(** X15.  The uio_info the probe registers is named DRIVER_NAME, has
    version 0.0.1, the interrupt of the device, shared, and one mapping, at
    CSR_MAPPING_INDEX: the physical region named csr, at the start of the
    first PCI region, remapped, of the page-aligned length; the other
    mappings are zero. *)
Theorem probe_registered_info (k : kernel) (dev : pci_dev) (rc : Z) (t : list kcall)
    (info : uio_info) :
  (CSR_MAPPING_INDEX < MAX_UIO_MAPS)%nat ->
  nvram_uio_pci_probe k dev = Some (rc, t) ->
  K_uio_register_device info ∈ t ->
  let csr_base := ulong (pci_resource_start0 dev) in
  let csr_len := page_align_len (ulong (pci_resource_len0 dev)) in
  info_name info = DRIVER_NAME /\
  info_version info = "0.0.1"%string /\
  info_irq info = irq dev /\
  info_irq_flags info = IRQF_SHARED /\
  length (info_mem info) = MAX_UIO_MAPS /\
  mem_at (info_mem info) CSR_MAPPING_INDEX
  = {| mem_name := "csr"; mem_addr := csr_base; mem_size := csr_len;
       mem_memtype := UIO_MEM_PHYS;
       mem_internal_addr := k_ioremap_nocache k csr_base csr_len |} /\
  forall j, j <> CSR_MAPPING_INDEX -> mem_at (info_mem info) j = zeroed_uio_mem.
Proof.
  intros Hidx. probe_paths k; intros Ht Hin; try discriminate Ht;
    injection Ht as <- <-; trace_cases Hin; injection Hin as ->; cbv zeta;
    cbn [info_name info_version info_irq info_irq_flags info_mem];
    (split; [reflexivity|]); (split; [reflexivity|]); (split; [reflexivity|]);
    (split; [reflexivity|]);
    (split; [rewrite !length_insert; reflexivity|]);
    (split; [apply mem_at_insert; rewrite length_insert; exact Hidx|]);
    intros j Hj; rewrite !mem_at_insert_ne by (intros Heq; apply Hj; symmetry; exact Heq);
    do 5 (destruct j as [|j]; [reflexivity|]); reflexivity.
Qed.

(** X16.  When pci_set_dma_mask fails the probe returns -ENOMEM at once:
    the uio_info it allocated is not freed and the device it enabled is not
    disabled. *)
Theorem probe_dma_mask_failure (k : kernel) (dev : pci_dev) :
  k_kzalloc k = true ->
  k_pci_enable_device k = 0 ->
  k_pci_set_dma_mask k <> 0 ->
  exists t,
    nvram_uio_pci_probe k dev = Some (- ENOMEM, t) /\
    K_kzalloc ∈ t /\ K_pci_enable_device ∈ t /\
    last t = Some (K_dev_printk "KERN_WARNING" "NO suitable DMA found\n" []) /\
    (K_kfree ∉ t) /\ (K_pci_disable_device ∉ t).
Proof.
  intros Hkz Hen Hdma. rewrite nvram_uio_pci_probe_run. cbv zeta. rewrite Hkz, Hen.
  destruct (Z.eqb_spec (k_pci_set_dma_mask k) 0) as [|_]; [contradiction|].
  cbn [negb Z.eqb]. eexists. split; [reflexivity|].
  split; [apply (list_elem_of_lookup_2 _ 0%nat); reflexivity|].
  split; [apply (list_elem_of_lookup_2 _ 1%nat); reflexivity|].
  split; [reflexivity|]. split; not_in_trace.
Qed.

(** X17.  The probe calls iounmap only after uio_register_device has
    failed.  On every other failure after the remapping, the rejection of the
    magic byte among them, the remapped window is not unmapped. *)
Theorem probe_iounmap_only_after_register (k : kernel) (dev : pci_dev) (rc : Z)
    (t : list kcall) :
  (CSR_MAPPING_INDEX < MAX_UIO_MAPS)%nat ->
  nvram_uio_pci_probe k dev = Some (rc, t) ->
  (forall addr, K_iounmap addr ∈ t ->
     rc = - ENODEV /\ k_uio_register_device k <> 0 /\
     exists info, K_uio_register_device info ∈ t) /\
  (forall m d, magic_rejection m d ∈ t ->
     (exists base len, K_ioremap_nocache base len ∈ t /\ k_ioremap_nocache k base len <> 0) /\
     forall addr, K_iounmap addr ∉ t).
Proof.
  intros Hidx. probe_paths k; intros Ht; try discriminate Ht; injection Ht as <- <-;
    (split; [intros addr Hin; trace_cases Hin|intros m d Hin; trace_cases Hin]).
  - split; [reflexivity|]. split; [assumption|]. eexists.
    apply (list_elem_of_lookup_2 _ 10%nat). reflexivity.
  - split; [|not_in_trace]. eexists _, _. split; [|exact Hmap].
    apply (list_elem_of_lookup_2 _ 7%nat). reflexivity.
Qed.

(** X18.  When the raw length of the first PCI region is so large that
    adding PAGE_SIZE - 1 to it overflows an unsigned long (the page size
    itself fitting one), the page-aligned length is 0, and the probe asks
    ioremap_nocache for 0 bytes. *)
Theorem page_align_len_overflow (k : kernel) (dev : pci_dev) :
  let raw := ulong (pci_resource_len0 dev) in
  0 < BITS_PER_LONG ->
  0 < PAGE_SIZE <= 2 ^ BITS_PER_LONG ->
  2 ^ BITS_PER_LONG <= raw + PAGE_SIZE - 1 ->
  page_align_len raw = 0 /\
  forall rc t base len,
    nvram_uio_pci_probe k dev = Some (rc, t) ->
    K_ioremap_nocache base len ∈ t -> len = 0.
Proof.
  intros raw HB HP Hwrap.
  assert (HM : 0 < 2 ^ BITS_PER_LONG) by (apply Z.pow_pos_nonneg; lia).
  assert (Hraw : 0 <= raw < 2 ^ BITS_PER_LONG) by (apply Z.mod_pos_bound, HM).
  assert (Hlen : page_align_len raw = 0).
  { unfold page_align_len, ulong.
    set (M := 2 ^ BITS_PER_LONG) in *. clearbody raw M.
    rewrite Zminus_mod_idemp_l.
    replace (raw + PAGE_SIZE - 1) with (raw + PAGE_SIZE - 1 - M + 1 * M) by lia.
    rewrite Z.mod_add by lia.
    rewrite (Z.mod_small (raw + PAGE_SIZE - 1 - M) M) by lia.
    rewrite (Z.div_small (raw + PAGE_SIZE - 1 - M) PAGE_SIZE) by lia.
    rewrite (Z.mod_small 0 M) by lia. rewrite Z.mul_0_l. apply Z.mod_small. lia. }
  split; [exact Hlen|].
  intros rc t base len. unfold nvram_uio_pci_probe.
  destruct (k_kzalloc k); cbn [negb]; [|intros [= <- <-]; not_in_trace].
  destruct (k_pci_enable_device k =? 0); cbn [negb]; [|intros [= <- <-]; not_in_trace].
  destruct (k_pci_set_dma_mask k =? 0); cbn [negb]; [|intros [= <- <-]; not_in_trace].
  destruct (k_pci_request_regions k =? 0); cbn [negb]; [|intros [= <- <-]; not_in_trace].
  destruct ((ulong (pci_resource_start0 dev) =? 0) || (ulong (pci_resource_len0 dev) =? 0));
    [intros [= <- <-]; not_in_trace|].
  unfold nvram_uio_pci_probe_csr. fold raw. rewrite Hlen.
  destruct (array_store _ _ _) as [mem0|] eqn:Hst0; [|discriminate].
  apply array_store_inv in Hst0 as [Hidx ->]. cbn [mbind option_bind].
  destruct (k_ioremap_nocache k _ _ =? 0);
    [intros [= <- <-] Hin; trace_cases Hin; injection Hin as _ ->; reflexivity|].
  rewrite array_store_Some by (rewrite length_insert; assumption).
  cbn [mbind option_bind].
  destruct (magic_number_ok _ _) as [[|]|]; cbn [mbind option_bind negb];
    [|intros [= <- <-] Hin; trace_cases Hin; injection Hin as _ ->; reflexivity|discriminate].
  destruct (k_uio_register_device k =? 0); cbn [negb]; intros [= <- <-] Hin;
    trace_cases Hin; injection Hin as _ ->; reflexivity.
Qed.

Lemma array_store_None {A : Type} (i : nat) (v : A) (a : list A) :
  (length a <= i)%nat -> array_store i v a = None.
Proof. intros Hi. unfold array_store. rewrite decide_False by lia. reflexivity. Qed.

(** X19.  The loop over magic_numbers stays inside the array and reads
    only assigned elements exactly when MAGIC_NUMBERS_PER_DEV is at least the
    number of candidates of the variant: with a smaller constant the switch
    stores past the end of the array. *)
Theorem magic_number_ok_defined (device b : Z) :
  0 <= b < 0x100 ->
  is_Some (magic_number_ok device b) <->
  (length (spec_magic_candidates device) <= MAGIC_NUMBERS_PER_DEV)%nat.
Proof.
  intros Hb.
  destruct (Nat.le_gt_cases 2 MAGIC_NUMBERS_PER_DEV) as [HN|HN].
  { rewrite magic_number_ok_candidates by (assumption || lia).
    split; [intros _|intros _; eexists; reflexivity].
    unfold spec_magic_candidates. repeat case_match; cbn [length]; lia. }
  unfold magic_number_ok, select_magic_numbers, spec_magic_candidates.
  destruct MAGIC_NUMBERS_PER_DEV as [|[|count]]; [| |lia];
    cbn [replicate Nat.add];
    destruct (device =? 21525); [| destruct (device =? 21541); [| destruct (device =? 24917)] | |
                                   destruct (device =? 21541); [| destruct (device =? 24917)]];
    repeat (first [rewrite array_store_Some by (cbn [length insert list_insert]; lia)
                  |rewrite array_store_None by (cbn [length insert list_insert]; lia)];
            cbn [mbind option_bind insert list_insert]);
    cbn [magic_number_loop lookup list_lookup length];
    repeat case_match;
    (split; [intros [? Hs]; try discriminate Hs; lia
            |intros Hl; try lia; eexists; reflexivity]).
Qed.

(** Split a trace given by its elements into what precedes the clean-up
    calls [tl] and [tl]. *)
Ltac cleanup_tail tl :=
  match goal with
  | |- exists pre tail, ?t = _ /\ _ =>
      let n := eval vm_compute in (length t - length tl)%nat in
      let p := eval cbn [take app out_unmap out_release out_disable out_free] in (take n t) in
      exists p, tl; split; [reflexivity|]
  end.

Ltac cleanup_path tl :=
  cleanup_tail tl;
  (split; [repeat split; try intros ?; not_in_trace|]);
  (split; [intros; first [contradiction|reflexivity]|]);
  (split; [intros; first [contradiction|reflexivity]|]);
  intros;
  first [ contradiction
        | left; split; [intros ?; not_in_trace|reflexivity]
        | right; split; [eexists; reflexivity|split; [assumption|reflexivity]] ].

(** The return value and the trace of a path of the probe. *)
Ltac probe_result Ht Hrc :=
  pose proof (f_equal (from_option fst 0) Ht) as Hrc;
  apply (f_equal (from_option snd [])) in Ht;
  cbn [from_option fst snd] in Hrc, Ht;
  match type of Ht with _ = ?t => subst t end.

(** X20.  A probe that returns -ENODEV ends with the clean-up calls and
    has made none of them before: kfree alone when pci_enable_device failed;
    pci_disable_device and kfree when pci_request_regions failed; otherwise
    pci_release_regions, pci_disable_device and kfree, which iounmap precedes
    exactly when the last call before the clean-up was a uio_register_device
    that failed.  On every other path uio_register_device was not called and
    iounmap is not. *)
Theorem probe_enodev_cleanup (k : kernel) (dev : pci_dev) (t : list kcall) :
  (CSR_MAPPING_INDEX < MAX_UIO_MAPS)%nat ->
  nvram_uio_pci_probe k dev = Some (- ENODEV, t) ->
  let internal_addr :=
    k_ioremap_nocache k (ulong (pci_resource_start0 dev))
      (page_align_len (ulong (pci_resource_len0 dev))) in
  exists pre tail,
    t = pre ++ tail /\
    ((K_kfree ∉ pre) /\ (K_pci_disable_device ∉ pre) /\ (K_pci_release_regions ∉ pre) /\
     forall addr, K_iounmap addr ∉ pre) /\
    (k_pci_enable_device k <> 0 -> tail = out_free) /\
    (k_pci_enable_device k = 0 -> k_pci_request_regions k <> 0 -> tail = out_disable) /\
    (k_pci_enable_device k = 0 -> k_pci_request_regions k = 0 ->
     ((forall info, K_uio_register_device info ∉ pre) /\ tail = out_release)
     \/
     ((exists info, last pre = Some (K_uio_register_device info)) /\
      k_uio_register_device k <> 0 /\
      tail = out_unmap (if decide (CSR_MAPPING_INDEX = 0%nat) then internal_addr else 0))).
Proof.
  intros Hidx. probe_paths k; intros Ht; try discriminate Ht;
    probe_result Ht Hrc; try (unfold ENOMEM, ENODEV in Hrc; discriminate Hrc); clear Hrc;
    cbv zeta.
  all: first
    [ cleanup_path (out_unmap (if decide (CSR_MAPPING_INDEX = 0%nat)
                               then k_ioremap_nocache k (ulong (pci_resource_start0 dev))
                                      (page_align_len (ulong (pci_resource_len0 dev)))
                               else 0))
    | cleanup_path out_release
    | cleanup_path out_disable
    | cleanup_path out_free ].
Qed.

(** X21.  After a successful probe, nvram_uio_pci_remove on the uio_info
    the probe registered unregisters that uio_info and undoes the probe in
    another order than the probe's own clean-up: the regions are released
    and the device disabled before the window is unmapped.  It passes iounmap
    the internal address of mapping 0: the address ioremap_nocache returned
    when CSR_MAPPING_INDEX is 0, and NULL otherwise, when the remapped window
    stays mapped. *)
Theorem probe_then_remove (k : kernel) (dev : pci_dev) (t : list kcall) (info : uio_info) :
  (CSR_MAPPING_INDEX < MAX_UIO_MAPS)%nat ->
  nvram_uio_pci_probe k dev = Some (0, t) ->
  K_uio_register_device info ∈ t ->
  let internal_addr :=
    k_ioremap_nocache k (ulong (pci_resource_start0 dev))
      (page_align_len (ulong (pci_resource_len0 dev))) in
  last t = Some K_pci_set_drvdata /\
  internal_addr <> 0 /\
  nvram_uio_pci_remove info
  = [Rm_uio_unregister_device info; Rm_pci_release_regions; Rm_pci_disable_device;
     Rm_pci_set_drvdata_null;
     Rm_iounmap (if decide (CSR_MAPPING_INDEX = 0%nat) then internal_addr else 0);
     Rm_kfree].
Proof.
  intros Hidx. probe_paths k; intros Ht Hin; try discriminate Ht;
    probe_result Ht Hrc; try (unfold ENOMEM, ENODEV in Hrc; discriminate Hrc); clear Hrc;
    trace_cases Hin; injection Hin as ->; cbv zeta.
  split; [reflexivity|]. split; [exact Hmap|].
  unfold nvram_uio_pci_remove. cbn [info_mem]. do 4 f_equal.
  destruct (decide (CSR_MAPPING_INDEX = 0%nat)) as [Hz|Hz].
  - rewrite Hz. rewrite mem_at_insert by (rewrite length_insert; cbn; lia). reflexivity.
  - rewrite !mem_at_insert_ne by assumption. reflexivity.
Qed.

End Nvram_uio.

(** * Examples

    The theorems at a header with CSR_MAPPING_INDEX 0, the registers at
    offsets 0x00 (magic), 0x07 (memory), 0x04 (battery), 0x08 (LED) and 0x0C
    (error control), LED_FAULT 4, LED_FLIP 255, the LED states 0 to 3, and two
    magic numbers for each device. *)

Lemma sample_driver_name_ok : driver_name_ok sample_driver_name.
Proof. split; [repeat constructor; discriminate|simpl; lia]. Qed.

Lemma set_led_sets_field_witness :
  4 ∈ [0; 2; 4; 6] /\
  exists w',
    set_led 255 zeroed_context 4 1 (initial_world sample_mem) = (Ret (), w') /\
    Z.land (Z.shiftr (load8 w' 0) 4) 3 = 1.
Proof.
  assert (Hshift : 4 ∈ [0; 2; 4; 6]) by (apply (list_elem_of_lookup_2 _ 2%nat); reflexivity).
  split; [exact Hshift|].
  destruct (set_led_sets_field 255 zeroed_context (initial_world sample_mem) 4 1 Hshift
              ltac:(lia) ltac:(lia)) as (w' & Hrun & Hfield & _).
  exists w'. split; assumption.
Defined.

Lemma set_led_flip_involution_witness :
  exists w1 w2,
    set_led 255 zeroed_context 3 255 (initial_world sample_mem) = (Ret (), w1) /\
    set_led 255 zeroed_context 3 255 w1 = (Ret (), w2) /\
    load8 w2 0 = load8 (initial_world sample_mem) 0.
Proof.
  destruct (set_led_flip_involution 255 zeroed_context (initial_world sample_mem) 3
              ltac:(lia)) as (w1 & w2 & Hrun1 & Hrun2 & _ & _ & Hback).
  exists w1, w2. repeat split; assumption.
Defined.

Lemma magic_number_validation_witness :
  magic_number_loop [Some 0x5C; Some 0x5E; Some 0x100] 0x5E 0 2 = Some true /\
  magic_number_ok 2 0x5425 0x5E = Some true /\
  magic_number_ok 2 0x5425 0x5D = Some false.
Proof.
  destruct (magic_number_validation 2 0x5425 0x5E [0x5C; 0x5E] 0x100 []
              ltac:(lia) ltac:(lia) ltac:(repeat constructor) ltac:(lia)
              ltac:(simpl; lia))
    as (Hloop & _ & _ & _ & Hyes & Hno).
  split; [|split]; [|exact Hyes|exact Hno].
  refine (eq_trans Hloop _). vm_compute. reflexivity.
Defined.

Lemma open_uio_device_accessors_witness :
  let r := open_uio_device 0 0 7 4 8 12 (sample_os "0x10") sample_context
             (initial_world sample_mem) in
  exists context',
    r = (Ret context', snd r) /\
    csr context' = 65536 + 16 /\
    memctrlcmd_ledctrl context' = csr context' + 8 /\
    read8 (memctrlstatus_magic context') (snd r)
    = (Ret (load8 (snd r) (csr context' + 0)), snd r).
Proof.
  intros r.
  set (context' :=
         {| device_name := "uio1"; csr_mmap_offset := 16; csr_mmap_size := 4096;
            device_fd := 3; csr := 65552; memctrlstatus_magic := 65552;
            memctrlstatus_memory := 65559; memctrlstatus_battery := 65556;
            memctrlcmd_ledctrl := 65560; memctrlcmd_errctrl := 65564 |}).
  assert (Hopen : r = (Ret context', snd r)) by (vm_compute; reflexivity).
  destruct (open_uio_device_accessors 0 0 7 4 8 12 (sample_os "0x10") sample_context
              context' (initial_world sample_mem) (snd r) Hopen)
    as (fd & base & _ & _ & _ & _ & _ & _ & _ & Hled & _ & _).
  exists context'. split; [exact Hopen|]. split; [reflexivity|].
  split; [exact Hled|reflexivity].
Defined.

Lemma find_uio_device_first_match_witness :
  driver_name_ok sample_driver_name /\
  exists context' w',
    find_uio_device sample_driver_name (sample_os "0x0") (initial_world sample_mem)
    = (Ret context', w') /\
    device_name context' = "uio1" /\
    w_calls w'
    = [Sys_fopen "/sys/class/uio/./name"; Sys_fopen "/sys/class/uio/uio0/name";
       Sys_fopen "/sys/class/uio/uio1/name"].
Proof.
  split; [exact sample_driver_name_ok|].
  destruct (proj1 (find_uio_device_first_match sample_driver_name (sample_os "0x0")
                     (initial_world sample_mem) sample_driver_name_ok)
              [Dirent DT_DIR "."; Dirent DT_LNK "uio0"; Dirent DT_REG "README"]
              (Dirent DT_LNK "uio1") [Dirent DT_LNK "uio2"]
              eq_refl ltac:(vm_compute; reflexivity)
              ltac:(repeat constructor) eq_refl ltac:(vm_compute; reflexivity))
    as (context' & w' & Hrun & Hname & _ & _ & Hcalls).
  exists context', w'. split; [exact Hrun|]. split; [exact Hname|].
  rewrite Hcalls. vm_compute. reflexivity.
Defined.

Lemma main_exit_behaviour_witness :
  driver_name_ok sample_driver_name /\
  exists v1 v2 v3 v4,
    behaviour (main sample_driver_name 0 0 7 4 8 12 4 255 0 1 2 3 (sample_os "0x0")
                 sample_fscanf_0x_x (initial_world sample_mem))
    = (Ret EXIT_SUCCESS, register_lines 0 7 4 8 12 sample_mem 65536,
       [(65544, v1); (65544, v2); (65544, v3); (65544, v4)]) /\
    led_set_to (uint8 (sample_mem 65544)) 4 ON v1 /\
    led_set_to v1 4 FLASH_FAST v2 /\
    led_set_to v2 4 FLASH_SLOW v3 /\
    led_set_to v3 4 OFF v4.
Proof.
  split; [exact sample_driver_name_ok|].
  pose proof (main_exit_behaviour sample_driver_name 0 0 7 4 8 12 4 255 0 1 2 3
                (sample_os "0x0") sample_fscanf_0x_x sample_mem
                sample_driver_name_ok ltac:(reflexivity)) as (_ & _ & Hfound & _).
  specialize (Hfound [Dirent DT_DIR "."; Dirent DT_LNK "uio0"; Dirent DT_REG "README"]
                (Dirent DT_LNK "uio1") [Dirent DT_LNK "uio2"]
                eq_refl ltac:(vm_compute; reflexivity) ltac:(repeat constructor)
                ltac:(vm_compute; reflexivity)).
  destruct Hfound as (_ & _ & Hopened).
  specialize (Hopened 0 4096 ltac:(vm_compute; reflexivity) ltac:(lia)
                ltac:(vm_compute; reflexivity) ltac:(lia)).
  destruct Hopened as (_ & _ & Hmapped).
  assert (Hwindow : forall r, r ∈ [0; 7; 4; 8; 12] -> 0 <= 0 + r < 4096).
  { intros r Hr. repeat (apply elem_of_cons in Hr as [->|Hr]; [lia|]).
    apply elem_of_nil in Hr. contradiction. }
  assert (Hflip : 255 ∉ [OFF; ON; FLASH_SLOW; FLASH_FAST]).
  { intros Hin. repeat (apply elem_of_cons in Hin as [Hin|Hin]; [discriminate Hin|]).
    apply elem_of_nil in Hin. exact Hin. }
  destruct (Hmapped 16%N ltac:(vm_compute; discriminate) ltac:(reflexivity)
              ltac:(reflexivity) Hwindow
              ltac:(apply (list_elem_of_lookup_2 _ 2%nat); reflexivity)
              eq_refl eq_refl eq_refl eq_refl Hflip)
    as (v1 & v2 & v3 & v4 & Hrun & H1 & H2 & H3 & H4 & _).
  exists v1, v2, v3, v4. split; [exact Hrun|]. split; [exact H1|]. split; [exact H2|].
  split; [exact H3|exact H4].
Defined.

(** The order of the LED states in the specification, ON, FLASH_SLOW,
    FLASH_FAST, OFF, is not the order of the code: at the header of the
    examples, where LED_FLASH_3_5 is 2 (FLASH_SLOW) and LED_FLASH_7_0 is 3
    (FLASH_FAST), the successful run of main leaves the states ON, FLASH_FAST,
    FLASH_SLOW, OFF in the field of LED_FAULT, in that order. *)
Lemma main_led_order_counterexample :
  fst (main sample_driver_name 0 0 7 4 8 12 4 255 0 1 2 3 (sample_os "0x0")
         sample_fscanf_0x_x (initial_world sample_mem))
  = Ret EXIT_SUCCESS /\
  (fun aw : Z * Z => led_field 4 (snd aw))
    <$> reg_writes (w_calls (snd (main sample_driver_name 0 0 7 4 8 12 4 255 0 1 2 3
                                    (sample_os "0x0") sample_fscanf_0x_x
                                    (initial_world sample_mem))))
  = [ON; FLASH_FAST; FLASH_SLOW; OFF] /\
  (fun aw : Z * Z => led_field 4 (snd aw))
    <$> reg_writes (w_calls (snd (main sample_driver_name 0 0 7 4 8 12 4 255 0 1 2 3
                                    (sample_os "0x0") sample_fscanf_0x_x
                                    (initial_world sample_mem))))
  <> spec_led_order.
Proof.
  assert (Hstates :
            (fun aw : Z * Z => led_field 4 (snd aw))
              <$> reg_writes (w_calls (snd (main sample_driver_name 0 0 7 4 8 12 4 255 0 1 2 3
                                              (sample_os "0x0") sample_fscanf_0x_x
                                              (initial_world sample_mem))))
            = [ON; FLASH_FAST; FLASH_SLOW; OFF]) by (vm_compute; reflexivity).
  split; [vm_compute; reflexivity|]. split; [exact Hstates|].
  rewrite Hstates. discriminate.
Qed.

Lemma unrecognized_variant_rejected_witness :
  (forall b, 0 <= b < 0x100 -> magic_number_ok 2 0x1234 b = Some false) /\
  exists rc t,
    nvram_uio_pci_probe sample_driver_name 0 0 2 4096 64 sample_kernel (sample_dev 0x1234)
    = Some (rc, t) /\ rc < 0.
Proof.
  assert (Hdev : device (sample_dev 0x1234) ∉ [0x5415; 0x5425; 0x6155]).
  { cbn [device sample_dev]. intros Hin.
    repeat (apply elem_of_cons in Hin as [Hin|Hin]; [discriminate Hin|]).
    apply elem_of_nil in Hin. exact Hin. }
  destruct (unrecognized_variant_rejected sample_driver_name 0 0 2 4096 64 sample_kernel
              (sample_dev 0x1234) Hdev ltac:(unfold MAX_UIO_MAPS; lia))
    as (_ & _ & Hnone & rc & t & Hrun & Hrc & _).
  split; [exact Hnone|]. exists rc, t. split; assumption.
Defined.

Lemma page_aligned_csr_len_witness :
  page_align_len 4096 64 (ulong 64 (pci_resource_len0 (sample_dev 0x5425))) = 4096 /\
  exists pages,
    page_align_len 4096 64 (ulong 64 (pci_resource_len0 (sample_dev 0x5425)))
    = pages * 4096.
Proof.
  split; [reflexivity|].
  exact (proj1 (page_aligned_csr_len sample_driver_name 0 0 2 4096 64 sample_kernel
                  (sample_dev 0x5425) ltac:(lia) ltac:(lia)
                  ltac:(vm_compute; reflexivity))).
Defined.

Lemma unreadable_entry_skipped_witness :
  find_uio_device_entry sample_driver_name (sample_os "0x0") (Dirent DT_LNK "uio2")
    zeroed_context (initial_world sample_mem)
  = (Ret (false, zeroed_context),
     log_call (Sys_fopen "/sys/class/uio/uio2/name") (initial_world sample_mem)).
Proof.
  refine (proj1 (unreadable_entry_skipped sample_driver_name (sample_os "0x0")
                   (Dirent DT_LNK "uio2") zeroed_context (initial_world sample_mem) _ _)).
  - reflexivity.
  - left. vm_compute. reflexivity.
Defined.

(** C5 at a device whose registers start 16 bytes into their page: the
    device is opened and mapped at 0x10000, the csr base is 0x10010, and
    close_uio_device hands that address to munmap.  munmap fails, the program
    exits with EXIT_FAILURE, close is never called, and the page and the
    descriptor are still held. *)
Theorem close_uio_device_unaligned_offset :
  exists context' w' w'',
    open_uio_device 0 0 7 4 8 12 (sample_os "0x10") sample_context (initial_world sample_mem)
    = (Ret context', w') /\
    w_mapped w' = [65536] /\ w_fds w' = [3] /\
    close_uio_device (sample_os "0x10") context' w' = (Exit EXIT_FAILURE, w'') /\
    w_calls w''
    = [Sys_open "/dev/uio1" 3; Sys_mmap 4096 3 0 65536; Sys_munmap 65552 4096 (-1)] /\
    w_mapped w'' = [65536] /\ w_fds w'' = [3] /\
    behaviour (main sample_driver_name 0 0 7 4 8 12 4 255 0 1 2 3 (sample_os "0x10")
                 sample_fscanf_0x_x (initial_world sample_mem))
    = (Exit EXIT_FAILURE,
       register_lines 0 7 4 8 12 sample_mem 65552
         ++ [Printf "Failed to munmap %s\n" [Arg_s "uio1"]],
       led_transitions 8 4 255 0 1 2 3 sample_mem 65552).
Proof.
  eexists _, _, _.
  split; [vm_compute; reflexivity|].
  split; [reflexivity|]. split; [reflexivity|].
  split; [vm_compute; reflexivity|].
  split; [reflexivity|]. split; [reflexivity|]. split; [reflexivity|].
  vm_compute. reflexivity.
Qed.

(** ** The further properties at the header of the examples *)

Lemma set_led_overwrites_witness :
  exists w12 w2,
    (set_led 255 zeroed_context 4 1 ≫= fun _ => set_led 255 zeroed_context 4 2)
      (initial_world sample_mem) = (Ret (), w12) /\
    set_led 255 zeroed_context 4 2 (initial_world sample_mem) = (Ret (), w2) /\
    load8 w12 0 = load8 w2 0.
Proof.
  exact (set_led_overwrites 255 zeroed_context (initial_world sample_mem) 4 1 2
           ltac:(apply (list_elem_of_lookup_2 _ 2%nat); reflexivity)
           ltac:(lia) ltac:(lia) ltac:(lia) ltac:(lia)).
Defined.

Lemma set_led_commutes_witness :
  exists w12 w21,
    (set_led 255 zeroed_context 4 1 ≫= fun _ => set_led 255 zeroed_context 2 3)
      (initial_world sample_mem) = (Ret (), w12) /\
    (set_led 255 zeroed_context 2 3 ≫= fun _ => set_led 255 zeroed_context 4 1)
      (initial_world sample_mem) = (Ret (), w21) /\
    load8 w12 0 = load8 w21 0.
Proof.
  exact (set_led_commutes 255 zeroed_context (initial_world sample_mem) 4 1 2 3
           ltac:(apply (list_elem_of_lookup_2 _ 2%nat); reflexivity)
           ltac:(apply (list_elem_of_lookup_2 _ 1%nat); reflexivity)
           ltac:(lia) ltac:(lia) ltac:(lia) ltac:(lia) ltac:(lia)).
Defined.

Lemma set_led_flip_out_of_range_witness :
  exists w',
    set_led 255 zeroed_context 8 255 (initial_world sample_mem) = (Ret (), w') /\
    load8 w' 0 = load8 (initial_world sample_mem) 0.
Proof.
  exact (set_led_flip_out_of_range 255 zeroed_context (initial_world sample_mem) 8
           ltac:(lia)).
Defined.

Lemma set_led_state_not_masked_witness :
  exists w',
    set_led 255 zeroed_context 2 7 (initial_world sample_mem) = (Ret (), w') /\
    Z.testbit (load8 w' 0) 4 = Z.testbit (load8 (initial_world sample_mem) 0) 4 || true.
Proof.
  exact (set_led_state_not_masked 255 zeroed_context (initial_world sample_mem) 2 7 4
           ltac:(lia) ltac:(lia) ltac:(lia) ltac:(lia)).
Defined.

Lemma main_led_sequence_witness :
  exists w',
    (set_led 255 zeroed_context 4 1;; set_led 255 zeroed_context 4 3;;
     set_led 255 zeroed_context 4 2;; set_led 255 zeroed_context 4 0)
      (initial_world sample_mem) = (Ret (), w') /\
    Z.land (Z.shiftr (load8 w' 0) 4) 3 = 0.
Proof.
  destruct (main_led_sequence 4 255 0 1 2 3 zeroed_context (initial_world sample_mem)
              ltac:(apply (list_elem_of_lookup_2 _ 2%nat); reflexivity)
              ltac:(repeat constructor; lia))
    as (w' & Hrun & _ & _ & Hfield & _).
  exists w'. split; assumption.
Defined.

Lemma open_close_round_trip_witness :
  let r := open_uio_device 0 0 7 4 8 12 (sample_os "0x0") (sample_context_at 0)
             (initial_world sample_mem) in
  exists context' context'' w'',
    r = (Ret context', snd r) /\
    close_uio_device (sample_os "0x0") context' (snd r) = (Ret context'', w'') /\
    csr context'' = 0 /\ w_mapped w'' = [] /\ w_fds w'' = [].
Proof.
  intros r.
  set (context' :=
         {| device_name := "uio1"; csr_mmap_offset := 0; csr_mmap_size := 4096;
            device_fd := 3; csr := 65536; memctrlstatus_magic := 65536;
            memctrlstatus_memory := 65543; memctrlstatus_battery := 65540;
            memctrlcmd_ledctrl := 65544; memctrlcmd_errctrl := 65548 |}).
  assert (Hopen : r = (Ret context', snd r)) by (vm_compute; reflexivity).
  destruct (open_close_round_trip 0 0 7 4 8 12 (sample_os "0x0") (sample_context_at 0)
              context' (initial_world sample_mem) (snd r)
              ltac:(reflexivity) eq_refl ltac:(reflexivity) Hopen
              ltac:(constructor) ltac:(apply not_elem_of_nil))
    as (context'' & w'' & Hclose & Hcsr & Hmapped & Hfds & _).
  exists context', context'', w''. repeat split; assumption.
Defined.

Lemma close_uio_device_offset_witness :
  let r := open_uio_device 0 0 7 4 8 12 (sample_os "0x10") sample_context
             (initial_world sample_mem) in
  exists context' w'',
    r = (Ret context', snd r) /\
    close_uio_device (sample_os "0x10") context' (snd r) = (Exit EXIT_FAILURE, w'') /\
    w_mapped w'' = w_mapped (snd r) /\ w_fds w'' = w_fds (snd r).
Proof.
  intros r.
  set (context' :=
         {| device_name := "uio1"; csr_mmap_offset := 16; csr_mmap_size := 4096;
            device_fd := 3; csr := 65552; memctrlstatus_magic := 65552;
            memctrlstatus_memory := 65559; memctrlstatus_battery := 65556;
            memctrlcmd_ledctrl := 65560; memctrlcmd_errctrl := 65564 |}).
  assert (Hopen : r = (Ret context', snd r)) by (vm_compute; reflexivity).
  destruct (close_uio_device_offset 0 0 7 4 8 12 (sample_os "0x10") sample_context
              context' (initial_world sample_mem) (snd r)
              ltac:(reflexivity) Hopen ltac:(vm_compute; discriminate))
    as (w'' & Hclose & Hmapped & Hfds & _).
  exists context', w''. repeat split; assumption.
Defined.

Lemma close_uio_device_leaves_first_page_witness :
  let r := open_uio_device 0 0 7 4 8 12 (sample_os "0x1000") (sample_context_at 4096)
             (initial_world sample_mem) in
  exists context' context'' w'',
    r = (Ret context', snd r) /\
    close_uio_device (sample_os "0x1000") context' (snd r) = (Ret context'', w'') /\
    65536 ∈ w_mapped w''.
Proof.
  intros r.
  set (context' :=
         {| device_name := "uio1"; csr_mmap_offset := 4096; csr_mmap_size := 4096;
            device_fd := 3; csr := 69632; memctrlstatus_magic := 69632;
            memctrlstatus_memory := 69639; memctrlstatus_battery := 69636;
            memctrlcmd_ledctrl := 69640; memctrlcmd_errctrl := 69644 |}).
  assert (Hopen : r = (Ret context', snd r)) by (vm_compute; reflexivity).
  destruct (close_uio_device_leaves_first_page 0 0 7 4 8 12 (sample_os "0x1000")
              (sample_context_at 4096) context' (initial_world sample_mem) (snd r)
              ltac:(reflexivity) Hopen ltac:(reflexivity) ltac:(reflexivity)
              ltac:(reflexivity))
    as (context'' & w'' & Hclose & _ & Hpage).
  exists context', context'', w''. repeat split; assumption.
Defined.

Lemma open_uio_device_failure_witness :
  let r := open_uio_device 0 0 7 4 8 12 (sample_os "0x0")
             (set_device_name sample_context "uio9") (initial_world sample_mem) in
  r = (Exit EXIT_FAILURE, snd r) /\
  w_mapped (snd r) = [].
Proof.
  intros r.
  assert (Hopen : r = (Exit EXIT_FAILURE, snd r)) by (vm_compute; reflexivity).
  split; [exact Hopen|].
  exact (proj1 (proj2 (open_uio_device_failure 0 0 7 4 8 12 (sample_os "0x0")
                         (set_device_name sample_context "uio9")
                         (initial_world sample_mem) (snd r) EXIT_FAILURE
                         ltac:(reflexivity) Hopen))).
Defined.

Lemma find_uio_device_entry_first_line_witness :
  let os := sample_os_name (sample_driver_name ++ newline :: list_ascii_of_string "second") in
  find_uio_device_entry sample_driver_name os (Dirent DT_LNK "uio1") zeroed_context
    (initial_world sample_mem)
  = (Ret (true, set_device_name zeroed_context "uio1"),
     log_call (Sys_fopen "/sys/class/uio/uio1/name") (initial_world sample_mem)) /\
  spec_matches sample_driver_name os (Dirent DT_LNK "uio1") = false.
Proof.
  intros os.
  destruct (find_uio_device_entry_first_line sample_driver_name os (Dirent DT_LNK "uio1")
              zeroed_context (initial_world sample_mem) (list_ascii_of_string "second")
              sample_driver_name_ok ltac:(repeat constructor; discriminate)
              eq_refl ltac:(vm_compute; reflexivity))
    as [Hrun Hspec].
  split; [exact Hrun|]. apply Hspec. discriminate.
Defined.

Lemma other_entries_ignored_witness :
  find_uio_device_loop sample_driver_name (sample_os "0x0")
    ([Dirent DT_DIR "."; Dirent DT_LNK "uio0"] ++ Dirent DT_REG "README"
       :: [Dirent DT_LNK "uio1"; Dirent DT_LNK "uio2"])
    false zeroed_context (initial_world sample_mem)
  = find_uio_device_loop sample_driver_name (sample_os "0x0")
      ([Dirent DT_DIR "."; Dirent DT_LNK "uio0"] ++ [Dirent DT_LNK "uio1"; Dirent DT_LNK "uio2"])
      false zeroed_context (initial_world sample_mem).
Proof.
  exact (other_entries_ignored sample_driver_name (sample_os "0x0") (Dirent DT_REG "README")
           [Dirent DT_DIR "."; Dirent DT_LNK "uio0"]
           [Dirent DT_LNK "uio1"; Dirent DT_LNK "uio2"]
           eq_refl false zeroed_context (initial_world sample_mem)).
Defined.

Lemma main_writes_only_led_witness :
  exists v1 v2 v3 v4,
    reg_writes (w_calls (snd (main sample_driver_name 0 0 7 4 8 12 4 255 0 1 2 3
                                (sample_os "0x0") sample_fscanf_0x_x
                                (initial_world sample_mem))))
    = [(65544, v1); (65544, v2); (65544, v3); (65544, v4)].
Proof.
  destruct (main_writes_only_led sample_driver_name 0 0 7 4 8 12 4 255 0 1 2 3
              (sample_os "0x0") sample_fscanf_0x_x sample_mem ltac:(reflexivity))
    as [Hnone|(context & w1 & offset & size & page & Hfind & Hoffset & Hsize & Hmmap
               & Hwrites)].
  - vm_compute in Hnone. discriminate Hnone.
  - assert (Hname : device_name context = "uio1").
    { apply (f_equal (fun r => match fst r with
                               | Ret c => device_name c
                               | _ => EmptyString
                               end)) in Hfind.
      symmetry. exact Hfind. }
    rewrite Hname in Hoffset, Hsize, Hmmap.
    assert (Hoffset0 : offset = 0) by (vm_compute in Hoffset; congruence).
    assert (Hsize0 : size = 4096) by (vm_compute in Hsize; congruence).
    rewrite Hsize0 in Hmmap.
    assert (Hpage : page = 16%N) by (vm_compute in Hmmap; congruence).
    rewrite Hoffset0, Hsize0, Hpage in Hwrites. cbv zeta in Hwrites.
    destruct Hwrites as [_ Hfour].
    + intros r Hr. repeat (apply elem_of_cons in Hr as [->|Hr]; [lia|]).
      apply elem_of_nil in Hr. contradiction.
    + exact Hfour.
Defined.

Lemma probe_attaches_iff_witness :
  exists t,
    nvram_uio_pci_probe sample_driver_name 0 0 2 4096 64 sample_kernel (sample_dev 0x5425)
    = Some (0, t).
Proof.
  refine (proj2 (proj1 (probe_attaches_iff sample_driver_name 0 0 2 4096 64 sample_kernel
                          (sample_dev 0x5425) _ _)) _).
  - unfold MAX_UIO_MAPS. lia.
  - lia.
  - repeat split; try reflexivity; try (vm_compute; discriminate).
    apply (list_elem_of_lookup_2 _ 1%nat). reflexivity.
Defined.

Lemma probe_reads_magic_through_mem0_witness :
  let r := nvram_uio_pci_probe sample_driver_name 0 0 2 4096 64 sample_kernel
             (sample_dev 0x5425) in
  let t := from_option snd [] r in
  r = Some (0, t) /\
  K_readb 0xFE00C000 ∈ t /\
  (0%nat = 0%nat -> 0xFE00C000 = 0xFE00C000 + 0).
Proof.
  intros r t.
  assert (Hr : r = Some (0, t)) by (vm_compute; reflexivity).
  assert (Hin : K_readb 0xFE00C000 ∈ t)
    by (apply (list_elem_of_lookup_2 _ 9%nat); vm_compute; reflexivity).
  split; [exact Hr|]. split; [exact Hin|].
  exact (proj1 (probe_reads_magic_through_mem0 sample_driver_name 0 0 2 4096 64 sample_kernel
                  (sample_dev 0x5425) 0 t 0xFE00C000
                  ltac:(unfold MAX_UIO_MAPS; lia) Hr Hin)).
Defined.

Lemma probe_registered_info_witness :
  let r := nvram_uio_pci_probe sample_driver_name 0 0 2 4096 64 sample_kernel
             (sample_dev 0x5425) in
  let t := from_option snd [] r in
  r = Some (0, t) /\
  K_uio_register_device sample_info ∈ t /\
  info_irq sample_info = 11 /\
  length (info_mem sample_info) = MAX_UIO_MAPS.
Proof.
  intros r t.
  assert (Hr : r = Some (0, t)) by (vm_compute; reflexivity).
  assert (Hin : K_uio_register_device sample_info ∈ t)
    by (apply (list_elem_of_lookup_2 _ 10%nat); vm_compute; reflexivity).
  split; [exact Hr|]. split; [exact Hin|].
  destruct (probe_registered_info sample_driver_name 0 0 2 4096 64 sample_kernel
              (sample_dev 0x5425) 0 t sample_info
              ltac:(unfold MAX_UIO_MAPS; lia) Hr Hin)
    as (_ & _ & Hirq & _ & Hlen & _).
  split; [exact Hirq|exact Hlen].
Defined.

Lemma probe_dma_mask_failure_witness :
  exists t,
    nvram_uio_pci_probe sample_driver_name 0 0 2 4096 64 (sample_kernel_with (-5) 0)
      (sample_dev 0x5425)
    = Some (- ENOMEM, t) /\
    (K_kfree ∉ t) /\ (K_pci_disable_device ∉ t).
Proof.
  destruct (probe_dma_mask_failure sample_driver_name 0 0 2 4096 64 (sample_kernel_with (-5) 0)
              (sample_dev 0x5425) eq_refl eq_refl ltac:(discriminate))
    as (t & Hrun & _ & _ & _ & Hfree & Hdisable).
  exists t. repeat split; assumption.
Defined.

Lemma probe_iounmap_only_after_register_witness :
  let r := nvram_uio_pci_probe sample_driver_name 0 0 2 4096 64 (sample_kernel_with 0 (-22))
             (sample_dev 0x5425) in
  let t := from_option snd [] r in
  r = Some (- ENODEV, t) /\
  forall addr, K_iounmap addr ∈ t -> exists info, K_uio_register_device info ∈ t.
Proof.
  intros r t.
  assert (Hr : r = Some (- ENODEV, t)) by (vm_compute; reflexivity).
  split; [exact Hr|]. intros addr Hin.
  exact (proj2 (proj2 (proj1 (probe_iounmap_only_after_register sample_driver_name 0 0 2 4096
                                64 (sample_kernel_with 0 (-22)) (sample_dev 0x5425)
                                (- ENODEV) t ltac:(unfold MAX_UIO_MAPS; lia) Hr)
                         addr Hin))).
Defined.

Lemma page_align_len_overflow_witness :
  page_align_len 4096 64 (ulong 64 (pci_resource_len0 (sample_dev_len (2 ^ 64 - 1)))) = 0.
Proof.
  exact (proj1 (page_align_len_overflow sample_driver_name 0 0 2 4096 64 sample_kernel
                  (sample_dev_len (2 ^ 64 - 1)) ltac:(lia)
                  ltac:(split; [reflexivity|vm_compute; discriminate])
                  ltac:(vm_compute; discriminate))).
Defined.

Lemma magic_number_ok_defined_witness :
  is_Some (magic_number_ok 2 0x5425 0x5E) <->
  (length (spec_magic_candidates 0x5425) <= 2)%nat.
Proof.
  exact (magic_number_ok_defined 2 0x5425 0x5E ltac:(lia)).
Defined.

Lemma probe_enodev_cleanup_witness :
  let r := nvram_uio_pci_probe sample_driver_name 0 0 2 4096 64 (sample_kernel_with 0 (-22))
             (sample_dev 0x5425) in
  let t := from_option snd [] r in
  r = Some (- ENODEV, t) /\
  exists pre tail,
    t = pre ++ tail /\ (K_kfree ∉ pre) /\
    (((forall info, K_uio_register_device info ∉ pre) /\ tail = out_release)
     \/
     ((exists info, last pre = Some (K_uio_register_device info)) /\
      tail = out_unmap 0xFE00C000)).
Proof.
  intros r t.
  assert (Hr : r = Some (- ENODEV, t)) by (vm_compute; reflexivity).
  split; [exact Hr|].
  destruct (probe_enodev_cleanup sample_driver_name 0 0 2 4096 64 (sample_kernel_with 0 (-22))
              (sample_dev 0x5425) t ltac:(unfold MAX_UIO_MAPS; lia) Hr)
    as (pre & tail & Hsplit & (Hfree & _) & _ & _ & Htail).
  exists pre, tail. split; [exact Hsplit|]. split; [exact Hfree|].
  destruct (Htail eq_refl eq_refl) as [[Hno Hrelease]|[Hregister [_ Hunmap]]].
  - left. split; assumption.
  - right. split; [exact Hregister|exact Hunmap].
Defined.

Lemma probe_then_remove_witness :
  let r := nvram_uio_pci_probe sample_driver_name 0 0 2 4096 64 sample_kernel
             (sample_dev 0x5425) in
  let t := from_option snd [] r in
  r = Some (0, t) /\
  K_uio_register_device sample_info ∈ t /\
  nvram_uio_pci_remove sample_info
  = [Rm_uio_unregister_device sample_info; Rm_pci_release_regions; Rm_pci_disable_device;
     Rm_pci_set_drvdata_null; Rm_iounmap 0xFE00C000; Rm_kfree].
Proof.
  intros r t.
  assert (Hr : r = Some (0, t)) by (vm_compute; reflexivity).
  assert (Hin : K_uio_register_device sample_info ∈ t)
    by (apply (list_elem_of_lookup_2 _ 10%nat); vm_compute; reflexivity).
  split; [exact Hr|]. split; [exact Hin|].
  exact (proj2 (proj2 (probe_then_remove sample_driver_name 0 0 2 4096 64 sample_kernel
                         (sample_dev 0x5425) t sample_info
                         ltac:(unfold MAX_UIO_MAPS; lia) Hr Hin))).
Defined.
